(** * CLIve backend: command routing, circuit breaker and session store

    A shallow embedding of the command-routing core of the backend
    (src/backend/services/integration_service.py,
     src/backend/services/session_service.py,
     src/backend/services/agent_service.py,
     src/backend/middleware/integration_error_handling.py,
     src/backend/models/*.py) together with the properties its
    specification states about it.

    Conventions.
    - A Python [str] is a [string]: the UTF-8 bytes of the text.
      Whitespace is the whitespace of [str.strip], inside and outside
      ASCII.  [str.lower] folds the ASCII letters and maps the two
      characters outside ASCII whose lowercase form holds an ASCII
      letter; the other characters outside ASCII are kept, see
      [Py.lower].
    - A Python [dict] whose insertion order is observable (it is printed
      by [str]) is an association list.
    - A [datetime] is a number of microseconds since the epoch, a [Z].
    - Exceptions are values of [exn]; code that can raise runs in the
      monad [M], which threads the process state [World]. *)

From Stdlib Require Import Ascii ZArith Lia Permutation Sorted.
From Stdlib Require String.
From stdpp Require Import base numbers list strings gmap pretty.

Set Warnings "-register-all".

Open Scope Z_scope.

(* ===================================================================== *)
(** * Python strings *)
(* ===================================================================== *)

Module Py.

(** [c.lower()] for one ASCII character. *)
Definition lower_char (c : ascii) : ascii :=
  let n := nat_of_ascii c in
  if (Nat.leb 65 n && Nat.leb n 90)%bool then ascii_of_nat (n + 32) else c.

(** The bytes of U+0130, LATIN CAPITAL LETTER I WITH DOT ABOVE, and of
    U+212A, KELVIN SIGN. *)
Definition is_dotted_capital_i (c1 c2 : ascii) : bool :=
  (Nat.eqb (nat_of_ascii c1) 196 && Nat.eqb (nat_of_ascii c2) 176)%bool.

Definition is_kelvin_sign (c1 c2 c3 : ascii) : bool :=
  (Nat.eqb (nat_of_ascii c1) 226 && Nat.eqb (nat_of_ascii c2) 132
   && Nat.eqb (nat_of_ascii c3) 170)%bool.

(** [s.lower()].  The ASCII letters are folded.  Two characters outside
    ASCII have a lowercase form that holds an ASCII letter, and are
    mapped as [str.lower] maps them: U+0130 to [i] followed by U+0307
    (the bytes 204 135), and U+212A to [k].  Every other character
    outside ASCII is kept as it is: its lowercase form is again outside
    ASCII, and the modelled code compares lowered text with ASCII words
    only.  On a text for which [isascii] holds, the result is the text
    that [str.lower] returns. *)
Fixpoint lower (s : string) : string :=
  match s with
  | EmptyString => EmptyString
  | String c1 s1 =>
      match s1 with
      | EmptyString => String (lower_char c1) EmptyString
      | String c2 s2 =>
          if is_dotted_capital_i c1 c2
          then String (ascii_of_nat 105)
                 (String (ascii_of_nat 204) (String (ascii_of_nat 135) (lower s2)))
          else
            match s2 with
            | EmptyString => String (lower_char c1) (lower s1)
            | String c3 s3 =>
                if is_kelvin_sign c1 c2 c3 then String (ascii_of_nat 107) (lower s3)
                else String (lower_char c1) (lower s1)
            end
      end
  end.

(** [s.isascii()] *)
Fixpoint isascii (s : string) : bool :=
  match s with
  | EmptyString => true
  | String c s' => (Nat.ltb (nat_of_ascii c) 128 && isascii s')%bool
  end.

(** The whitespace of [str.strip] and [str.isspace].  In ASCII: TAB, LF,
    VT, FF, CR, FS, GS, RS, US and SPACE. *)
Definition isspace (c : ascii) : bool :=
  let n := nat_of_ascii c in
  ((Nat.leb 9 n && Nat.leb n 13) || (Nat.leb 28 n && Nat.leb n 32))%bool.

(** Outside ASCII, by the bytes of the character: U+0085 and U+00A0
    (194 133, 194 160); *)
Definition isspace2 (c1 c2 : ascii) : bool :=
  let n1 := nat_of_ascii c1 in
  let n2 := nat_of_ascii c2 in
  (Nat.eqb n1 194 && (Nat.eqb n2 133 || Nat.eqb n2 160))%bool.

(** U+1680 (225 154 128), U+2000 to U+200A (226 128 128 to 226 128
    138), U+2028, U+2029 and U+202F (226 128 168, 169 and 175), U+205F
    (226 129 159) and U+3000 (227 128 128). *)
Definition isspace3 (c1 c2 c3 : ascii) : bool :=
  let n1 := nat_of_ascii c1 in
  let n2 := nat_of_ascii c2 in
  let n3 := nat_of_ascii c3 in
  ((Nat.eqb n1 225 && Nat.eqb n2 154 && Nat.eqb n3 128)
   || (Nat.eqb n1 226 && Nat.eqb n2 128
       && ((Nat.leb 128 n3 && Nat.leb n3 138)
           || Nat.eqb n3 168 || Nat.eqb n3 169 || Nat.eqb n3 175))
   || (Nat.eqb n1 226 && Nat.eqb n2 129 && Nat.eqb n3 159)
   || (Nat.eqb n1 227 && Nat.eqb n2 128 && Nat.eqb n3 128))%bool.

Definition is_empty (s : string) : bool :=
  match s with EmptyString => true | _ => false end.

(** [s.lstrip()]: the whitespace characters at the start are dropped. *)
Fixpoint lstrip (s : string) : string :=
  match s with
  | EmptyString => EmptyString
  | String c1 s1 =>
      if isspace c1 then lstrip s1
      else
        match s1 with
        | EmptyString => s
        | String c2 s2 =>
            if isspace2 c1 c2 then lstrip s2
            else
              match s2 with
              | EmptyString => s
              | String c3 s3 => if isspace3 c1 c2 c3 then lstrip s3 else s
              end
        end
  end.

(** [s.rstrip()]: the text is cut where nothing but whitespace
    follows. *)
Fixpoint rstrip (s : string) : string :=
  match s with
  | EmptyString => EmptyString
  | String c s' => if is_empty (lstrip s) then EmptyString else String c (rstrip s')
  end.

(** [s.strip()] *)
Definition strip (s : string) : string := rstrip (lstrip s).

(** [sub in s] *)
Fixpoint contains (sub s : string) : bool :=
  (String.prefix sub s ||
   match s with
   | EmptyString => false
   | String _ s' => contains sub s'
   end)%bool.

(** The position of the first occurrence, [s.find(sub)], [None] for -1. *)
Fixpoint find (sub s : string) : option nat :=
  if String.prefix sub s then Some O
  else match s with
       | EmptyString => None
       | String _ s' => S <$> find sub s'
       end.

(** [sep.join(parts)] *)
Fixpoint join (sep : string) (parts : list string) : string :=
  match parts with
  | [] => ""
  | [p] => p
  | p :: ps => p +:+ sep +:+ join sep ps
  end.

(** [bool(s)]: a string is true when it is not empty. *)
Definition truthy (s : string) : bool := negb (is_empty s).

(** [len(s)]: the number of code points, that is of bytes that are not
    UTF-8 continuation bytes. *)
Fixpoint len (s : string) : Z :=
  match s with
  | EmptyString => 0
  | String c s' =>
      let n := nat_of_ascii c in
      (if (Nat.leb 128 n && Nat.leb n 191)%bool then 0 else 1) + len s'
  end.

Definition is_lower_char (c : ascii) : bool :=
  let n := nat_of_ascii c in (Nat.leb 97 n && Nat.leb n 122)%bool.
Definition is_upper_char (c : ascii) : bool :=
  let n := nat_of_ascii c in (Nat.leb 65 n && Nat.leb n 90)%bool.
Definition upper_char (c : ascii) : ascii :=
  if is_lower_char c then ascii_of_nat (nat_of_ascii c - 32) else c.

(** [s.title()]: a cased character is upper-cased after an uncased one
    and lower-cased after a cased one. *)
Fixpoint title_from (previous_is_cased : bool) (s : string) : string :=
  match s with
  | EmptyString => EmptyString
  | String c s' =>
      if is_lower_char c then
        String (if previous_is_cased then c else upper_char c) (title_from true s')
      else if is_upper_char c then
        String (if previous_is_cased then lower_char c else c) (title_from true s')
      else String c (title_from false s')
  end.
Definition title (s : string) : string := title_from false s.

(** [s.replace(old, new)] for a non-empty [old]: occurrences are replaced
    from the left and do not overlap.  [skip] counts the characters of
    the occurrence being replaced that are still to be dropped. *)
Fixpoint replace_from (skip : nat) (old new s : string) : string :=
  match s with
  | EmptyString => EmptyString
  | String c s' =>
      match skip with
      | S k => replace_from k old new s'
      | O =>
          if String.prefix old s
          then new +:+ replace_from (String.length old - 1) old new s'
          else String c (replace_from O old new s')
      end
  end.
Definition replace (old new s : string) : string := replace_from O old new s.

Definition hex_digit (n : nat) : ascii :=
  if Nat.ltb n 10 then ascii_of_nat (48 + n) else ascii_of_nat (87 + n).

Definition backslash : ascii := ascii_of_nat 92.
Definition single_quote : ascii := ascii_of_nat 39.
Definition double_quote : ascii := ascii_of_nat 34.
Definition char (c : ascii) : string := String c EmptyString.

(** [\xNN], the escape of the character number [n] below 256. *)
Definition hex_escape (n : nat) : string :=
  String backslash
    (String "x" (String (hex_digit (n / 16)) (char (hex_digit (n mod 16))))).

(** One ASCII character of [repr(s)] inside the quote [q]; a byte of a
    character outside ASCII is kept. *)
Definition repr_char (q c : ascii) : string :=
  let n := nat_of_ascii c in
  if Ascii.eqb c backslash then String backslash (char backslash)
  else if Ascii.eqb c q then String backslash (char q)
  else if Nat.eqb n 9 then String backslash "t"
  else if Nat.eqb n 10 then String backslash "n"
  else if Nat.eqb n 13 then String backslash "r"
  else if (Nat.ltb n 32 || Nat.eqb n 127)%bool then hex_escape n
  else char c.

(** The characters from U+0080 to U+00FF that are not printable: the
    controls U+0080 to U+009F, U+00A0 and U+00AD.  The bytes of such a
    character are 194 and the number of the character. *)
Definition latin1_unprintable (c1 c2 : ascii) : bool :=
  let n2 := nat_of_ascii c2 in
  (Nat.eqb (nat_of_ascii c1) 194
   && ((Nat.leb 128 n2 && Nat.leb n2 160) || Nat.eqb n2 173))%bool.

Fixpoint repr_chars (q : ascii) (s : string) : string :=
  match s with
  | EmptyString => EmptyString
  | String c1 s1 =>
      match s1 with
      | EmptyString => repr_char q c1
      | String c2 s2 =>
          if latin1_unprintable c1 c2
          then hex_escape (nat_of_ascii c2) +:+ repr_chars q s2
          else repr_char q c1 +:+ repr_chars q s1
      end
  end.

(** [repr(s)]: single quotes, unless [s] has a single quote and no
    double quote.  A character that is not printable is escaped: in
    ASCII, and from U+0080 to U+00FF.  From U+0100 on the characters
    are kept, which is what [repr] does with the printable ones; which
    of them are printable is a table of the Unicode database that the
    model does not hold. *)
Definition repr_str (s : string) : string :=
  let q := if (contains (char single_quote) s && negb (contains (char double_quote) s))%bool
           then double_quote else single_quote in
  String q (repr_chars q s) +:+ char q.

(** [s.split(sep)[-1]]: what follows the last [sep], or all of [s]. *)
Fixpoint last_component (sep : ascii) (s : string) : string :=
  match s with
  | EmptyString => EmptyString
  | String _ s' => if contains (char sep) s then last_component sep s' else s
  end.

End Py.

(** [t] occurs in [s]: the specification's "contains as a substring". *)
Definition occurs_in (t s : string) : Prop :=
  exists pre post, s = pre +:+ t +:+ post.

(* ===================================================================== *)
(** * Exceptions and the state-and-exception monad *)
(* ===================================================================== *)

(** The exception classes the modelled code raises or receives.  Each
    carries what [str(e)] is built from. *)
Inductive exn : Type :=
| ValueError (msg : string)
| KeyError (key : string)
| ClientError (msg : string)            (* botocore.exceptions.ClientError *)
| BotoCoreError (msg : string)          (* botocore.exceptions.BotoCoreError *)
| HTTPException (status_code : Z) (detail : string)
| TypeError (msg : string)
| AttributeError (msg : string)
| Exception (msg : string).             (* any other exception *)

Inductive outcome (A : Type) : Type :=
| Ret (a : A)
| Raise (e : exn).
Arguments Ret {A} a.
Arguments Raise {A} e.

(** A computation over the process state [W] that returns or raises. *)
Definition Mon (W A : Type) : Type := W -> outcome A * W.

Definition ret {W A} (a : A) : Mon W A := fun w => (Ret a, w).

Definition bind {W A B} (m : Mon W A) (k : A -> Mon W B) : Mon W B :=
  fun w =>
    match m w with
    | (Ret a, w') => k a w'
    | (Raise e, w') => (Raise e, w')
    end.

Definition raise {W A} (e : exn) : Mon W A := fun w => (Raise e, w).

(** [try: m  except Exception as e: handler e].  The state changes made
    before the exception was raised stay. *)
Definition try_except {W A} (m : Mon W A) (handler : exn -> Mon W A) : Mon W A :=
  fun w =>
    match m w with
    | (Ret a, w') => (Ret a, w')
    | (Raise e, w') => handler e w'
    end.

Definition gets {W A} (f : W -> A) : Mon W A := fun w => (Ret (f w), w).
Definition modify {W} (f : W -> W) : Mon W unit := fun w => (Ret tt, f w).

Notation "x <- c1 ;; c2" := (bind c1 (fun x => c2))
  (at level 100, c1 at next level, right associativity).
Notation "c1 ;; c2" := (bind c1 (fun _ => c2))
  (at level 100, right associativity).

(** What the modelled code asks of its environment: the wall clock
    ([datetime.now(UTC)], in microseconds) and [uuid4]. *)
Class Clock (W : Type) := now : W -> Z.
Class UuidSource (W : Type) := fresh_uuid : W -> string * W.

Definition datetime_now {W} `{Clock W} : Mon W Z := gets now.
Definition uuid4 {W} `{UuidSource W} : Mon W string :=
  fun w => let (u, w') := fresh_uuid w in (Ret u, w').

Definition seconds (n : Z) : Z := n * 1000000.

(* ===================================================================== *)
(** * models/enums.py *)
(* ===================================================================== *)

Inductive MessageType := USER | ASSISTANT | AGENT | SYSTEM.
Inductive SessionStatus := ACTIVE | INACTIVE | EXPIRED | ARCHIVED.

Module AgentResponseType.
Inductive t := TIME | DATE | WEATHER | COMBINED | ERROR.

(** The enumeration's values: [TIME = "time"], ... *)
Definition value (rt : t) : string :=
  match rt with
  | TIME => "time"
  | DATE => "date"
  | WEATHER => "weather"
  | COMBINED => "combined"
  | ERROR => "error"
  end.

Definition eqb (a b : t) : bool :=
  match a, b with
  | TIME, TIME | DATE, DATE | WEATHER, WEATHER
  | COMBINED, COMBINED | ERROR, ERROR => true
  | _, _ => false
  end.
End AgentResponseType.

Definition SessionStatus_eqb (a b : SessionStatus) : bool :=
  match a, b with
  | ACTIVE, ACTIVE | INACTIVE, INACTIVE | EXPIRED, EXPIRED | ARCHIVED, ARCHIVED => true
  | _, _ => false
  end.

(* ===================================================================== *)
(** * Python values held in dictionaries *)
(* ===================================================================== *)

(** The values the modelled dictionaries hold.  A [dict] keeps its
    insertion order.  [VFloat] is a float, kept as its [repr]. *)
Inductive pyval : Type :=
| VStr (s : string)
| VInt (n : Z)
| VFloat (repr : string)
| VDict (d : list (string * pyval)).

Definition pydict : Type := list (string * pyval).

Module Dict.
(** [d.get(key)], [None] when the key is missing *)
Fixpoint get (d : pydict) (key : string) : option pyval :=
  match d with
  | [] => None
  | (k, v) :: d' => if String.eqb k key then Some v else get d' key
  end.

(** [key in d] *)
Definition mem (key : string) (d : pydict) : bool :=
  match get d key with Some _ => true | None => false end.

(** [d[key]] *)
Definition item {W} (d : pydict) (key : string) : Mon W pyval :=
  match get d key with
  | Some v => ret v
  | None => raise (KeyError key)
  end.
End Dict.

(** [bool(v)] *)
Definition truthy (v : pyval) : bool :=
  match v with
  | VStr s => Py.truthy s
  | VInt n => negb (n =? 0)
  | VFloat r => negb (String.eqb r "0.0" || String.eqb r "-0.0")
  | VDict d => match d with [] => false | _ => true end
  end.

(** [bool(d.get(key))] *)
Definition get_truthy (d : pydict) (key : string) : bool :=
  match Dict.get d key with
  | Some v => truthy v
  | None => false
  end.

(** [repr(v)], which for these values is also [str(v)] except on a bare
    string. *)
Fixpoint repr (v : pyval) : string :=
  match v with
  | VStr s => Py.repr_str s
  | VInt n => pretty n
  | VFloat r => r
  | VDict d =>
      "{" +:+ Py.join ", "
                (map (fun kv => Py.repr_str (fst kv) +:+ ": " +:+ repr (snd kv)) d)
          +:+ "}"
  end.

(** [str(d)] for a dictionary [d] *)
Definition str_dict (d : pydict) : string := repr (VDict d).

(** [str(l)] for a list of strings [l] *)
Definition repr_list (l : list string) : string :=
  "[" +:+ Py.join ", " (map Py.repr_str l) +:+ "]".

(** [str(e)] *)
Definition str_exn (e : exn) : string :=
  match e with
  | ValueError msg => msg
  | KeyError key => Py.repr_str key
  | ClientError msg => msg
  | BotoCoreError msg => msg
  | HTTPException status_code detail => pretty status_code +:+ ": " +:+ detail
  | TypeError msg => msg
  | AttributeError msg => msg
  | Exception msg => msg
  end.

(** [xs[start:]] *)
Definition slice_from {A} (start : Z) (xs : list A) : list A :=
  let n := Z.of_nat (List.length xs) in
  let i := if start <? 0 then Z.max 0 (start + n) else Z.min start n in
  drop (Z.to_nat i) xs.

(** [[f(x) for x in xs]] for an [f] that can raise *)
Fixpoint map_m {W A B} (f : A -> Mon W B) (xs : list A) : Mon W (list B) :=
  match xs with
  | [] => ret []
  | x :: xs' => y <- f x ;; ys <- map_m f xs' ;; ret (y :: ys)
  end.

(* ===================================================================== *)
(** * models/message.py *)
(* ===================================================================== *)

Module Message.

Record t := {
  message_id : string;
  session_id : string;
  content : string;
  message_type : MessageType;
  timestamp : Z;
  metadata : pydict
}.

(** [message.session_id = session_id] *)
Definition set_session_id (self : t) (sid : string) : t :=
  {| message_id := message_id self; session_id := sid; content := content self;
     message_type := message_type self; timestamp := timestamp self;
     metadata := metadata self |}.

Section WithWorld.
Context {W : Type} `{Clock W} `{UuidSource W}.

Definition __post_init__ (self : t) : Mon W unit :=
  if Py.is_empty (session_id self) then raise (ValueError "session_id is required")
  else if Py.is_empty (Py.strip (content self)) then raise (ValueError "content cannot be empty")
  else
    n <- datetime_now ;;
    if timestamp self >? n then raise (ValueError "timestamp cannot be in the future")
    else if Py.len (content self) >? 10000
         then raise (ValueError "content exceeds maximum length of 10000 characters")
    else ret tt.

(** [Message(session_id=.., content=.., message_type=.., timestamp=..,
    metadata=..)]: the identifier comes from [uuid4]. *)
Definition new (session_id content : string) (message_type : MessageType)
    (timestamp : Z) (metadata : pydict) : Mon W t :=
  message_id <- uuid4 ;;
  let self := {| message_id := message_id; session_id := session_id; content := content;
                 message_type := message_type; timestamp := timestamp;
                 metadata := metadata |} in
  __post_init__ self ;;
  ret self.

(** The stored form of a message holds every field, and each is read
    back as it was written: [to_dict] is the record, [from_dict] is the
    constructor with its validation. *)
Definition to_dict (self : t) : t := self.
Definition from_dict (data : t) : Mon W t := __post_init__ data ;; ret data.

End WithWorld.
End Message.

(* ===================================================================== *)
(** * models/session.py *)
(* ===================================================================== *)

Module Session.

Record t := {
  session_id : string;
  user_id : string;
  created_at : Z;
  last_activity : Z;
  knowledge_base_id : option string;
  conversation_history : list Message.t;
  status : SessionStatus
}.

Definition set_status (self : t) (st : SessionStatus) : t :=
  {| session_id := session_id self; user_id := user_id self; created_at := created_at self;
     last_activity := last_activity self; knowledge_base_id := knowledge_base_id self;
     conversation_history := conversation_history self; status := st |}.

Definition set_knowledge_base_id (self : t) (kb : option string) : t :=
  {| session_id := session_id self; user_id := user_id self; created_at := created_at self;
     last_activity := last_activity self; knowledge_base_id := kb;
     conversation_history := conversation_history self; status := status self |}.

Definition set_conversation_history (self : t) (h : list Message.t) : t :=
  {| session_id := session_id self; user_id := user_id self; created_at := created_at self;
     last_activity := last_activity self; knowledge_base_id := knowledge_base_id self;
     conversation_history := h; status := status self |}.

Definition set_last_activity (self : t) (la : Z) : t :=
  {| session_id := session_id self; user_id := user_id self; created_at := created_at self;
     last_activity := la; knowledge_base_id := knowledge_base_id self;
     conversation_history := conversation_history self; status := status self |}.

(** [Session.get_recent_messages] *)
Definition get_recent_messages (self : t) (limit : Z) : list Message.t :=
  match conversation_history self with
  | [] => []
  | h => slice_from (- limit) h
  end.

Section WithWorld.
Context {W : Type} `{Clock W} `{UuidSource W}.

Definition __post_init__ (self : t) : Mon W unit :=
  if Py.is_empty (user_id self) then raise (ValueError "user_id is required")
  else
    n <- datetime_now ;;
    if created_at self >? n then raise (ValueError "created_at cannot be in the future")
    else if last_activity self <? created_at self
         then raise (ValueError "last_activity cannot be before created_at")
    else ret tt.

(** [Session(session_id=.., user_id=.., knowledge_base_id=.., status=..)]:
    [created_at] and [last_activity] default to the current time and the
    history to the empty list. *)
Definition new (session_id user_id : string) (knowledge_base_id : option string)
    (status : SessionStatus) : Mon W t :=
  created <- datetime_now ;;
  last <- datetime_now ;;
  let self := {| session_id := session_id; user_id := user_id; created_at := created;
                 last_activity := last; knowledge_base_id := knowledge_base_id;
                 conversation_history := []; status := status |} in
  __post_init__ self ;;
  ret self.

(** [Session.add_message] *)
Definition add_message (self : t) (message : Message.t) : Mon W t :=
  if negb (String.eqb (Message.session_id message) (session_id self))
  then raise (ValueError "Message session_id must match session session_id")
  else
    n <- datetime_now ;;
    ret (set_last_activity
           (set_conversation_history self (conversation_history self ++ [message])) n).

(** [Session.is_expired] *)
Definition is_expired (self : t) (timeout_hours : Z) : Mon W bool :=
  n <- datetime_now ;;
  ret (n - last_activity self >? seconds (timeout_hours * 3600)).

(** As for messages, [to_dict] is the record and [from_dict] rebuilds
    the messages, then the session, with their validation. *)
Definition to_dict (self : t) : t := self.
Definition from_dict (data : t) : Mon W t :=
  history <- map_m Message.from_dict (conversation_history data) ;;
  let self := set_conversation_history data history in
  __post_init__ self ;;
  ret self.

End WithWorld.
End Session.

(* ===================================================================== *)
(** * models/agent_response.py *)
(* ===================================================================== *)

Module AgentResponse.

Record t := {
  agent_id : string;
  response_type : AgentResponseType.t;
  data : pydict;
  location : string;
  timestamp : Z
}.

(** [AgentResponse.is_successful] *)
Definition is_successful (self : t) : bool :=
  negb (AgentResponseType.eqb (response_type self) AgentResponseType.ERROR).

(** The fields [_validate_response_data] requires for a type other than
    [COMBINED]. *)
Definition required_fields (rt : AgentResponseType.t) : list string :=
  match rt with
  | AgentResponseType.TIME => ["time"; "timezone"]
  | AgentResponseType.DATE => ["date"; "day_of_week"]
  | AgentResponseType.WEATHER => ["temperature"; "condition"]
  | AgentResponseType.COMBINED => []
  | AgentResponseType.ERROR => ["error_message"]
  end.

Section WithWorld.
Context {W : Type} `{Clock W}.

Definition _validate_response_data (self : t) : Mon W unit :=
  match response_type self with
  | AgentResponseType.COMBINED =>
      if negb (existsb (fun key => Dict.mem key (data self)) ["time"; "date"; "weather"])
      then raise (ValueError "Combined response must contain at least one of: time, date, weather")
      else ret tt
  | rt =>
      let missing_fields :=
        filter (fun field => negb (Dict.mem field (data self))) (required_fields rt) in
      match missing_fields with
      | [] => ret tt
      | _ => raise (ValueError ("Missing required fields for " +:+ AgentResponseType.value rt
                                  +:+ ": " +:+ repr_list missing_fields))
      end
  end.

Definition __post_init__ (self : t) : Mon W unit :=
  if Py.is_empty (agent_id self) then raise (ValueError "agent_id is required")
  else match data self with
       | [] => raise (ValueError "data cannot be empty")
       | _ =>
           n <- datetime_now ;;
           if timestamp self >? n then raise (ValueError "timestamp cannot be in the future")
           else _validate_response_data self
       end.

(** [AgentResponse(agent_id=.., response_type=.., data=..)]: the location
    defaults to Birmingham and the timestamp to the current time. *)
Definition new (agent_id : string) (response_type : AgentResponseType.t)
    (data : pydict) : Mon W t :=
  ts <- datetime_now ;;
  let self := {| agent_id := agent_id; response_type := response_type; data := data;
                 location := "Birmingham, Alabama"; timestamp := ts |} in
  __post_init__ self ;;
  ret self.

Definition create_time_response (agent_id time_str timezone : string) : Mon W t :=
  new agent_id AgentResponseType.TIME [("time", VStr time_str); ("timezone", VStr timezone)].

Definition create_date_response (agent_id date_str day_of_week : string) : Mon W t :=
  new agent_id AgentResponseType.DATE [("date", VStr date_str); ("day_of_week", VStr day_of_week)].

Definition create_weather_response (agent_id temperature condition : string)
    (humidity : option string) : Mon W t :=
  let data := [("temperature", VStr temperature); ("condition", VStr condition)] in
  let data := match humidity with
              | Some h => if Py.truthy h then data ++ [("humidity", VStr h)] else data
              | None => data
              end in
  new agent_id AgentResponseType.WEATHER data.

(** [if part: data[key] = part] *)
Definition add_part (key : string) (part : option pydict) (data : pydict) : pydict :=
  match part with
  | Some (_ :: _ as d) => data ++ [(key, VDict d)]
  | _ => data
  end.

Definition create_combined_response (agent_id : string)
    (time_data date_data weather_data : option pydict) : Mon W t :=
  let data := add_part "weather" weather_data
                (add_part "date" date_data (add_part "time" time_data [])) in
  new agent_id AgentResponseType.COMBINED data.

Definition create_error_response (agent_id error_message : string) : Mon W t :=
  new agent_id AgentResponseType.ERROR [("error_message", VStr error_message)].

End WithWorld.
End AgentResponse.

(* ===================================================================== *)
(** * Streamed fragments and middleware/integration_error_handling.py *)
(* ===================================================================== *)

Module Fragment.

(** The [metadata] entry of a fragment: the agent's response
    ([{"agent_data": agent_response.to_dict()}]) or the keyword
    arguments given to [create_error_response]. *)
Inductive Metadata :=
| AgentData (agent_data : AgentResponse.t)
| Kwargs (kwargs : pydict).

(** A fragment is a dictionary with the keys [type], [content] and
    [timestamp], and optionally [streaming], [error_type] and
    [metadata]; an absent key is [None]. *)
Record t := {
  type : string;
  content : string;
  timestamp : Z;
  streaming : option bool;
  error_type : option string;
  metadata : option Metadata
}.

End Fragment.

Module IntegrationErrorHandler.
Section WithWorld.
Context {W : Type} `{Clock W}.

(** [IntegrationErrorHandler.create_error_response] *)
Definition create_error_response (message error_type : string) (kwargs : pydict)
    : Mon W Fragment.t :=
  ts <- datetime_now ;;
  ret {| Fragment.type := "error"; Fragment.content := message;
         Fragment.timestamp := ts; Fragment.streaming := None;
         Fragment.error_type := Some error_type;
         Fragment.metadata := match kwargs with
                              | [] => None
                              | _ => Some (Fragment.Kwargs kwargs)
                              end |}.

End WithWorld.
End IntegrationErrorHandler.

Module CircuitBreaker.

(** [self.state], one of the strings "CLOSED", "OPEN", "HALF_OPEN" *)
Inductive State := CLOSED | OPEN | HALF_OPEN.

Record t := {
  failure_threshold : Z;
  recovery_timeout : Z;        (* seconds *)
  failure_count : Z;
  last_failure_time : option Z;
  state : State
}.

(** [CircuitBreaker(failure_threshold, recovery_timeout)]; the defaults
    of the two arguments are 5 and 60. *)
Definition __init__ (failure_threshold recovery_timeout : Z) : t :=
  {| failure_threshold := failure_threshold; recovery_timeout := recovery_timeout;
     failure_count := 0; last_failure_time := None; state := CLOSED |}.

Definition set_state (self : t) (st : State) : t :=
  {| failure_threshold := failure_threshold self; recovery_timeout := recovery_timeout self;
     failure_count := failure_count self; last_failure_time := last_failure_time self;
     state := st |}.

Section WithWorld.
Context {W : Type} `{Clock W}.

(** The breaker is a mutable object shared by the calls it guards: its
    methods run over the pair of the breaker and the rest of the state. *)
Definition lift {A} (func : Mon W A) : Mon (t * W) A :=
  fun s => let (r, w') := func (snd s) in (r, (fst s, w')).

Definition _should_attempt_reset : Mon (t * W) bool :=
  fun s =>
    match last_failure_time (fst s) with
    | None => (Ret true, s)
    | Some t0 =>
        let time_since_failure := now (snd s) - t0 in
        (Ret (time_since_failure >? seconds (recovery_timeout (fst s))), s)
    end.

Definition _on_success : Mon (t * W) unit :=
  modify (fun s =>
    ({| failure_threshold := failure_threshold (fst s);
        recovery_timeout := recovery_timeout (fst s);
        failure_count := 0;
        last_failure_time := last_failure_time (fst s);
        state := CLOSED |}, snd s)).

Definition _on_failure : Mon (t * W) unit :=
  modify (fun s =>
    let self := {| failure_threshold := failure_threshold (fst s);
                   recovery_timeout := recovery_timeout (fst s);
                   failure_count := failure_count (fst s) + 1;
                   last_failure_time := Some (now (snd s));
                   state := state (fst s) |} in
    (if failure_count self >=? failure_threshold self then set_state self OPEN else self,
     snd s)).

(** [CircuitBreaker.call]; [func] stands for the call of the wrapped function on its arguments. *)
Definition call {A} (func : Mon W A) : Mon (t * W) A :=
  st <- gets (fun s => state (fst s)) ;;
  match st with
  | OPEN =>
      reset <- _should_attempt_reset ;;
      if reset then modify (fun s => (set_state (fst s) HALF_OPEN, snd s))
      else raise (Exception "Circuit breaker is OPEN - service unavailable")
  | _ => ret tt
  end ;;
  try_except
    (result <- lift func ;; _on_success ;; ret result)
    (fun e => _on_failure ;; raise e).

(** [with_circuit_breaker(circuit_breaker)(func)], the decorated
    function.  [module_name] is [func.__module__]; for a coroutine
    function [func()] only creates the coroutine, which [call] hands
    back to be awaited by the wrapper.  The wrapper returns what [func]
    returns, or the error response. *)
Definition with_circuit_breaker {A} (module_name : string)
    (is_coroutine_function : bool) (func : Mon W A) : Mon (t * W) (A + Fragment.t) :=
  try_except
    (if is_coroutine_function
     then coroutine <- call (ret func) ;; result <- lift coroutine ;; ret (inl result)
     else result <- call func ;; ret (inl result))
    (fun e =>
       if Py.contains "Circuit breaker is OPEN" (str_exn e)
       then
         let service_name := Py.last_component "." module_name in
         response <- lift (IntegrationErrorHandler.create_error_response
                             (Py.title service_name
                                +:+ " is temporarily unavailable. Please try again later.")
                             "circuit_breaker_open" []) ;;
         ret (inr response)
       else raise e).

End WithWorld.

(** The process-wide breakers. *)
Definition bedrock_circuit_breaker : t := __init__ 3 30.
Definition knowledge_base_circuit_breaker : t := __init__ 3 30.
Definition agent_circuit_breaker : t := __init__ 5 60.

End CircuitBreaker.

(* ===================================================================== *)
(** * The process state *)
(* ===================================================================== *)

(** A record of the sessions table: [session.to_dict()] with its [ttl]. *)
Record Item := {
  item_data : Session.t;
  item_ttl : Z
}.

(** What the services read and change.
    - [clock]: the wall clock; one call of the modelled code is short
      against it, so the clock stands still during a call.
    - [uuid_counter]: the source of fresh identifiers.
    - [table]: [SessionService.table], the sessions table keyed by
      [session_id]; [None] when the DynamoDB client could not be set up.
    - [faults], [boto_calls]: the storage backend can fail any request;
      [faults n] is the exception the [n]-th request made to it raises,
      if any, and [boto_calls] counts the requests made so far.
    - [sent]: the fragments yielded to the caller so far, oldest first. *)
Record World := {
  clock : Z;
  uuid_counter : nat;
  table : option (gmap string Item);
  faults : nat -> option exn;
  boto_calls : nat;
  sent : list Fragment.t
}.

#[export] Instance World_clock : Clock World := clock.

#[export] Instance World_uuid : UuidSource World := fun w =>
  ("uuid-" +:+ pretty (uuid_counter w),
   {| clock := clock w; uuid_counter := S (uuid_counter w); table := table w;
      faults := faults w; boto_calls := boto_calls w; sent := sent w |}).

Definition M (A : Type) : Type := Mon World A.

(** [yield fragment] *)
Definition yield (fragment : Fragment.t) : M unit :=
  modify (fun w =>
    {| clock := clock w; uuid_counter := uuid_counter w; table := table w;
       faults := faults w; boto_calls := boto_calls w;
       sent := sent w ++ [fragment] |}).

(** One request to the storage backend: it fails as [faults] says, or
    applies [op] to the table. *)
Definition boto_request {A} (op : gmap string Item -> A * gmap string Item) : M A :=
  fun w =>
    let n := boto_calls w in
    match faults w n, table w with
    | Some e, _ =>
        (Raise e,
         {| clock := clock w; uuid_counter := uuid_counter w; table := table w;
            faults := faults w; boto_calls := S n; sent := sent w |})
    | None, Some items =>
        let (a, items') := op items in
        (Ret a,
         {| clock := clock w; uuid_counter := uuid_counter w; table := Some items';
            faults := faults w; boto_calls := S n; sent := sent w |})
    | None, None => (Raise (Exception "no table"), w)
    end.

(** [table.put_item(Item=item)] *)
Definition put_item (item : Item) : M unit :=
  boto_request (fun items => (tt, <[Session.session_id (item_data item) := item]> items)).

(** [table.get_item(Key={'session_id': session_id}).get('Item')] *)
Definition get_item (session_id : string) : M (option Item) :=
  boto_request (fun items => (items !! session_id, items)).

(** [table.scan(FilterExpression='user_id = :user_id', ..).get('Items', [])] *)
Definition scan (user_id : string) : M (list Item) :=
  boto_request (fun items =>
    (filter (fun it => String.eqb (Session.user_id (item_data it)) user_id)
            (snd <$> map_to_list items),
     items)).

Definition is_boto_error (e : exn) : bool :=
  match e with
  | ClientError _ | BotoCoreError _ => true
  | _ => false
  end.

(* ===================================================================== *)
(** * services/auth_service.py *)
(* ===================================================================== *)

Module UserContext.
(** The identity of the caller; of its fields the modelled code reads
    [user_id] only. *)
Record t := {
  user_id : string;
  email : string;
  name : string
}.
End UserContext.

(* ===================================================================== *)
(** * services/session_service.py *)
(* ===================================================================== *)

Module SessionService.

(** The configuration read by [__init__] from the environment; the
    table itself is in the [World]. *)
Record t := {
  session_timeout_hours : Z;
  max_conversation_history : Z
}.

(** The service with the defaults of [__init__]. *)
Definition default : t :=
  {| session_timeout_hours := 24; max_conversation_history := 100 |}.

Definition _store_session (self : t) (session : Session.t) : M unit :=
  tbl <- gets table ;;
  match tbl with
  | None => ret tt
  | Some _ =>
      try_except
        (let session_data := Session.to_dict session in
         let ttl := Z.quot (Session.last_activity session + seconds (30 * 86400)) 1000000 in
         put_item {| item_data := session_data; item_ttl := ttl |})
        (fun e => raise e)
  end.

Definition _get_session_from_db (self : t) (session_id : string) : M (option Item) :=
  tbl <- gets table ;;
  match tbl with
  | None => ret None
  | Some _ =>
      try_except (get_item session_id)
        (fun e => if is_boto_error e then ret None else raise e)
  end.

Definition _get_user_sessions_from_db (self : t) (user_id : string) : M (list Item) :=
  tbl <- gets table ;;
  match tbl with
  | None => ret []
  | Some _ =>
      try_except (scan user_id)
        (fun e => if is_boto_error e then ret [] else raise e)
  end.

Definition create_session (self : t) (user_context : UserContext.t)
    (knowledge_base_id : option string) : M Session.t :=
  try_except
    (sid <- uuid4 ;;
     session <- Session.new sid (UserContext.user_id user_context) knowledge_base_id ACTIVE ;;
     _store_session self session ;;
     ret session)
    (fun e => raise (HTTPException 500 "Failed to create session")).

Definition get_session (self : t) (session_id user_id : string) : M (option Session.t) :=
  try_except
    (session_data <- _get_session_from_db self session_id ;;
     match session_data with
     | None => ret None
     | Some item =>
         session <- Session.from_dict (item_data item) ;;
         if negb (String.eqb (Session.user_id session) user_id) then ret None
         else
           expired <- Session.is_expired session (session_timeout_hours self) ;;
           if expired then
             let session := Session.set_status session EXPIRED in
             _store_session self session ;;
             ret None
           else ret (Some session)
     end)
    (fun e => ret None).

Definition update_session (self : t) (session : Session.t) : M bool :=
  try_except
    (_store_session self session ;; ret true)
    (fun e => ret false).

Definition add_message_to_session (self : t) (session_id user_id : string)
    (message : Message.t) : M bool :=
  try_except
    (found <- get_session self session_id user_id ;;
     match found with
     | None => ret false
     | Some session =>
         let message := Message.set_session_id message session_id in
         session <- Session.add_message session message ;;
         let session :=
           if Z.of_nat (length (Session.conversation_history session))
                >? max_conversation_history self
           then Session.set_conversation_history session
                  (slice_from (- max_conversation_history self)
                              (Session.conversation_history session))
           else session in
         update_session self session
     end)
    (fun e => ret false).

Definition get_conversation_history (self : t) (session_id user_id : string)
    (limit : Z) : M (list Message.t) :=
  try_except
    (found <- get_session self session_id user_id ;;
     match found with
     | None => ret []
     | Some session => ret (Session.get_recent_messages session limit)
     end)
    (fun e => ret []).

(** [sessions.sort(key=lambda s: s.last_activity, reverse=True)]: a
    stable sort, most recent first. *)
Fixpoint insert_by_last_activity (s : Session.t) (sorted : list Session.t) : list Session.t :=
  match sorted with
  | [] => [s]
  | x :: rest =>
      if Session.last_activity x <=? Session.last_activity s
      then s :: sorted
      else x :: insert_by_last_activity s rest
  end.

Definition sort_by_last_activity (sessions : list Session.t) : list Session.t :=
  foldr insert_by_last_activity [] sessions.

(** The loop of [list_user_sessions]; [sessions] is the list built so far. *)
Fixpoint collect_sessions (self : t) (active_only : bool) (sessions_data : list Item)
    (sessions : list Session.t) : M (list Session.t) :=
  match sessions_data with
  | [] => ret sessions
  | session_data :: rest =>
      session <- Session.from_dict (item_data session_data) ;;
      expired <- Session.is_expired session (session_timeout_hours self) ;;
      session <- (if expired
                  then let session := Session.set_status session EXPIRED in
                       _store_session self session ;; ret session
                  else ret session) ;;
      if (active_only && negb (SessionStatus_eqb (Session.status session) ACTIVE))%bool
      then collect_sessions self active_only rest sessions
      else collect_sessions self active_only rest (sessions ++ [session])
  end.

Definition list_user_sessions (self : t) (user_id : string) (active_only : bool)
    : M (list Session.t) :=
  try_except
    (sessions_data <- _get_user_sessions_from_db self user_id ;;
     sessions <- collect_sessions self active_only sessions_data [] ;;
     ret (sort_by_last_activity sessions))
    (fun e => ret []).

Definition delete_session (self : t) (session_id user_id : string) : M bool :=
  try_except
    (found <- get_session self session_id user_id ;;
     match found with
     | None => ret false
     | Some session => update_session self (Session.set_status session ARCHIVED)
     end)
    (fun e => ret false).

End SessionService.

(* ===================================================================== *)
(** * services/agent_service.py *)
(* ===================================================================== *)

(** [d.get(key)] for a dictionary with any values *)
Fixpoint assoc {A} (d : list (string * A)) (key : string) : option A :=
  match d with
  | [] => None
  | (k, v) :: d' => if String.eqb k key then Some v else assoc d' key
  end.

(** [command in commands] *)
Definition str_in (command : string) (commands : list string) : bool :=
  existsb (String.eqb command) commands.

Module AgentService.

(** The service around the Birmingham agent.  Its four getters wrap the
    agent, whose answers come from the clock and a weather API outside
    the program: they are given, each returning the response it builds
    (an error response when the agent failed). *)
Record t := {
  agent_id : string;
  get_current_time : M AgentResponse.t;
  get_current_date : M AgentResponse.t;
  get_weather : M AgentResponse.t;
  get_all_info : M (list (string * AgentResponse.t))
}.

(** [all_responses[key].data] when the key is there and its response
    is successful *)
Definition successful_data (all_responses : list (string * AgentResponse.t))
    (key : string) : option pydict :=
  match assoc all_responses key with
  | Some r => if AgentResponse.is_successful r then Some (AgentResponse.data r) else None
  | None => None
  end.

Definition invoke_agent (self : t) (command : string) : M AgentResponse.t :=
  try_except
    (let command := Py.strip (Py.lower command) in
     if str_in command ["time"; "current_time"; "get_time"] then get_current_time self
     else if str_in command ["date"; "current_date"; "get_date"] then get_current_date self
     else if str_in command ["weather"; "current_weather"; "get_weather"] then get_weather self
     else if str_in command ["all"; "all_info"; "everything"] then
       all_responses <- get_all_info self ;;
       let time_data := successful_data all_responses "time" in
       let date_data := successful_data all_responses "date" in
       let weather_data := successful_data all_responses "weather" in
       AgentResponse.create_combined_response (agent_id self) time_data date_data weather_data
     else
       AgentResponse.create_error_response (agent_id self)
         ("Unknown command: " +:+ command
            +:+ ". Available commands: time, date, weather, all"))
    (fun e =>
       AgentResponse.create_error_response (agent_id self)
         ("Failed to invoke agent: " +:+ str_exn e)).

End AgentService.

(* ===================================================================== *)
(** * services/integration_service.py *)
(* ===================================================================== *)

(** The adapters of the two streaming backends.  A stream is the list
    of its text chunks and the exception that ends it, if one does. *)
Module KnowledgeBaseService.
Record t := {
  list_knowledge_bases : UserContext.t -> M (list string);
  query_knowledge_base : string -> string -> UserContext.t -> list string * option exn
}.
End KnowledgeBaseService.

Module BedrockService.
Record t := {
  model_id : string;
  temperature : string;         (* the float setting, as its [repr] *)
  max_tokens : Z;
  generate_response : string -> list Message.t -> list string * option exn
}.

(** [BedrockService.create_assistant_message] *)
Definition create_assistant_message (self : t) (content session_id : string) : M Message.t :=
  ts <- datetime_now ;;
  Message.new session_id content ASSISTANT ts
    [("model_id", VStr (model_id self)); ("temperature", VFloat (temperature self));
     ("max_tokens", VInt (max_tokens self))].
End BedrockService.

(** [str(v)], as an f-string prints a value *)
Definition str_val (v : pyval) : string :=
  match v with
  | VStr s => s
  | _ => repr v
  end.

(** [v[key]] *)
Definition subscript (v : pyval) (key : string) : M pyval :=
  match v with
  | VDict d => Dict.item d key
  | _ => raise (TypeError "string indices must be integers")
  end.

(** [bool(v.get(key))] *)
Definition get_truthy_of (v : pyval) (key : string) : M bool :=
  match v with
  | VDict d => ret (get_truthy d key)
  | _ => raise (AttributeError "object has no attribute 'get'")
  end.

Module IntegrationService.

(** The vocabularies of [__init__], as written there. *)
Definition agent_vocabulary : list string :=
  ["time"; "current_time"; "get_time";
   "date"; "current_date"; "get_date";
   "weather"; "current_weather"; "get_weather";
   "all"; "all_info"; "everything"].

Definition indicator_vocabulary : list string :=
  ["kb:"; "knowledge:"; "search:"; "find:"; "lookup:"].

(** The generator functions of the class are modelled by their bodies:
    [_handle_agent_command] and the like are what the generator of that
    name does when it is iterated to its end.  The decorator that wraps
    the three handlers is modelled on its own, as
    [CircuitBreaker.with_circuit_breaker], and what a call of a wrapped
    handler returns as [decorated_call].

    An instance.  [agent_commands] and [knowledge_base_indicators] are
    Python sets: each is held as the list of its elements in the order
    in which the set is iterated, an order the language leaves open.
    The module-level singletons [session_service], [bedrock_service]
    and [knowledge_base_service] are carried along. *)
Record t := {
  agent_service : AgentService.t;
  agent_commands : list string;
  knowledge_base_indicators : list string;
  session_service : SessionService.t;
  knowledge_base_service : KnowledgeBaseService.t;
  bedrock_service : BedrockService.t
}.

(** [self] holds the two vocabularies, in some order. *)
Definition initialized (self : t) : Prop :=
  Permutation (agent_commands self) agent_vocabulary /\
  Permutation (knowledge_base_indicators self) indicator_vocabulary.

Definition _create_streaming_response (content : string) : M Fragment.t :=
  ts <- datetime_now ;;
  ret {| Fragment.type := "response"; Fragment.content := content;
         Fragment.timestamp := ts; Fragment.streaming := Some true;
         Fragment.error_type := None; Fragment.metadata := None |}.

Definition _create_status_response (message : string) : M Fragment.t :=
  ts <- datetime_now ;;
  ret {| Fragment.type := "status"; Fragment.content := message;
         Fragment.timestamp := ts; Fragment.streaming := None;
         Fragment.error_type := None; Fragment.metadata := None |}.

Definition _create_agent_response (content : string) (agent_data : AgentResponse.t)
    : M Fragment.t :=
  ts <- datetime_now ;;
  ret {| Fragment.type := "agent_response"; Fragment.content := content;
         Fragment.timestamp := ts; Fragment.streaming := None;
         Fragment.error_type := None;
         Fragment.metadata := Some (Fragment.AgentData agent_data) |}.

Definition _classify_command (self : t) (user_message : string) : string :=
  let message_lower := Py.strip (Py.lower user_message) in
  if existsb (fun cmd => Py.contains cmd message_lower) (agent_commands self)
  then "agent"
  else if existsb (fun indicator => Py.contains indicator message_lower)
                  (knowledge_base_indicators self)
  then "knowledge_base"
  else "general_ai".

(** The loop of [_handle_agent_command] that picks the command: the
    first element of the set, as it is iterated, that the message
    contains. *)
Fixpoint first_command (commands : list string) (message_lower agent_command : string)
    : string :=
  match commands with
  | [] => agent_command
  | cmd :: rest =>
      if Py.contains cmd message_lower then cmd
      else first_command rest message_lower agent_command
  end.

Definition _format_agent_response (agent_response : AgentResponse.t) : M string :=
  let value := AgentResponseType.value (AgentResponse.response_type agent_response) in
  let data := AgentResponse.data agent_response in
  let location := AgentResponse.location agent_response in
  if String.eqb value "TIME" then
    time <- Dict.item data "time" ;;
    timezone <- Dict.item data "timezone" ;;
    ret ("Current time in " +:+ location +:+ ": " +:+ str_val time
           +:+ " (" +:+ str_val timezone +:+ ")")
  else if String.eqb value "DATE" then
    date <- Dict.item data "date" ;;
    day_of_week <- Dict.item data "day_of_week" ;;
    ret ("Current date in " +:+ location +:+ ": " +:+ str_val date
           +:+ " (" +:+ str_val day_of_week +:+ ")")
  else if String.eqb value "WEATHER" then
    condition <- Dict.item data "condition" ;;
    temperature <- Dict.item data "temperature" ;;
    let weather_info := "Weather in " +:+ location +:+ ": " +:+ str_val condition
                          +:+ ", " +:+ str_val temperature in
    if get_truthy data "humidity" then
      humidity <- Dict.item data "humidity" ;;
      ret (weather_info +:+ ", Humidity: " +:+ str_val humidity)
    else ret weather_info
  else if String.eqb value "COMBINED" then
    parts <- (if get_truthy data "time" then
                time <- Dict.item data "time" ;;
                t <- subscript time "time" ;;
                tz <- subscript time "timezone" ;;
                ret ["Time: " +:+ str_val t +:+ " (" +:+ str_val tz +:+ ")"]
              else ret []) ;;
    parts <- (if get_truthy data "date" then
                date <- Dict.item data "date" ;;
                d <- subscript date "date" ;;
                dow <- subscript date "day_of_week" ;;
                ret (parts ++ ["Date: " +:+ str_val d +:+ " (" +:+ str_val dow +:+ ")"])
              else ret parts) ;;
    parts <- (if get_truthy data "weather" then
                weather <- Dict.item data "weather" ;;
                condition <- subscript weather "condition" ;;
                temperature <- subscript weather "temperature" ;;
                let weather_str := "Weather: " +:+ str_val condition
                                     +:+ ", " +:+ str_val temperature in
                has_humidity <- get_truthy_of weather "humidity" ;;
                if has_humidity then
                  humidity <- subscript weather "humidity" ;;
                  ret (parts ++ [weather_str +:+ ", Humidity: " +:+ str_val humidity])
                else ret (parts ++ [weather_str])
              else ret parts) ;;
    ret ("Birmingham, Alabama Information:" +:+ String (ascii_of_nat 10) (Py.join (String (ascii_of_nat 10) "") parts))
  else ret (str_dict data).


(** The body of [_handle_agent_command]. *)
Definition _handle_agent_command (self : t) (session : Session.t) (user_message : string)
    (user_context : UserContext.t) : M unit :=
  status <- _create_status_response "Contacting Birmingham agent..." ;;
  yield status ;;
  let message_lower := Py.strip (Py.lower user_message) in
  let agent_command := first_command (agent_commands self) message_lower "all" in
  agent_response <- AgentService.invoke_agent (agent_service self) agent_command ;;
  if AgentResponse.is_successful agent_response then
    formatted_response <- _format_agent_response agent_response ;;
    ts <- datetime_now ;;
    agent_msg <- Message.new (Session.session_id session) formatted_response AGENT ts
                   [("agent_id", VStr (AgentResponse.agent_id agent_response));
                    ("response_type",
                     VStr (AgentResponseType.value (AgentResponse.response_type agent_response)));
                    ("location", VStr (AgentResponse.location agent_response))] ;;
    SessionService.add_message_to_session (session_service self)
      (Session.session_id session) (UserContext.user_id user_context) agent_msg ;;
    response <- _create_agent_response formatted_response agent_response ;;
    yield response
  else
    let error_msg :=
      "Agent error: " +:+ match Dict.get (AgentResponse.data agent_response) "error_message" with
                          | Some v => str_val v
                          | None => "Unknown error"
                          end in
    response <- IntegrationErrorHandler.create_error_response error_msg "agent_error" [] ;;
    yield response.

(** [async for chunk in stream: response_content += chunk; yield ...] *)
Fixpoint forward_chunks (chunks : list string) (response_content : string) : M string :=
  match chunks with
  | [] => ret response_content
  | chunk :: rest =>
      response <- _create_streaming_response chunk ;;
      yield response ;;
      forward_chunks rest (response_content +:+ chunk)
  end.

Definition forward_stream (stream : list string * option exn) : M string :=
  response_content <- forward_chunks (fst stream) "" ;;
  match snd stream with
  | Some e => raise e
  | None => ret response_content
  end.

(** [for indicator in indicators: q = q.replace(indicator, "").strip()] *)
Fixpoint clean (indicators : list string) (clean_query : string) : string :=
  match indicators with
  | [] => clean_query
  | indicator :: rest => clean rest (Py.strip (Py.replace indicator "" clean_query))
  end.

(** The body of [_handle_knowledge_base_query]. *)
Definition _handle_knowledge_base_query (self : t) (session : Session.t)
    (user_message : string) (user_context : UserContext.t) : M unit :=
  let answer (session : Session.t) (kb_id : string) : M unit :=
    status <- _create_status_response "Searching knowledge base..." ;;
    yield status ;;
    let clean_query := clean (knowledge_base_indicators self) user_message in
    response_content <-
      forward_stream (KnowledgeBaseService.query_knowledge_base
                        (knowledge_base_service self) kb_id clean_query user_context) ;;
    if Py.truthy response_content then
      ts <- datetime_now ;;
      kb_msg <- Message.new (Session.session_id session) response_content ASSISTANT ts
                  [("knowledge_base_id", VStr kb_id); ("query_type", VStr "rag");
                   ("original_query", VStr user_message)] ;;
      SessionService.add_message_to_session (session_service self)
        (Session.session_id session) (UserContext.user_id user_context) kb_msg ;;
      ret tt
    else ret tt in
  match Session.knowledge_base_id session with
  | Some (String _ _ as kb_id) => answer session kb_id
  | _ =>
      kb_list <- KnowledgeBaseService.list_knowledge_bases
                   (knowledge_base_service self) user_context ;;
      match kb_list with
      | kb_id :: _ =>
          let session := Session.set_knowledge_base_id session (Some kb_id) in
          SessionService.update_session (session_service self) session ;;
          answer session kb_id
      | [] =>
          response <- IntegrationErrorHandler.create_error_response
                        "No knowledge bases available" "no_knowledge_bases" [] ;;
          yield response
      end
  end.

(** The body of [_handle_general_ai_query]. *)
Definition _handle_general_ai_query (self : t) (session : Session.t)
    (user_message : string) (user_context : UserContext.t) : M unit :=
  status <- _create_status_response "Thinking..." ;;
  yield status ;;
  conversation_history <-
    SessionService.get_conversation_history (session_service self)
      (Session.session_id session) (UserContext.user_id user_context) 10 ;;
  response_content <-
    forward_stream (BedrockService.generate_response (bedrock_service self)
                      user_message conversation_history) ;;
  if Py.truthy response_content then
    ai_msg <- BedrockService.create_assistant_message (bedrock_service self)
                response_content (Session.session_id session) ;;
    SessionService.add_message_to_session (session_service self)
      (Session.session_id session) (UserContext.user_id user_context) ai_msg ;;
    ret tt
  else ret tt.

(** What [async for] is given in [process_user_command].  A call of a
    generator function returns an async generator; a call of an
    [async def] function returns a coroutine, which is to be awaited
    and has no [__aiter__]. *)
Inductive Iterated :=
| AsyncGenerator (body : M unit)
| Coroutine (result : Iterated).

(** [self._handle_agent_command(...)] and the like: a call of a
    generator function with the body [body] that is wrapped by
    [with_circuit_breaker].  The wrapper of the decorator is an
    [async def], so the call runs nothing, neither of the breaker nor
    of the handler, and returns the coroutine of the wrapper; awaited,
    the coroutine would hand out the generator. *)
Definition decorated_call (body : M unit) : Iterated :=
  Coroutine (AsyncGenerator body).

(** [async for response in iterated: yield response] *)
Definition async_for (iterated : Iterated) : M unit :=
  match iterated with
  | AsyncGenerator body => body
  | Coroutine _ =>
      raise (TypeError
               "'async for' requires an object with __aiter__ method, got coroutine")
  end.


Definition _create_error_response (error_message : string) : M Fragment.t :=
  ts <- datetime_now ;;
  ret {| Fragment.type := "error"; Fragment.content := error_message;
         Fragment.timestamp := ts; Fragment.streaming := None;
         Fragment.error_type := None; Fragment.metadata := None |}.

(** [switch_knowledge_base].  [get_knowledge_base] stands for
    [knowledge_base_service.get_knowledge_base], an adapter of the
    managed service: it answers with the name of the knowledge base, or
    with none. *)
Definition switch_knowledge_base (self : t)
    (get_knowledge_base : string -> UserContext.t -> M (option string))
    (session_id knowledge_base_id : string) (user_context : UserContext.t)
    : M Fragment.t :=
  try_except
    (found <- SessionService.get_session (session_service self) session_id
                (UserContext.user_id user_context) ;;
     match found with
     | None => _create_error_response "Session not found"
     | Some session =>
         kb <- get_knowledge_base knowledge_base_id user_context ;;
         match kb with
         | None => _create_error_response "Knowledge base not found"
         | Some kb_name =>
             let session := Session.set_knowledge_base_id session (Some knowledge_base_id) in
             success <- SessionService.update_session (session_service self) session ;;
             if success then
               ts <- datetime_now ;;
               ret {| Fragment.type := "status";
                      Fragment.content := "Switched to knowledge base: " +:+ kb_name;
                      Fragment.timestamp := ts; Fragment.streaming := None;
                      Fragment.error_type := None;
                      Fragment.metadata :=
                        Some (Fragment.Kwargs
                                [("knowledge_base_id", VStr knowledge_base_id);
                                 ("knowledge_base_name", VStr kb_name)]) |}
             else _create_error_response "Failed to update session"
         end
     end)
    (fun e => _create_error_response ("Failed to switch knowledge base: " +:+ str_exn e)).

End IntegrationService.

(* ===================================================================== *)
(** * Notions of the specification, and example instances *)
(* ===================================================================== *)

Import IntegrationService.

(** The lowercased text contains a term of the agent vocabulary, or a
    knowledge-base indicator, as a substring. *)
Definition agent_match (text : string) : Prop :=
  exists cmd, In cmd agent_vocabulary /\ occurs_in cmd (Py.lower text).

Definition indicator_match (text : string) : Prop :=
  exists indicator, In indicator indicator_vocabulary /\ occurs_in indicator (Py.lower text).

(** A string of ASCII characters without whitespace. *)
Fixpoint spaceless (t : string) : bool :=
  match t with
  | EmptyString => true
  | String c t' =>
      (Nat.ltb (nat_of_ascii c) 128 && negb (Py.isspace c) && spaceless t')%bool
  end.

(** The four tokens the agent service distinguishes, and the token a
    vocabulary term stands for. *)
Definition tokens : list string := ["time"; "date"; "weather"; "all"].

Definition token_of (cmd : string) : string :=
  if str_in cmd ["time"; "current_time"; "get_time"] then "time"
  else if str_in cmd ["date"; "current_date"; "get_date"] then "date"
  else if str_in cmd ["weather"; "current_weather"; "get_weather"] then "weather"
  else "all".

(** The command [_handle_agent_command] passes to the agent service. *)
Definition agent_command_of (self : IntegrationService.t) (user_message : string) : string :=
  first_command (agent_commands self) (Py.strip (Py.lower user_message)) "all".

(** [cmd] is the match at the earliest position of the message: no term
    of the vocabulary occurs at an earlier position. *)
Definition earliest_match (cmd message_lower : string) : Prop :=
  forall other i j,
    In other agent_vocabulary ->
    Py.find other message_lower = Some i ->
    Py.find cmd message_lower = Some j ->
    (j <= i)%nat.

(** The handler that [process_user_command] calls for a classification. *)
Definition handler_of (command_type : string) (self : IntegrationService.t)
    (session : Session.t) (user_message : string) (user_context : UserContext.t) : M unit :=
  if String.eqb command_type "agent" then
    _handle_agent_command self session user_message user_context
  else if String.eqb command_type "knowledge_base" then
    _handle_knowledge_base_query self session user_message user_context
  else _handle_general_ai_query self session user_message user_context.

(** What [process_user_command] does with a classification: it calls
    the wrapped handler and iterates what the call returns. *)
Definition dispatch_of (command_type : string) (self : IntegrationService.t)
    (session : Session.t) (user_message : string) (user_context : UserContext.t) : M unit :=
  async_for (decorated_call (handler_of command_type self session user_message user_context)).

(** A wrapped function that counts its invocations, as a test of the
    breaker would: the counter is the first component of the state. *)
Definition counting {W A} (func : Mon W A) : Mon (nat * W) A :=
  fun s => let (r, w') := func (snd s) in (r, (S (fst s), w')).

#[export] Instance counting_clock {W} `{Clock W} : Clock (nat * W) := fun s => now (snd s).

(** The invariants of stored records (section 3 of the specification):
    what [Message.__post_init__] and [Session.__post_init__] check. *)
Definition valid_message (now : Z) (m : Message.t) : Prop :=
  Message.session_id m <> "" /\
  Py.strip (Message.content m) <> "" /\
  Message.timestamp m <= now /\
  Py.len (Message.content m) <= 10000.

Definition valid_session (now : Z) (s : Session.t) : Prop :=
  Session.user_id s <> "" /\
  Session.created_at s <= now /\
  Session.created_at s <= Session.last_activity s /\
  Forall (valid_message now) (Session.conversation_history s).

(** Some request the storage backend received between two states was
    answered by an exception. *)
Definition storage_failed (w w' : World) : Prop :=
  exists n, (boto_calls w <= n < boto_calls w')%nat /\ faults w n <> None.

(** A plain term: a non-empty lowercase word without whitespace. *)
Definition plain_term (t : string) : bool :=
  (negb (Py.is_empty t) && spaceless t && String.eqb (Py.lower t) t)%bool.

(** The state after the backend answered a request, leaving the table
    as [items'], and after it refused one. *)
Definition answered (w : World) (items' : gmap string Item) : World :=
  {| clock := clock w; uuid_counter := uuid_counter w; table := Some items';
     faults := faults w; boto_calls := S (boto_calls w); sent := sent w |}.

Definition refused (w : World) : World :=
  {| clock := clock w; uuid_counter := uuid_counter w; table := table w;
     faults := faults w; boto_calls := S (boto_calls w); sent := sent w |}.

(** Every request between two states was answered. *)
Definition quiet (w w' : World) : Prop :=
  faults w' = faults w /\
  (boto_calls w <= boto_calls w')%nat /\
  forall n, (boto_calls w <= n < boto_calls w')%nat -> faults w n = None.

(** ** Example instances *)

Module Example.

Definition weather_response : AgentResponse.t :=
  {| AgentResponse.agent_id := "birmingham_agent";
     AgentResponse.response_type := AgentResponseType.WEATHER;
     AgentResponse.data := [("temperature", VStr "72°F"); ("condition", VStr "Partly Cloudy")];
     AgentResponse.location := "Birmingham, Alabama";
     AgentResponse.timestamp := 1000 |}.

(** An agent service whose weather getter answers 72°F, Partly Cloudy. *)
Definition agent : AgentService.t :=
  {| AgentService.agent_id := "birmingham_agent";
     AgentService.get_current_time :=
       AgentResponse.create_time_response "birmingham_agent" "10:00:00 AM" "Central Time (CT)";
     AgentService.get_current_date :=
       AgentResponse.create_date_response "birmingham_agent" "March 01, 2025" "Saturday";
     AgentService.get_weather :=
       AgentResponse.create_weather_response "birmingham_agent" "72°F" "Partly Cloudy" None;
     AgentService.get_all_info := ret [] |}.

Definition knowledge_bases : KnowledgeBaseService.t :=
  {| KnowledgeBaseService.list_knowledge_bases := fun _ => ret [];
     KnowledgeBaseService.query_knowledge_base := fun _ _ _ => ([], None) |}.

Definition bedrock : BedrockService.t :=
  {| BedrockService.model_id := "amazon.nova-pro-v1:0";
     BedrockService.temperature := "0.7";
     BedrockService.max_tokens := 4096;
     BedrockService.generate_response := fun _ _ => (["Hello"], None) |}.

(** The integration service whose sets are iterated in the order in
    which [__init__] writes them. *)
Definition service : IntegrationService.t :=
  {| agent_service := agent;
     agent_commands := agent_vocabulary;
     knowledge_base_indicators := indicator_vocabulary;
     session_service := SessionService.default;
     knowledge_base_service := knowledge_bases;
     bedrock_service := bedrock |}.

Definition user : UserContext.t :=
  {| UserContext.user_id := "user-1"; UserContext.email := "user-1@example.com";
     UserContext.name := "User One" |}.

(** A healthy, empty store at time 1000. *)
Definition fresh : World :=
  {| clock := 1000; uuid_counter := 0; table := Some ∅;
     faults := fun _ => None; boto_calls := 0; sent := [] |}.

(** The same store, every request to which fails. *)
Definition failing : World :=
  {| clock := 1000; uuid_counter := 0; table := Some ∅;
     faults := fun _ => Some (ClientError "ServiceUnavailable"); boto_calls := 0; sent := [] |}.

Definition message (n : nat) : Message.t :=
  {| Message.message_id := "m" +:+ pretty n; Message.session_id := "s1";
     Message.content := "message " +:+ pretty n; Message.message_type := USER;
     Message.timestamp := 500; Message.metadata := [] |}.

(** A session of [user] with the history [h], last active at [last]. *)
Definition session (h : list Message.t) (last : Z) : Session.t :=
  {| Session.session_id := "s1"; Session.user_id := "user-1"; Session.created_at := 0;
     Session.last_activity := last; Session.knowledge_base_id := None;
     Session.conversation_history := h; Session.status := ACTIVE |}.

(** A healthy store at time [t] that holds [s]. *)
Definition store_with (s : Session.t) (t : Z) : World :=
  {| clock := t; uuid_counter := 0;
     table := Some {[ Session.session_id s := {| item_data := s; item_ttl := 0 |} ]};
     faults := fun _ => None; boto_calls := 0; sent := [] |}.

(** NO-BREAK SPACE (U+00A0), IDEOGRAPHIC SPACE (U+3000) and KELVIN SIGN
    (U+212A), by their bytes. *)
Definition no_break_space : string :=
  String (ascii_of_nat 194) (String (ascii_of_nat 160) "").

Definition ideographic_space : string :=
  String (ascii_of_nat 227) (String (ascii_of_nat 128) (String (ascii_of_nat 128) "")).

Definition kelvin_sign : string :=
  String (ascii_of_nat 226) (String (ascii_of_nat 132) (String (ascii_of_nat 170) "")).

(** The letter a, [n] times. *)
Fixpoint letters (n : nat) : string :=
  match n with
  | O => ""
  | S k => String (ascii_of_nat 97) (letters k)
  end.

(** The integration service whose model answers with the stream
    [stream], whatever it is asked. *)
Definition service_answering (stream : list string * option exn) : IntegrationService.t :=
  {| agent_service := agent;
     agent_commands := agent_vocabulary;
     knowledge_base_indicators := indicator_vocabulary;
     session_service := SessionService.default;
     knowledge_base_service := knowledge_bases;
     bedrock_service :=
       {| BedrockService.model_id := "amazon.nova-pro-v1:0";
          BedrockService.temperature := "0.7";
          BedrockService.max_tokens := 4096;
          BedrockService.generate_response := fun _ _ => stream |} |}.

(** The integration service whose knowledge bases answer a query with
    their identifier and the query itself. *)
Definition service_echoing : IntegrationService.t :=
  {| agent_service := agent;
     agent_commands := agent_vocabulary;
     knowledge_base_indicators := indicator_vocabulary;
     session_service := SessionService.default;
     knowledge_base_service :=
       {| KnowledgeBaseService.list_knowledge_bases := fun _ => ret [];
          KnowledgeBaseService.query_knowledge_base :=
            fun kb_id query _ => ([kb_id; ": "; query], None) |};
     bedrock_service := bedrock |}.

End Example.

(* ===================================================================== *)
(** * Further code: the response formatter and the agent metrics *)
(* ===================================================================== *)

(** [if key in data and isinstance(data[key], dict)] *)
Definition dict_at (data : pydict) (key : string) : option pydict :=
  match Dict.get data key with
  | Some (VDict d) => Some d
  | _ => None
  end.

(** [f", Humidity: {humidity}" if humidity else ""] for
    [humidity = data.get('humidity', '')] *)
Definition humidity_str (data : pydict) : string :=
  match Dict.get data "humidity" with
  | Some humidity => if truthy humidity then ", Humidity: " +:+ str_val humidity else ""
  | None => ""
  end.

(** [AgentResponse.get_formatted_response] *)
Definition get_formatted_response (self : AgentResponse.t) : M string :=
  let data := AgentResponse.data self in
  let location := AgentResponse.location self in
  match AgentResponse.response_type self with
  | AgentResponseType.TIME =>
      time <- Dict.item data "time" ;;
      timezone <- Dict.item data "timezone" ;;
      ret ("Current time in " +:+ location +:+ ": " +:+ str_val time
             +:+ " (" +:+ str_val timezone +:+ ")")
  | AgentResponseType.DATE =>
      day_of_week <- Dict.item data "day_of_week" ;;
      date <- Dict.item data "date" ;;
      ret ("Current date in " +:+ location +:+ ": " +:+ str_val day_of_week
             +:+ ", " +:+ str_val date)
  | AgentResponseType.WEATHER =>
      temp <- Dict.item data "temperature" ;;
      condition <- Dict.item data "condition" ;;
      ret ("Weather in " +:+ location +:+ ": " +:+ str_val temp +:+ ", "
             +:+ str_val condition +:+ humidity_str data)
  | AgentResponseType.COMBINED =>
      let parts :=
        match dict_at data "time" with
        | Some time_data =>
            match Dict.get time_data "time", Dict.get time_data "timezone" with
            | Some t, Some tz => ["Time: " +:+ str_val t +:+ " (" +:+ str_val tz +:+ ")"]
            | _, _ => []
            end
        | None => []
        end in
      let parts :=
        match dict_at data "date" with
        | Some date_data =>
            match Dict.get date_data "date", Dict.get date_data "day_of_week" with
            | Some d, Some dow => parts ++ ["Date: " +:+ str_val dow +:+ ", " +:+ str_val d]
            | _, _ => parts
            end
        | None => parts
        end in
      let parts :=
        match dict_at data "weather" with
        | Some weather_data =>
            match Dict.get weather_data "temperature", Dict.get weather_data "condition" with
            | Some temp, Some condition =>
                parts ++ ["Weather: " +:+ str_val temp +:+ ", " +:+ str_val condition
                            +:+ humidity_str weather_data]
            | _, _ => parts
            end
        | None => parts
        end in
      match parts with
      | [] => ret ("Combined data for " +:+ location)
      | _ => ret ("Birmingham, Alabama - " +:+ Py.join " | " parts)
      end
  | AgentResponseType.ERROR =>
      error_message <- Dict.item data "error_message" ;;
      ret ("Agent Error: " +:+ str_val error_message)
  end.

(** ** services/agent_monitoring_service.py *)

Module AgentMonitoring.
Section WithFloats.

(** Response times, averages and rates are Python floats.  Their
    arithmetic is not modelled: [float] is any type, and the two
    expressions computed on floats are given, [mean times] for
    [sum(times) / len(times)] and [percentage s n] for
    [(s / n) * 100.0]. *)
Context {float : Type}.
Variable mean : list float -> float.
Variable percentage : Z -> Z -> float.
Variable zero hundred : float.

Record AgentMetrics := {
  agent_id : string;
  total_requests : Z;
  successful_requests : Z;
  failed_requests : Z;
  average_response_time : float;
  last_request_time : option Z;
  last_error : option string;
  last_error_time : option Z;
  uptime_percentage : float;
  response_times : list float           (* deque(maxlen=100), oldest first *)
}.

(** [AgentMetrics(agent_id=agent_id)] *)
Definition new_metrics (agent_id : string) : AgentMetrics :=
  {| agent_id := agent_id; total_requests := 0; successful_requests := 0;
     failed_requests := 0; average_response_time := zero; last_request_time := None;
     last_error := None; last_error_time := None; uptime_percentage := hundred;
     response_times := [] |}.

(** [AgentMetrics.success_rate] *)
Definition success_rate (self : AgentMetrics) : float :=
  if total_requests self =? 0 then hundred
  else percentage (successful_requests self) (total_requests self).

(** [deque.append] on a deque of bounded length: at full length the
    oldest element is dropped. *)
Definition deque_append (maxlen : nat) (x : float) (d : list float) : list float :=
  if Nat.leb maxlen (length d) then drop (S (length d) - maxlen) (d ++ [x])
  else d ++ [x].

(** [AgentMetrics.update_response_time] *)
Definition update_response_time (self : AgentMetrics) (response_time : float) : AgentMetrics :=
  let times := deque_append 100 response_time (response_times self) in
  {| agent_id := agent_id self; total_requests := total_requests self;
     successful_requests := successful_requests self;
     failed_requests := failed_requests self;
     average_response_time := match times with
                              | [] => average_response_time self
                              | _ => mean times
                              end;
     last_request_time := last_request_time self; last_error := last_error self;
     last_error_time := last_error_time self;
     uptime_percentage := uptime_percentage self;
     response_times := times |}.

(** Assignments to the fields of a metrics record. *)
Definition count_request (m : AgentMetrics) (now : Z) : AgentMetrics :=
  {| agent_id := agent_id m; total_requests := total_requests m + 1;
     successful_requests := successful_requests m; failed_requests := failed_requests m;
     average_response_time := average_response_time m; last_request_time := Some now;
     last_error := last_error m; last_error_time := last_error_time m;
     uptime_percentage := uptime_percentage m; response_times := response_times m |}.

Definition count_success (m : AgentMetrics) : AgentMetrics :=
  {| agent_id := agent_id m; total_requests := total_requests m;
     successful_requests := successful_requests m + 1; failed_requests := failed_requests m;
     average_response_time := average_response_time m;
     last_request_time := last_request_time m;
     last_error := last_error m; last_error_time := last_error_time m;
     uptime_percentage := uptime_percentage m; response_times := response_times m |}.

Definition count_failure (m : AgentMetrics) (error_message : option string) (now : Z)
    : AgentMetrics :=
  {| agent_id := agent_id m; total_requests := total_requests m;
     successful_requests := successful_requests m; failed_requests := failed_requests m + 1;
     average_response_time := average_response_time m;
     last_request_time := last_request_time m;
     last_error := error_message; last_error_time := Some now;
     uptime_percentage := uptime_percentage m; response_times := response_times m |}.

Definition set_uptime (m : AgentMetrics) (rate : float) : AgentMetrics :=
  {| agent_id := agent_id m; total_requests := total_requests m;
     successful_requests := successful_requests m; failed_requests := failed_requests m;
     average_response_time := average_response_time m;
     last_request_time := last_request_time m;
     last_error := last_error m; last_error_time := last_error_time m;
     uptime_percentage := rate; response_times := response_times m |}.

(** [AgentMonitoringService.record_request], on the dictionary
    [self.metrics]; [now] is the reading of the clock. *)
Definition record_request (metrics : gmap string AgentMetrics) (now : Z)
    (agent_id : string) (success : bool) (response_time : float)
    (error_message : option string) : gmap string AgentMetrics :=
  let m := default (new_metrics agent_id) (metrics !! agent_id) in
  let m := count_request m now in
  let m := update_response_time m response_time in
  let m := if success then count_success m else count_failure m error_message now in
  let m := set_uptime m (success_rate m) in
  <[agent_id := m]> metrics.

(** [AgentMonitoringService.reset_metrics] *)
Definition reset_metrics (metrics : gmap string AgentMetrics) (agent_id : option string)
    : gmap string AgentMetrics :=
  match agent_id with
  | Some (String _ _ as a) =>
      match metrics !! a with
      | Some _ => <[a := new_metrics a]> metrics
      | None => metrics
      end
  | _ => ∅
  end.

(** One recorded request: agent, outcome, response time, error text. *)
Definition request : Type := string * bool * float * option string.

(** The requests recorded one after the other, each at its own time. *)
Fixpoint record_all (metrics : gmap string AgentMetrics) (requests : list (Z * request))
    : gmap string AgentMetrics :=
  match requests with
  | [] => metrics
  | (now, (agent_id, success, response_time, error_message)) :: rest =>
      record_all (record_request metrics now agent_id success response_time error_message)
                 rest
  end.

End WithFloats.
End AgentMonitoring.

(** ** Further notions *)

(** The state after the fragments [fragments] were yielded. *)
Definition sending (fragments : list Fragment.t) (w : World) : World :=
  {| clock := clock w; uuid_counter := uuid_counter w; table := table w;
     faults := faults w; boto_calls := boto_calls w; sent := sent w ++ fragments |}.

(** The consistency of a breaker: the count is not negative, and a
    breaker that is not closed has reached its threshold and knows the
    time of its last failure. *)
Definition breaker_consistent (self : CircuitBreaker.t) : Prop :=
  (0 <= CircuitBreaker.failure_count self) /\
  (CircuitBreaker.state self <> CircuitBreaker.CLOSED ->
   (CircuitBreaker.failure_threshold self <= CircuitBreaker.failure_count self) /\
   (CircuitBreaker.last_failure_time self <> None)).

(** A caller that makes the calls [funcs] one after the other through
    the breaker and goes on after an exception. *)
Fixpoint call_each {W A} `{Clock W} (funcs : list (Mon W A)) : Mon (CircuitBreaker.t * W) unit :=
  match funcs with
  | [] => ret tt
  | func :: rest =>
      try_except (CircuitBreaker.call func ;; ret tt) (fun _ => ret tt) ;;
      call_each rest
  end.

(** [func] fails whenever it is invoked. *)
Definition always_fails {W A} (func : Mon W A) : Prop :=
  forall w, exists e w', func w = (Raise e, w').

(** The history [add_message_to_session] stores for the history [h]
    after the append. *)
Definition trimmed (cap : Z) (h : list Message.t) : list Message.t :=
  if Z.of_nat (length h) >? cap then slice_from (- cap) h else h.

(** The streaming fragment of a chunk at time [ts]. *)
Definition chunk_fragment (ts : Z) (chunk : string) : Fragment.t :=
  {| Fragment.type := "response"; Fragment.content := chunk; Fragment.timestamp := ts;
     Fragment.streaming := Some true; Fragment.error_type := None;
     Fragment.metadata := None |}.

Definition status_fragment (ts : Z) (message : string) : Fragment.t :=
  {| Fragment.type := "status"; Fragment.content := message; Fragment.timestamp := ts;
     Fragment.streaming := None; Fragment.error_type := None; Fragment.metadata := None |}.

Definition error_fragment (ts : Z) (message error_type : string) : Fragment.t :=
  {| Fragment.type := "error"; Fragment.content := message; Fragment.timestamp := ts;
     Fragment.streaming := None; Fragment.error_type := Some error_type;
     Fragment.metadata := None |}.

(** The text of all chunks, one after the other. *)
Definition concat_chunks (chunks : list string) : string :=
  foldr String.append "" chunks.

(** The order of a listing: [a] comes before [b] when it was active at
    least as recently. *)
Definition newer_first (a b : Session.t) : Prop :=
  Session.last_activity b <= Session.last_activity a.

(** A computation that yields nothing and leaves the clock alone. *)
Definition silent {A} (m : M A) : Prop :=
  forall w r w', m w = (r, w') -> sent w' = sent w /\ clock w' = clock w.

(** The agent, the outcome and the response time of a recorded
    request. *)
Definition request_agent {float : Type} (q : Z * @AgentMonitoring.request float) : string :=
  let '(_, (agent_id, _, _, _)) := q in agent_id.

Definition request_success {float : Type} (q : Z * @AgentMonitoring.request float) : bool :=
  let '(_, (_, success, _, _)) := q in success.

Definition request_time {float : Type} (q : Z * @AgentMonitoring.request float) : float :=
  let '(_, (_, _, response_time, _)) := q in response_time.

(** The requests made to the agent [agent_id], in their order. *)
Definition requests_to {float : Type} (agent_id : string)
    (requests : list (Z * @AgentMonitoring.request float))
    : list (Z * @AgentMonitoring.request float) :=
  List.filter (fun q => String.eqb (request_agent q) agent_id) requests.

(** The last [n] elements of a list. *)
Definition last_n {A} (n : nat) (l : list A) : list A := drop (length l - n) l.

Section MetricsNotions.
Context {float : Type}.
Variable mean : list float -> float.
Variable percentage : Z -> Z -> float.

(** What the metrics [m] of the agent [a] say after the requests
    [requests] were recorded. *)
Definition recorded (a : string) (requests : list (Z * @AgentMonitoring.request float))
    (m : @AgentMonitoring.AgentMetrics float) : Prop :=
  let mine := requests_to a requests in
  mine <> [] /\
  AgentMonitoring.agent_id m = a /\
  AgentMonitoring.total_requests m = Z.of_nat (length mine) /\
  AgentMonitoring.successful_requests m
    = Z.of_nat (length (List.filter request_success mine)) /\
  AgentMonitoring.failed_requests m
    = Z.of_nat (length (List.filter (fun q => negb (request_success q)) mine)) /\
  AgentMonitoring.response_times m = last_n 100 (map request_time mine) /\
  AgentMonitoring.average_response_time m = mean (AgentMonitoring.response_times m) /\
  AgentMonitoring.uptime_percentage m
    = percentage (AgentMonitoring.successful_requests m) (AgentMonitoring.total_requests m).

(** The dictionary [metrics] holds the record of [requests]: metrics
    for the agents that were asked, and for no other. *)
Definition tracked (metrics : gmap string (@AgentMonitoring.AgentMetrics float))
    (requests : list (Z * @AgentMonitoring.request float)) : Prop :=
  forall a, match metrics !! a with
            | Some m => recorded a requests m
            | None => requests_to a requests = []
            end.

End MetricsNotions.

(* ===================================================================== *)
(** * Properties *)
(* ===================================================================== *)
(* ===================================================================== *)
(** * Strings: containment, stripping, lowering *)
(* ===================================================================== *)

Section StringFacts.

Lemma prefix_empty (s : string) : String.prefix "" s = true.
Proof. by destruct s. Qed.

Lemma prefix_app (t s : string) :
  String.prefix t s = true <-> exists post, s = t +:+ post.
Proof.
  revert s. induction t as [|a t IH]; intros s.
  - rewrite prefix_empty. split; [intros _; by exists s | reflexivity].
  - destruct s as [|b s]; simpl.
    + split; [discriminate | intros [post Hp]; discriminate].
    + destruct (ascii_dec a b) as [->|Hne].
      * rewrite IH. split; intros [post Hp]; exists post.
        -- by rewrite Hp.
        -- by injection Hp.
      * split; [discriminate | intros [post Hp]; injection Hp as -> _; by destruct Hne].
Qed.

Lemma contains_unfold (t s : string) :
  Py.contains t s =
  (String.prefix t s || match s with
                        | EmptyString => false
                        | String _ s' => Py.contains t s'
                        end)%bool.
Proof. by destruct s. Qed.

Lemma contains_occurs (t s : string) :
  Py.contains t s = true <-> occurs_in t s.
Proof.
  split.
  - induction s as [|c s IH]; rewrite contains_unfold, orb_true_iff.
    + intros [Hp|Hf]; [|done].
      apply prefix_app in Hp as [post ->]. by exists "", post.
    + intros [Hp|Hc].
      * apply prefix_app in Hp as [post Hp]. exists "", post. by rewrite Hp.
      * destruct (IH Hc) as (pre & post & ->). by exists (String c pre), post.
  - intros (pre & post & ->). induction pre as [|c pre IH].
    + rewrite contains_unfold. apply orb_true_iff. left.
      apply prefix_app. by exists post.
    + rewrite contains_unfold. apply orb_true_iff. by right.
Qed.

(** A byte that no word starts with: whitespace, or a byte of a
    character outside ASCII. *)
Lemma prefix_space (t : string) (c : ascii) (s : string) :
  t <> "" -> spaceless t = true ->
  Py.isspace c = true \/ (128 <= nat_of_ascii c)%nat ->
  String.prefix t (String c s) = false.
Proof.
  destruct t as [|a t]; [done|]. simpl. intros _ Ht Hc.
  apply andb_true_iff in Ht as [Ha _]. apply andb_true_iff in Ha as [Ha1 Ha2].
  destruct (ascii_dec a c) as [->|]; [|done].
  destruct Hc as [Hc|Hc]; [by rewrite Hc in Ha2|].
  apply Nat.ltb_lt in Ha1. lia.
Qed.

Lemma contains_empty (t : string) : t <> "" -> Py.contains t "" = false.
Proof. by destruct t. Qed.

Lemma isspace2_bytes (c1 c2 : ascii) :
  Py.isspace2 c1 c2 = true -> (128 <= nat_of_ascii c1)%nat /\ (128 <= nat_of_ascii c2)%nat.
Proof.
  unfold Py.isspace2. rewrite andb_true_iff, orb_true_iff, !Nat.eqb_eq. lia.
Qed.

Lemma isspace3_bytes (c1 c2 c3 : ascii) :
  Py.isspace3 c1 c2 c3 = true ->
  (128 <= nat_of_ascii c1)%nat /\ (128 <= nat_of_ascii c2)%nat /\
  (128 <= nat_of_ascii c3)%nat.
Proof.
  unfold Py.isspace3.
  rewrite !orb_true_iff, !andb_true_iff, !orb_true_iff, !andb_true_iff,
    !Nat.eqb_eq, !Nat.leb_le. lia.
Qed.

(** One step of [lstrip]: nothing is dropped, or one whitespace
    character of one, two or three bytes. *)
Lemma lstrip_cases (s : string) :
  Py.lstrip s = s \/
  (exists c1 s1, s = String c1 s1 /\ Py.isspace c1 = true /\ Py.lstrip s = Py.lstrip s1) \/
  (exists c1 c2 s2,
      s = String c1 (String c2 s2) /\ Py.isspace2 c1 c2 = true /\
      Py.lstrip s = Py.lstrip s2) \/
  (exists c1 c2 c3 s3,
      s = String c1 (String c2 (String c3 s3)) /\ Py.isspace3 c1 c2 c3 = true /\
      Py.lstrip s = Py.lstrip s3).
Proof.
  destruct s as [|c1 s1]; [by left|]. cbn [Py.lstrip].
  destruct (Py.isspace c1) eqn:H1; [right; left; by eexists _, _|].
  destruct s1 as [|c2 s2]; [by left|].
  destruct (Py.isspace2 c1 c2) eqn:H2; [right; right; left; by eexists _, _, _|].
  destruct s2 as [|c3 s3]; [by left|].
  destruct (Py.isspace3 c1 c2 c3) eqn:H3; [|by left].
  right; right; right. by eexists _, _, _, _.
Qed.

Lemma contains_lstrip (t s : string) :
  t <> "" -> spaceless t = true -> Py.contains t (Py.lstrip s) = Py.contains t s.
Proof.
  intros Hne Ht.
  assert (forall n s, (String.length s <= n)%nat ->
                      Py.contains t (Py.lstrip s) = Py.contains t s) as Hall;
    [|by apply (Hall (String.length s))].
  clear s. induction n as [|n IH]; intros s Hlen.
  - by destruct s; [|simpl in Hlen; lia].
  - destruct (lstrip_cases s)
      as [->|[(c1 & s1 & -> & H1 & ->)|[(c1 & c2 & s2 & -> & H2 & ->)
                                       |(c1 & c2 & c3 & s3 & -> & H3 & ->)]]].
    + done.
    + simpl in Hlen. rewrite IH by lia.
      rewrite (contains_unfold t (String c1 s1)). rewrite prefix_space; by auto.
    + simpl in Hlen. rewrite IH by lia. apply isspace2_bytes in H2 as [? ?].
      rewrite (contains_unfold t (String c1 _)), (contains_unfold t (String c2 _)).
      rewrite !prefix_space; by auto.
    + simpl in Hlen. rewrite IH by lia. apply isspace3_bytes in H3 as (? & ? & ?).
      rewrite (contains_unfold t (String c1 _)), (contains_unfold t (String c2 _)),
        (contains_unfold t (String c3 _)).
      rewrite !prefix_space; by auto.
Qed.

(** A text that is all whitespace starts with a byte that no word
    starts with. *)
Lemma blank_first (c : ascii) (s : string) :
  Py.is_empty (Py.lstrip (String c s)) = true ->
  Py.isspace c = true \/ (128 <= nat_of_ascii c)%nat.
Proof.
  intros Hb.
  destruct (lstrip_cases (String c s))
    as [Heq|[(c1 & s1 & [= <- <-] & H1 & _)|[(c1 & c2 & s2 & [= <- _] & H2 & _)
                                            |(c1 & c2 & c3 & s3 & [= <- _] & H3 & _)]]].
  - by rewrite Heq in Hb.
  - by left.
  - right. by apply isspace2_bytes in H2 as [? ?].
  - right. by apply isspace3_bytes in H3 as (? & ? & ?).
Qed.

Lemma prefix_rstrip (t s : string) :
  spaceless t = true -> String.prefix t (Py.rstrip s) = String.prefix t s.
Proof.
  revert t. induction s as [|b s IH]; intros t Ht; [done|].
  destruct t as [|a t]; [by rewrite !prefix_empty|].
  cbn [Py.rstrip].
  destruct (Py.is_empty (Py.lstrip (String b s))) eqn:Hb.
  - apply blank_first in Hb. by rewrite prefix_space.
  - simpl in Ht. apply andb_true_iff in Ht as [_ Ht].
    simpl. destruct (ascii_dec a b); [by apply IH | done].
Qed.

Lemma contains_rstrip (t s : string) :
  t <> "" -> spaceless t = true -> Py.contains t (Py.rstrip s) = Py.contains t s.
Proof.
  intros Hne Ht. induction s as [|c s IH]; [done|].
  cbn [Py.rstrip].
  destruct (Py.is_empty (Py.lstrip (String c s))) eqn:Hc.
  - rewrite <- (contains_lstrip t (String c s)) by done.
    by destruct (Py.lstrip (String c s)).
  - rewrite (contains_unfold t (String c s)), (contains_unfold t (String c (Py.rstrip s))).
    rewrite IH. f_equal.
    destruct t as [|a t]; [done|]. simpl.
    simpl in Ht. apply andb_true_iff in Ht as [_ Ht].
    destruct (ascii_dec a c); [by apply prefix_rstrip | done].
Qed.

Lemma contains_strip (t s : string) :
  t <> "" -> spaceless t = true -> Py.contains t (Py.strip s) = Py.contains t s.
Proof.
  intros Hne Ht. unfold Py.strip. by rewrite contains_rstrip, contains_lstrip.
Qed.

(** [lower] on an ASCII character, whatever follows it. *)
Lemma lower_cons_ascii (c : ascii) (s : string) :
  (nat_of_ascii c < 128)%nat ->
  Py.lower (String c s) = String (Py.lower_char c) (Py.lower s).
Proof.
  intros Hc.
  assert (forall c2, Py.is_dotted_capital_i c c2 = false) as Hi.
  { intros c2. unfold Py.is_dotted_capital_i.
    destruct (Nat.eqb_spec (nat_of_ascii c) 196); [lia | done]. }
  assert (forall c2 c3, Py.is_kelvin_sign c c2 c3 = false) as Hk.
  { intros c2 c3. unfold Py.is_kelvin_sign.
    destruct (Nat.eqb_spec (nat_of_ascii c) 226); [lia | done]. }
  destruct s as [|c2 [|c3 s3]]; cbn [Py.lower]; by rewrite ?Hi, ?Hk.
Qed.

Lemma spaceless_first (c : ascii) (t : string) :
  spaceless (String c t) = true -> (nat_of_ascii c < 128)%nat /\ spaceless t = true.
Proof.
  simpl. rewrite !andb_true_iff, Nat.ltb_lt. tauto.
Qed.

(** [lower] goes through a word letter by letter. *)
Lemma lower_word_app (t s : string) :
  spaceless t = true -> Py.lower (t +:+ s) = Py.lower t +:+ Py.lower s.
Proof.
  induction t as [|c t IH]; intros Ht; [done|].
  apply spaceless_first in Ht as [Hc Ht].
  change (String c t +:+ s) with (String c (t +:+ s)).
  rewrite !lower_cons_ascii by done. rewrite IH by done. done.
Qed.

(** One step of [lower]: one byte is folded, or one of the two
    characters is mapped. *)
Lemma lower_cases (s : string) :
  s = "" \/
  (exists c1 s1, s = String c1 s1 /\
     Py.lower s = String (Py.lower_char c1) (Py.lower s1)) \/
  (exists c1 c2 s2,
      s = String c1 (String c2 s2) /\ Py.is_dotted_capital_i c1 c2 = true /\
      Py.lower s = String (ascii_of_nat 105)
                     (String (ascii_of_nat 204) (String (ascii_of_nat 135) (Py.lower s2)))) \/
  (exists c1 c2 c3 s3,
      s = String c1 (String c2 (String c3 s3)) /\ Py.is_kelvin_sign c1 c2 c3 = true /\
      Py.lower s = String (ascii_of_nat 107) (Py.lower s3)).
Proof.
  destruct s as [|c1 s1]; [by left|]. right.
  destruct s1 as [|c2 s2]; [left; by eexists _, _|].
  cbn [Py.lower].
  destruct (Py.is_dotted_capital_i c1 c2) eqn:Hi; [right; left; by eexists _, _, _|].
  destruct s2 as [|c3 s3]; [left; by eexists _, _|].
  destruct (Py.is_kelvin_sign c1 c2 c3) eqn:Hk; [|left; by eexists _, _].
  right; right. by eexists _, _, _, _.
Qed.

(** What [lower] makes of the text before a word does not reach into
    the word. *)
Lemma lower_before_word (pre : string) (c : ascii) (s : string) :
  (nat_of_ascii c < 128)%nat ->
  exists pre', Py.lower (pre +:+ String c s) = pre' +:+ Py.lower (String c s).
Proof.
  intros Hc.
  assert (forall c2, Py.is_dotted_capital_i c2 c = false) as Hi.
  { intros c2. unfold Py.is_dotted_capital_i.
    destruct (Nat.eqb_spec (nat_of_ascii c) 176); [lia | by rewrite andb_false_r]. }
  assert (forall c1 c3, Py.is_kelvin_sign c1 c c3 = false) as Hk2.
  { intros c1 c3. unfold Py.is_kelvin_sign.
    destruct (Nat.eqb_spec (nat_of_ascii c) 132);
      [lia | by rewrite andb_false_r]. }
  assert (forall c1 c2, Py.is_kelvin_sign c1 c2 c = false) as Hk3.
  { intros c1 c2. unfold Py.is_kelvin_sign.
    destruct (Nat.eqb_spec (nat_of_ascii c) 170); [lia | by rewrite andb_false_r]. }
  assert (forall n pre, (String.length pre <= n)%nat ->
            exists pre', Py.lower (pre +:+ String c s) = pre' +:+ Py.lower (String c s))
    as Hall; [|by apply (Hall (String.length pre))].
  clear pre. induction n as [|n IH]; intros pre Hlen.
  - destruct pre; [by exists "" | simpl in Hlen; lia].
  - destruct pre as [|c1 p1]; [by exists ""|]. simpl in Hlen.
    destruct (lower_cases (String c1 p1 +:+ String c s))
      as [Hnil|[(a1 & s1 & Heq & ->)|[(a1 & a2 & s2 & Heq & Hd & ->)
                                     |(a1 & a2 & a3 & s3 & Heq & Hk & ->)]]].
    + done.
    + injection Heq as <- <-.
      destruct (IH p1 ltac:(lia)) as (q & ->). by exists (String (Py.lower_char c1) q).
    + destruct p1 as [|c2 p2]; injection Heq as <- <- <-.
      * by rewrite Hi in Hd.
      * simpl in Hlen. destruct (IH p2 ltac:(lia)) as (q & ->).
        by exists (String (ascii_of_nat 105)
                     (String (ascii_of_nat 204) (String (ascii_of_nat 135) q))).
    + destruct p1 as [|c2 [|c3 p3]].
      * injection Heq as <- <- Heq. by rewrite Hk2 in Hk.
      * injection Heq as <- <- <- <-. by rewrite Hk3 in Hk.
      * injection Heq as <- <- <- <-. simpl in Hlen.
        destruct (IH p3 ltac:(lia)) as (q & ->). by exists (String (ascii_of_nat 107) q).
Qed.

End StringFacts.


Lemma agent_vocabulary_plain : forallb plain_term agent_vocabulary = true.
Proof. reflexivity. Qed.

Lemma indicator_vocabulary_plain : forallb plain_term indicator_vocabulary = true.
Proof. reflexivity. Qed.

Lemma plain_term_facts (t : string) :
  plain_term t = true -> t <> "" /\ spaceless t = true /\ Py.lower t = t.
Proof.
  unfold plain_term. rewrite !andb_true_iff. intros [[Hn Hs] Hl].
  split_and!; [by destruct t | done | by apply String.eqb_eq].
Qed.

Lemma plain_in (vocabulary : list string) (t : string) :
  forallb plain_term vocabulary = true -> In t vocabulary ->
  t <> "" /\ spaceless t = true /\ Py.lower t = t.
Proof.
  intros Hall Hin. apply plain_term_facts.
  by apply (proj1 (forallb_forall _ _) Hall).
Qed.

(** Whether a set of plain terms has an element in the message does not
    depend on the order of iteration, nor on the stripping. *)
Lemma any_contains (order vocabulary : list string) (text : string) :
  Permutation order vocabulary -> forallb plain_term vocabulary = true ->
  existsb (fun t => Py.contains t (Py.strip (Py.lower text))) order = true <->
  exists t, In t vocabulary /\ occurs_in t (Py.lower text).
Proof.
  intros Hperm Hplain. rewrite existsb_exists. split.
  - intros (t & Hin & Hc). exists t.
    assert (In t vocabulary) as Hv by (eapply Permutation_in; eauto).
    destruct (plain_in _ _ Hplain Hv) as (? & ? & _).
    split; [done|]. apply contains_occurs. by rewrite <- contains_strip.
  - intros (t & Hv & Ho). exists t.
    destruct (plain_in _ _ Hplain Hv) as (? & ? & _).
    split; [eapply Permutation_in; [symmetry|]; eauto |].
    rewrite contains_strip by done. by apply contains_occurs.
Qed.

(* ===================================================================== *)
(** * The command classifier *)
(* ===================================================================== *)

Section Classifier.
Variable self : IntegrationService.t.
Hypothesis Hinit : initialized self.

Lemma any_agent_command (text : string) :
  existsb (fun cmd => Py.contains cmd (Py.strip (Py.lower text))) (agent_commands self) = true
  <-> agent_match text.
Proof. apply any_contains; [apply Hinit | apply agent_vocabulary_plain]. Qed.

Lemma any_indicator (text : string) :
  existsb (fun ind => Py.contains ind (Py.strip (Py.lower text)))
          (knowledge_base_indicators self) = true
  <-> indicator_match text.
Proof. apply any_contains; [apply Hinit | apply indicator_vocabulary_plain]. Qed.

Lemma classify_agent (text : string) :
  agent_match text -> _classify_command self text = "agent".
Proof.
  intros Hm. unfold _classify_command.
  by rewrite (proj2 (any_agent_command text) Hm).
Qed.

Lemma classify_agent_inv (text : string) :
  _classify_command self text = "agent" -> agent_match text.
Proof.
  unfold _classify_command. intros Hc. apply any_agent_command.
  destruct (existsb _ (agent_commands self)); [done|].
  by destruct (existsb _ (knowledge_base_indicators self)).
Qed.

Lemma classify_knowledge_base (text : string) :
  ~ agent_match text -> indicator_match text ->
  _classify_command self text = "knowledge_base".
Proof.
  intros Hna Hm. unfold _classify_command.
  destruct (existsb _ (agent_commands self)) eqn:Ha.
  - by apply any_agent_command in Ha.
  - by rewrite (proj2 (any_indicator text) Hm).
Qed.

Lemma classify_general_ai (text : string) :
  ~ agent_match text -> ~ indicator_match text ->
  _classify_command self text = "general_ai".
Proof.
  intros Hna Hnk. unfold _classify_command.
  destruct (existsb _ (agent_commands self)) eqn:Ha.
  - by apply any_agent_command in Ha.
  - destruct (existsb _ (knowledge_base_indicators self)) eqn:Hk; [|done].
    by apply any_indicator in Hk.
Qed.

Lemma embedded_term_matches (cmd pre post : string) :
  In cmd agent_vocabulary -> agent_match (pre +:+ cmd +:+ post).
Proof.
  intros Hin. exists cmd. split; [done|].
  destruct (plain_in _ _ agent_vocabulary_plain Hin) as (Hne & Hs & Hl).
  destruct cmd as [|c cmd']; [done|].
  destruct (spaceless_first _ _ Hs) as [Hc _].
  change (String c cmd' +:+ post) with (String c (cmd' +:+ post)).
  destruct (lower_before_word pre c (cmd' +:+ post) Hc) as (pre' & ->).
  change (String c (cmd' +:+ post)) with (String c cmd' +:+ post).
  rewrite lower_word_app, Hl by done. by exists pre', (Py.lower post).
Qed.

End Classifier.

Lemma example_initialized : initialized Example.service.
Proof. split; apply Permutation_refl. Qed.

(** C4.  [_classify_command] is a function of the text alone (a total
    function of the model: it returns a value on every text and touches
    no state).  When the lowercased text contains a term of the agent
    vocabulary it answers "agent", whether or not an indicator of the
    knowledge-base vocabulary is there too; otherwise, when it contains
    one of the indicators, "knowledge_base"; otherwise "general_ai". *)
Theorem classify_priority (self : IntegrationService.t) (text : string) :
  initialized self ->
  (agent_match text -> _classify_command self text = "agent") /\
  (~ agent_match text -> indicator_match text ->
     _classify_command self text = "knowledge_base") /\
  (~ agent_match text -> ~ indicator_match text ->
     _classify_command self text = "general_ai").
Proof.
  intros Hinit. split_and!.
  - by apply classify_agent.
  - by apply classify_knowledge_base.
  - by apply classify_general_ai.
Qed.

(** Upper-case text is matched as its lowercase form: a text with "TIME"
    and "KB:" goes to the agent, and "KB:" written with the KELVIN SIGN,
    whose lowercase form is [k], is the indicator "kb:". *)
Lemma classify_priority_witness :
  initialized Example.service /\
  _classify_command Example.service "KB: What TIME is it" = "agent" /\
  _classify_command Example.service (Example.kelvin_sign +:+ "B: Refund Policy")
    = "knowledge_base" /\
  _classify_command Example.service "Hello There" = "general_ai".
Proof.
  split; [exact example_initialized|]. split_and!.
  - apply (proj1 (classify_priority Example.service "KB: What TIME is it"
                    example_initialized)).
    exists "time". split; [simpl; tauto|]. by exists "kb: what ", " is it".
  - apply (proj1 (proj2 (classify_priority Example.service
                           (Example.kelvin_sign +:+ "B: Refund Policy")
                           example_initialized))).
    + intros Hm. apply (any_agent_command Example.service example_initialized) in Hm.
      vm_compute in Hm. discriminate.
    + exists "kb:". split; [simpl; tauto|]. by exists "", " refund policy".
  - apply (proj2 (proj2 (classify_priority Example.service "Hello There"
                           example_initialized))).
    + intros Hm. apply (any_agent_command Example.service example_initialized) in Hm.
      vm_compute in Hm. discriminate.
    + intros Hm. apply (any_indicator Example.service example_initialized) in Hm.
      vm_compute in Hm. discriminate.
Defined.

(** C10.  The match is plain containment, without word boundaries: a
    term of the agent vocabulary inside a longer word sends the text to
    the agent.  "update my profile" (it contains "date") and "really
    good idea" (it contains "all") are classified "agent", and so is
    any text with a term of the vocabulary anywhere in it; for these
    [process_user_command] calls [_handle_agent_command]. *)
Theorem embedded_term_classifies_as_agent (self : IntegrationService.t) :
  initialized self ->
  _classify_command self "update my profile" = "agent" /\
  _classify_command self "really good idea" = "agent" /\
  (forall cmd pre post,
      In cmd agent_vocabulary ->
      _classify_command self (pre +:+ cmd +:+ post) = "agent" /\
      handler_of (_classify_command self (pre +:+ cmd +:+ post)) self
        = _handle_agent_command self).
Proof.
  intros Hinit.
  assert (forall cmd pre post, In cmd agent_vocabulary ->
            _classify_command self (pre +:+ cmd +:+ post) = "agent") as Hany.
  { intros. by apply classify_agent, embedded_term_matches. }
  split_and!.
  - apply (Hany "date" "up" " my profile"). simpl; tauto.
  - apply (Hany "all" "re" "y good idea"). simpl; tauto.
  - intros cmd pre post Hin. split; [by apply Hany|].
    by rewrite (Hany cmd pre post Hin).
Qed.

Lemma embedded_term_classifies_as_agent_witness :
  initialized Example.service /\
  _classify_command Example.service "update my profile" = "agent".
Proof.
  split; [exact example_initialized|].
  exact (proj1 (embedded_term_classifies_as_agent Example.service example_initialized)).
Defined.

(* ===================================================================== *)
(** * The command handed to the agent *)
(* ===================================================================== *)

Lemma first_command_spec (commands : list string) (m d : string) :
  (forallb (fun c => negb (Py.contains c m)) commands = true /\
   first_command commands m d = d) \/
  (exists before after,
      commands = before ++ first_command commands m d :: after /\
      Py.contains (first_command commands m d) m = true /\
      forallb (fun c => negb (Py.contains c m)) before = true).
Proof.
  induction commands as [|c rest IH]; simpl.
  - by left.
  - destruct (Py.contains c m) eqn:Hc.
    + right. exists [], rest. by rewrite Hc.
    + destruct IH as [[Hn Hd]|(before & after & Heq & Hin & Hb)].
      * left. by rewrite Hn, Hd.
      * right. exists (c :: before), after. simpl. rewrite Hc, Hb, Hin.
        split_and!; [by f_equal | done | done].
Qed.

Lemma first_command_ext (commands : list string) (m1 m2 d : string) :
  (forall c, In c commands -> Py.contains c m1 = Py.contains c m2) ->
  first_command commands m1 d = first_command commands m2 d.
Proof.
  induction commands as [|c rest IH]; intros Hext; simpl; [done|].
  rewrite (Hext c) by (simpl; tauto).
  destruct (Py.contains c m2); [done|].
  apply IH. intros c' Hin. apply Hext. simpl; tauto.
Qed.

Lemma first_command_in (commands : list string) (m d : string) :
  In d commands -> In (first_command commands m d) commands.
Proof.
  intros Hd. destruct (first_command_spec commands m d) as [[_ ->]|(b & a & Heq & _)]; [done|].
  rewrite Heq at 2. apply in_or_app. right. by left.
Qed.

(** Every term of the vocabulary is handled by [invoke_agent] as the
    token it stands for. *)
Lemma invoke_agent_token (svc : AgentService.t) (cmd : string) :
  In cmd agent_vocabulary ->
  In (token_of cmd) tokens /\
  AgentService.invoke_agent svc cmd = AgentService.invoke_agent svc (token_of cmd).
Proof.
  intros Hin. simpl in Hin.
  repeat (destruct Hin as [<-|Hin]; [split; [simpl; tauto | reflexivity]|]).
  done.
Qed.

Section AgentCommand.
Variable self : IntegrationService.t.
Hypothesis Hinit : initialized self.

Lemma agent_command_in_vocabulary (m : string) :
  In (agent_command_of self m) agent_vocabulary.
Proof.
  destruct Hinit as [Hperm _].
  eapply Permutation_in; [exact Hperm|].
  apply first_command_in. eapply Permutation_in; [symmetry; exact Hperm|].
  simpl; tauto.
Qed.

Lemma contains_stripped (c m : string) :
  In c (agent_commands self) ->
  (Py.contains c (Py.strip (Py.lower m)) = true <-> occurs_in c (Py.lower m)).
Proof.
  intros Hin. destruct Hinit as [Hperm _].
  assert (In c agent_vocabulary) as Hv by (eapply Permutation_in; eauto).
  destruct (plain_in _ _ agent_vocabulary_plain Hv) as (? & ? & _).
  rewrite contains_strip by done. apply contains_occurs.
Qed.

Lemma agent_command_first (m : string) :
  agent_match m ->
  exists before after,
    agent_commands self = before ++ agent_command_of self m :: after /\
    occurs_in (agent_command_of self m) (Py.lower m) /\
    forall c, In c before -> ~ occurs_in c (Py.lower m).
Proof.
  intros Hm. unfold agent_command_of.
  destruct (first_command_spec (agent_commands self) (Py.strip (Py.lower m)) "all")
    as [[Hnone _]|(before & after & Heq & Hc & Hb)].
  - apply (any_agent_command self Hinit) in Hm.
    apply existsb_exists in Hm as (c & Hin & Hc).
    rewrite forallb_forall in Hnone. specialize (Hnone c Hin). by rewrite Hc in Hnone.
  - exists before, after. split; [done|].
    assert (forall c, In c (before ++ [first_command (agent_commands self)
                                         (Py.strip (Py.lower m)) "all"]) ->
                      In c (agent_commands self)) as Hsub.
    { intros c Hin. rewrite Heq. apply in_app_iff. apply in_app_iff in Hin as [?|[<-|[]]].
      - by left.
      - right. by left. }
    split.
    + apply contains_stripped; [|done]. apply Hsub, in_app_iff. right. by left.
    + intros c Hin Ho. rewrite forallb_forall in Hb. specialize (Hb c Hin).
      apply contains_stripped in Ho; [|apply Hsub, in_app_iff; by left].
      by rewrite Ho in Hb.
Qed.

Lemma agent_command_default (m : string) :
  ~ agent_match m -> agent_command_of self m = "all".
Proof.
  intros Hm. unfold agent_command_of.
  destruct (first_command_spec (agent_commands self) (Py.strip (Py.lower m)) "all")
    as [[_ Hd]|(before & after & Heq & Hc & _)]; [done|].
  destruct Hm. apply (any_agent_command self Hinit), existsb_exists.
  eexists. split; [|exact Hc]. rewrite Heq at 2. apply in_app_iff. right. by left.
Qed.

End AgentCommand.

(** C9, as the code has it.  The command [_handle_agent_command] hands
    to the agent service is, for a message classified "agent", the
    first term that the lowercased message contains in the order in
    which the vocabulary set is iterated (the position of the term in
    the message plays no part), and "all" when the message contains no
    term.  The agent service treats the term as the token it stands
    for, one of time, date, weather and all. *)
Theorem agent_command_selection (self : IntegrationService.t) (user_message : string) :
  initialized self ->
  (_classify_command self user_message = "agent" ->
   exists before after,
     agent_commands self = before ++ agent_command_of self user_message :: after /\
     occurs_in (agent_command_of self user_message) (Py.lower user_message) /\
     forall c, In c before -> ~ occurs_in c (Py.lower user_message)) /\
  (~ agent_match user_message -> agent_command_of self user_message = "all") /\
  In (token_of (agent_command_of self user_message)) tokens /\
  AgentService.invoke_agent (agent_service self) (agent_command_of self user_message)
    = AgentService.invoke_agent (agent_service self)
        (token_of (agent_command_of self user_message)).
Proof.
  intros Hinit. split_and!.
  - intros Hc. apply agent_command_first; [done|]. by apply (classify_agent_inv self).
  - by apply agent_command_default.
  - by apply (invoke_agent_token (agent_service self)), agent_command_in_vocabulary.
  - by apply (invoke_agent_token (agent_service self)), agent_command_in_vocabulary.
Qed.

Lemma agent_command_selection_witness :
  initialized Example.service /\
  In (token_of (agent_command_of Example.service "what is the weather")) tokens.
Proof.
  split; [exact example_initialized|].
  exact (proj1 (proj2 (proj2
    (agent_command_selection Example.service "what is the weather" example_initialized)))).
Defined.

(** C9 as stated fails.  With the vocabulary iterated in the order in
    which it is written, the message "date time" is classified "agent"
    and the command is "time", found at position 5, although "date"
    occurs at position 0. *)
Lemma first_match_is_not_earliest_position :
  _classify_command Example.service "date time" = "agent" /\
  agent_command_of Example.service "date time" = "time" /\
  Py.find "time" (Py.strip (Py.lower "date time")) = Some 5%nat /\
  Py.find "date" (Py.strip (Py.lower "date time")) = Some 0%nat /\
  ~ earliest_match (agent_command_of Example.service "date time")
                   (Py.strip (Py.lower "date time")).
Proof.
  split_and!; [reflexivity..|].
  intros He. specialize (He "date" 0%nat 5%nat).
  assert (5 <= 0)%nat; [|lia].
  apply He; [simpl; tauto | reflexivity | reflexivity].
Qed.

(** No order of iteration makes the choice follow the position: for
    every instance there is a message on which the command is not the
    earliest match. *)
Lemma no_iteration_order_follows_position (self : IntegrationService.t) :
  initialized self ->
  exists m,
    _classify_command self m = "agent" /\
    ~ earliest_match (agent_command_of self m) (Py.strip (Py.lower m)).
Proof.
  intros Hinit.
  assert (first_command (agent_commands self) "date time" "all"
          = first_command (agent_commands self) "time date" "all") as Hsame.
  { apply first_command_ext. intros c Hin.
    assert (In c agent_vocabulary) as Hv by (eapply Permutation_in; [apply Hinit|done]).
    simpl in Hv. repeat (destruct Hv as [<-|Hv]; [reflexivity|]). done. }
  assert (agent_match "date time") as Hm1.
  { exists "date". split; [simpl; tauto|]. by exists "", " time". }
  assert (agent_match "time date") as Hm2.
  { exists "date". split; [simpl; tauto|]. by exists "time ", "". }
  destruct (agent_command_first self Hinit "date time" Hm1) as (b & a & Heq & Ho & _).
  assert (In (agent_command_of self "date time") agent_vocabulary) as Hv
    by by apply agent_command_in_vocabulary.
  apply contains_occurs in Ho.
  assert (agent_command_of self "date time" = "time" \/
          agent_command_of self "date time" = "date") as [Ht|Hd].
  { revert Ho. generalize (agent_command_of self "date time") Hv. intros c Hc.
    simpl in Hc. repeat (destruct Hc as [<-|Hc]; [(by left) || (by right) || done|]). done. }
  - exists "date time". split; [by apply classify_agent|].
    rewrite Ht. intros He. specialize (He "date" 0%nat 5%nat).
    assert (5 <= 0)%nat; [|lia]. apply He; [simpl; tauto | reflexivity | reflexivity].
  - exists "time date". split; [by apply classify_agent|].
    assert (agent_command_of self "time date" = "date") as ->.
    { unfold agent_command_of in *. change (Py.strip (Py.lower "time date")) with "time date".
      by rewrite <- Hsame. }
    intros He. specialize (He "time" 0%nat 5%nat).
    assert (5 <= 0)%nat; [|lia]. apply He; [simpl; tauto | reflexivity | reflexivity].
Qed.

(* ===================================================================== *)
(** * The circuit breaker *)
(* ===================================================================== *)

Section Breaker.
Import CircuitBreaker.
Context {W : Type} `{Clock W} {A : Type}.
Implicit Types (func : Mon W A) (self : CircuitBreaker.t) (w : W).

(** A call that is let through: the breaker is not open when the
    function is invoked. *)
Lemma call_through func self w :
  state self <> OPEN ->
  call func (self, w) =
  match func w with
  | (Ret a, w') =>
      (Ret a, ({| failure_threshold := failure_threshold self;
                  recovery_timeout := recovery_timeout self;
                  failure_count := 0;
                  last_failure_time := last_failure_time self;
                  state := CLOSED |}, w'))
  | (Raise e, w') =>
      (Raise e,
       (let self' := {| failure_threshold := failure_threshold self;
                        recovery_timeout := recovery_timeout self;
                        failure_count := failure_count self + 1;
                        last_failure_time := Some (now w');
                        state := state self |} in
        if failure_count self' >=? failure_threshold self' then set_state self' OPEN
        else self', w'))
  end.
Proof.
  intros Hst. unfold call, bind, gets, try_except, lift. simpl.
  destruct (state self) eqn:Est; [|done|]; simpl;
    destruct (func w) as [[a|e] w']; simpl; by rewrite ?Est.
Qed.

Lemma call_half_open func self w t0 :
  state self = OPEN -> last_failure_time self = Some t0 ->
  seconds (recovery_timeout self) < now w - t0 ->
  call func (self, w) = call func (set_state self HALF_OPEN, w).
Proof.
  intros Hst Hlast Hlate. unfold call, bind, gets, _should_attempt_reset. simpl.
  rewrite Hst. simpl. rewrite Hlast. simpl.
  by rewrite (proj2 (Z.gtb_lt _ _) Hlate).
Qed.

Lemma call_rejected func self w t0 :
  state self = OPEN -> last_failure_time self = Some t0 ->
  now w - t0 <= seconds (recovery_timeout self) ->
  call func (self, w)
  = (Raise (Exception "Circuit breaker is OPEN - service unavailable"), (self, w)).
Proof.
  intros Hst Hlast Hearly. unfold call, bind, gets, _should_attempt_reset. simpl.
  rewrite Hst. simpl. rewrite Hlast. simpl.
  destruct (now w - t0 >? seconds (recovery_timeout self)) eqn:Hgt; [|done].
  apply Z.gtb_lt in Hgt. lia.
Qed.

End Breaker.

(** C2.  The transitions of a breaker under [call].
    - A call that succeeds while the breaker is not open sets
      [failure_count] to 0 and the state to closed.
    - A call that fails adds 1 to [failure_count] and sets
      [last_failure_time] to the current time; the state becomes open
      when the count has reached [failure_threshold], and is left as it
      was otherwise.
    - A call that arrives while the breaker is open, more than
      [recovery_timeout] seconds after [last_failure_time], moves the
      breaker to half-open and runs the wrapped function as a call on a
      half-open breaker does. *)
Theorem breaker_transitions {W : Type} `{Clock W} {A : Type}
    (func : Mon W A) (self : CircuitBreaker.t) (w : W) :
  (forall a w',
      CircuitBreaker.state self <> CircuitBreaker.OPEN -> func w = (Ret a, w') ->
      exists self',
        CircuitBreaker.call func (self, w) = (Ret a, (self', w')) /\
        CircuitBreaker.failure_count self' = 0 /\
        CircuitBreaker.state self' = CircuitBreaker.CLOSED) /\
  (forall e w',
      CircuitBreaker.state self <> CircuitBreaker.OPEN -> func w = (Raise e, w') ->
      exists self',
        CircuitBreaker.call func (self, w) = (Raise e, (self', w')) /\
        CircuitBreaker.failure_count self' = CircuitBreaker.failure_count self + 1 /\
        CircuitBreaker.last_failure_time self' = Some (now w') /\
        (CircuitBreaker.failure_threshold self <= CircuitBreaker.failure_count self'
           -> CircuitBreaker.state self' = CircuitBreaker.OPEN) /\
        (CircuitBreaker.failure_count self' < CircuitBreaker.failure_threshold self
           -> CircuitBreaker.state self' = CircuitBreaker.state self)) /\
  (forall t0,
      CircuitBreaker.state self = CircuitBreaker.OPEN ->
      CircuitBreaker.last_failure_time self = Some t0 ->
      seconds (CircuitBreaker.recovery_timeout self) < now w - t0 ->
      CircuitBreaker.call func (self, w)
        = CircuitBreaker.call func
            (CircuitBreaker.set_state self CircuitBreaker.HALF_OPEN, w) /\
      exists self',
        CircuitBreaker.call func (self, w) = (fst (func w), (self', snd (func w)))).
Proof.
  split_and!.
  - intros a w' Hst Hf. rewrite call_through, Hf by done. eauto.
  - intros e w' Hst Hf. rewrite call_through, Hf by done. simpl.
    destruct (CircuitBreaker.failure_count self + 1 >=? CircuitBreaker.failure_threshold self)
      eqn:Hge; eexists; (split; [reflexivity|]); simpl; split_and!; try done; lia.
  - intros t0 Hst Hlast Hlate. split; [by eapply call_half_open|].
    erewrite call_half_open by done. rewrite call_through by done.
    destruct (func w) as [[a|e] w']; simpl; eauto.
Qed.

(** The agent's breaker after four failures: a fifth opens it. *)
Lemma breaker_transitions_witness :
  let self := {| CircuitBreaker.failure_threshold := 5;
                 CircuitBreaker.recovery_timeout := 60;
                 CircuitBreaker.failure_count := 4;
                 CircuitBreaker.last_failure_time := Some 900;
                 CircuitBreaker.state := CircuitBreaker.CLOSED |} in
  exists self',
    CircuitBreaker.call (raise (Exception "agent down") : Mon World unit) (self, Example.fresh)
      = (Raise (Exception "agent down"), (self', Example.fresh)) /\
    CircuitBreaker.failure_count self' = 5 /\
    CircuitBreaker.last_failure_time self' = Some 1000 /\
    CircuitBreaker.state self' = CircuitBreaker.OPEN.
Proof.
  intros self.
  destruct (proj1 (proj2 (breaker_transitions
                            (raise (Exception "agent down") : Mon World unit)
                            self Example.fresh))
              (Exception "agent down") Example.fresh)
    as (self' & Hcall & Hcount & Hlast & Hopen & _); [done | reflexivity |].
  exists self'. split_and!; [exact Hcall | exact Hcount | exact Hlast |].
  apply Hopen. rewrite Hcount. simpl. lia.
Defined.

(** A remark on the decorator.  For a coroutine function the breaker
    guards only the creation of the coroutine, which cannot fail: when
    the awaited body then raises, the exception passes the wrapper and
    the breaker has recorded a success. *)
Lemma coroutine_failure_is_not_counted :
  CircuitBreaker.with_circuit_breaker "backend.services.integration_service" true
    (raise (Exception "agent down") : Mon World unit)
    (CircuitBreaker.agent_circuit_breaker, Example.fresh)
  = (Raise (Exception "agent down"), (CircuitBreaker.agent_circuit_breaker, Example.fresh)).
Proof. reflexivity. Qed.

(** C3.  A call made while the breaker is open and less than
    [recovery_timeout] seconds after [last_failure_time] raises the
    circuit-open exception and leaves the breaker and the rest of the
    state as they were: the wrapped function is not invoked, and a
    function that counts its invocations keeps its count.  The
    decorator [with_circuit_breaker] hands the caller an error response
    with the error type "circuit_breaker_open". *)
Theorem open_breaker_rejects {W : Type} `{Clock W} {A : Type}
    (func : Mon W A) (self : CircuitBreaker.t) (w : W) (t0 : Z)
    (module_name : string) (is_coroutine_function : bool) :
  CircuitBreaker.state self = CircuitBreaker.OPEN ->
  CircuitBreaker.last_failure_time self = Some t0 ->
  now w - t0 < seconds (CircuitBreaker.recovery_timeout self) ->
  CircuitBreaker.call func (self, w)
    = (Raise (Exception "Circuit breaker is OPEN - service unavailable"), (self, w)) /\
  (forall n : nat,
      CircuitBreaker.call (counting func) (self, (n, w))
      = (Raise (Exception "Circuit breaker is OPEN - service unavailable"), (self, (n, w)))) /\
  exists response,
    CircuitBreaker.with_circuit_breaker module_name is_coroutine_function func (self, w)
      = (Ret (inr response), (self, w)) /\
    Fragment.type response = "error" /\
    Fragment.error_type response = Some "circuit_breaker_open".
Proof.
  intros Hst Hlast Hearly.
  assert (now w - t0 <= seconds (CircuitBreaker.recovery_timeout self)) as Hle by lia.
  split_and!.
  - by eapply call_rejected.
  - intros n. by eapply call_rejected.
  - unfold CircuitBreaker.with_circuit_breaker, try_except.
    destruct is_coroutine_function.
    + unfold bind at 1. erewrite call_rejected by done. simpl. eauto.
    + unfold bind at 1. erewrite call_rejected by done. simpl. eauto.
Qed.

Lemma open_breaker_rejects_witness :
  let self := {| CircuitBreaker.failure_threshold := 5;
                 CircuitBreaker.recovery_timeout := 60;
                 CircuitBreaker.failure_count := 5;
                 CircuitBreaker.last_failure_time := Some 900;
                 CircuitBreaker.state := CircuitBreaker.OPEN |} in
  CircuitBreaker.call (counting (ret tt : Mon World unit)) (self, (7%nat, Example.fresh))
  = (Raise (Exception "Circuit breaker is OPEN - service unavailable"),
     (self, (7%nat, Example.fresh))).
Proof.
  intros self.
  refine (proj1 (proj2 (open_breaker_rejects (ret tt : Mon World unit) self
                          Example.fresh 900 "backend.services.integration_service" false
                          _ _ _)) 7%nat); reflexivity.
Defined.

(* ===================================================================== *)
(** * The session store *)
(* ===================================================================== *)

Section Storage.

Lemma boto_request_answered {A} (op : gmap string Item -> A * gmap string Item)
    (w : World) (items : gmap string Item) :
  table w = Some items -> faults w (boto_calls w) = None ->
  boto_request op w = (Ret (fst (op items)), answered w (snd (op items))).
Proof.
  intros Ht Hf. unfold boto_request. rewrite Hf, Ht. by destruct (op items).
Qed.

Lemma boto_request_refused {A} (op : gmap string Item -> A * gmap string Item)
    (w : World) (e : exn) :
  faults w (boto_calls w) = Some e ->
  boto_request op w = (Raise e, refused w).
Proof. intros Hf. unfold boto_request. by rewrite Hf. Qed.

Lemma quiet_refl (w : World) : quiet w w.
Proof. split_and!; [done | lia | intros; lia]. Qed.

Lemma quiet_trans (w1 w2 w3 : World) : quiet w1 w2 -> quiet w2 w3 -> quiet w1 w3.
Proof.
  intros (Hf1 & Hle1 & Hq1) (Hf2 & Hle2 & Hq2). split_and!.
  - congruence.
  - lia.
  - intros n Hn. destruct (decide (n < boto_calls w2)%nat).
    + apply Hq1. lia.
    + rewrite <- Hf1. apply Hq2. lia.
Qed.

Lemma quiet_answered (w : World) (items : gmap string Item) :
  faults w (boto_calls w) = None -> quiet w (answered w items).
Proof.
  intros Hf. split_and!; simpl; [done | lia |].
  intros n Hn. by replace n with (boto_calls w) by lia.
Qed.

Lemma quiet_not_failed (w w' : World) : quiet w w' -> ~ storage_failed w w'.
Proof. intros (_ & _ & Hq) (n & Hn & Hf). by apply Hf, Hq. Qed.

(** The constructors and methods of the records do not touch the
    store. *)
Lemma message_post_init_pure (m : Message.t) (w : World) :
  snd (Message.__post_init__ m w) = w.
Proof.
  unfold Message.__post_init__, bind, datetime_now, gets, raise, ret.
  repeat (case_match; simpl; try done).
Qed.

Lemma message_from_dict_pure (m : Message.t) (w : World) :
  snd (Message.from_dict m w) = w.
Proof.
  unfold Message.from_dict, bind.
  pose proof (message_post_init_pure m w) as Hp.
  destruct (Message.__post_init__ m w) as [[[]|e] w1]; simpl in *; by subst.
Qed.

Lemma map_from_dict_pure (h : list Message.t) (w : World) :
  snd (map_m Message.from_dict h w) = w.
Proof.
  induction h as [|m h IH]; [done|]. simpl. unfold bind.
  pose proof (message_from_dict_pure m w) as Hp.
  destruct (Message.from_dict m w) as [[m'|e] w1]; simpl in *; subst; [|done].
  destruct (map_m Message.from_dict h w) as [[h'|e] w1]; simpl in *; by subst.
Qed.

Lemma session_post_init_pure (s : Session.t) (w : World) :
  snd (Session.__post_init__ s w) = w.
Proof.
  unfold Session.__post_init__, bind, datetime_now, gets, raise, ret.
  repeat (case_match; simpl; try done).
Qed.

Lemma session_from_dict_pure (s : Session.t) (w : World) :
  snd (Session.from_dict s w) = w.
Proof.
  unfold Session.from_dict, bind.
  pose proof (map_from_dict_pure (Session.conversation_history s) w) as Hp.
  destruct (map_m _ _ w) as [[h|e] w1]; simpl in *; subst; [|done].
  pose proof (session_post_init_pure (Session.set_conversation_history s h) w) as Hp.
  destruct (Session.__post_init__ _ w) as [[[]|e] w1]; simpl in *; by subst.
Qed.

Lemma session_new_pure (sid uid : string) (kb : option string) (st : SessionStatus)
    (w : World) :
  snd (Session.new sid uid kb st w) = w.
Proof.
  unfold Session.new, bind, datetime_now, gets. simpl.
  match goal with |- context [Session.__post_init__ ?s w] =>
    pose proof (session_post_init_pure s w) as Hp;
    destruct (Session.__post_init__ s w) as [[[]|e] w1] end; simpl in *; by subst.
Qed.

Lemma gtb_false (x y : Z) : x <= y -> (x >? y) = false.
Proof. intros. rewrite Z.gtb_ltb. by apply Z.ltb_ge. Qed.

Lemma gtb_true (x y : Z) : y < x -> (x >? y) = true.
Proof. intros. rewrite Z.gtb_ltb. by apply Z.ltb_lt. Qed.

(** A record that satisfies the invariants is read back as it is. *)
Lemma message_from_dict_valid (m : Message.t) (w : World) :
  valid_message (clock w) m -> Message.from_dict m w = (Ret m, w).
Proof.
  intros (Hs & Hc & Ht & Hl).
  unfold Message.from_dict, Message.__post_init__, bind, datetime_now, gets, now, World_clock.
  destruct (Message.session_id m) eqn:Es; [done|]. simpl.
  destruct (Py.strip (Message.content m)) eqn:Ec; [done|]. simpl.
  by rewrite !gtb_false by lia.
Qed.

Lemma map_from_dict_valid (h : list Message.t) (w : World) :
  Forall (valid_message (clock w)) h -> map_m Message.from_dict h w = (Ret h, w).
Proof.
  induction 1 as [|m h Hm _ IH]; [done|]. simpl. unfold bind.
  by rewrite message_from_dict_valid, IH.
Qed.

Lemma session_from_dict_valid (s : Session.t) (w : World) :
  valid_session (clock w) s -> Session.from_dict s w = (Ret s, w).
Proof.
  intros (Hu & Hc & Hl & Hh). unfold Session.from_dict, bind.
  rewrite map_from_dict_valid by done.
  unfold Session.__post_init__, bind, datetime_now, gets, now, World_clock. simpl.
  destruct (Session.user_id s) eqn:Eu; [done|]. simpl.
  rewrite gtb_false by lia. rewrite (proj2 (Z.ltb_ge _ _)) by lia.
  by destruct s.
Qed.

Lemma is_expired_eq (s : Session.t) (timeout_hours : Z) (w : World) :
  Session.is_expired s timeout_hours w
  = (Ret (clock w - Session.last_activity s >? seconds (timeout_hours * 3600)), w).
Proof. reflexivity. Qed.

End Storage.

Section MonadInversion.
Context {W : Type}.

Lemma bind_inv {A B} (m : Mon W A) (k : A -> Mon W B) (w w' : W) (r : outcome B) :
  bind m k w = (r, w') ->
  (exists a w1, m w = (Ret a, w1) /\ k a w1 = (r, w')) \/
  (exists e, m w = (Raise e, w') /\ r = Raise e).
Proof.
  unfold bind. destruct (m w) as [[a|e] w1]; intros Hk.
  - left. eauto.
  - right. exists e. by inversion Hk.
Qed.

Lemma bind_ret_inv {A B} (m : Mon W A) (k : A -> Mon W B) (w w' : W) (b : B) :
  bind m k w = (Ret b, w') ->
  exists a w1, m w = (Ret a, w1) /\ k a w1 = (Ret b, w').
Proof.
  intros Hb. apply bind_inv in Hb as [?|(e & _ & ?)]; [done | discriminate].
Qed.

Lemma try_except_inv {A} (m : Mon W A) (h : exn -> Mon W A) (w w' : W) (r : outcome A) :
  try_except m h w = (r, w') ->
  (exists a, m w = (Ret a, w') /\ r = Ret a) \/
  (exists e w1, m w = (Raise e, w1) /\ h e w1 = (r, w')).
Proof.
  unfold try_except. destruct (m w) as [[a|e] w1]; intros Hk.
  - left. exists a. by inversion Hk.
  - right. eauto.
Qed.

(** A facade operation whose handler returns a value never raises. *)
Lemma try_except_total {A} (m : Mon W A) (a0 : A) (w : W) :
  exists a w', try_except m (fun _ => ret a0) w = (Ret a, w').
Proof. unfold try_except. destruct (m w) as [[a|e] w1]; eauto. Qed.

End MonadInversion.

Section Facade.
Import SessionService.
Implicit Types (self : SessionService.t) (w : World).

Lemma boto_request_quiet {A} (op : gmap string Item -> A * gmap string Item) w w' (a : A) :
  boto_request op w = (Ret a, w') -> quiet w w'.
Proof.
  unfold boto_request. destruct (faults w (boto_calls w)) eqn:Hf; [done|].
  destruct (table w) as [items|]; [|done].
  destruct (op items) as [a' items']. intros [= _ <-]. by apply (quiet_answered w items').
Qed.

Lemma store_session_quiet self (s : Session.t) w w' :
  _store_session self s w = (Ret tt, w') -> quiet w w'.
Proof.
  unfold _store_session. intros Hs.
  apply bind_ret_inv in Hs as (tbl & w1 & [= <- <-] & Hs).
  destruct (table w); [|inversion Hs; apply quiet_refl].
  apply try_except_inv in Hs as [([] & Hp & _)|(e & w2 & _ & Hr)]; [|done].
  by eapply boto_request_quiet.
Qed.

Lemma get_session_from_db_quiet self (sid : string) w w' (item : Item) :
  _get_session_from_db self sid w = (Ret (Some item), w') -> quiet w w'.
Proof.
  unfold _get_session_from_db. intros Hs.
  apply bind_ret_inv in Hs as (tbl & w1 & [= <- <-] & Hs).
  destruct (table w); [|done].
  apply try_except_inv in Hs as [(a & Hp & _)|(e & w2 & _ & Hr)].
  - by eapply boto_request_quiet.
  - by destruct (is_boto_error e).
Qed.

Lemma get_session_quiet self (sid uid : string) w w' (s : Session.t) :
  get_session self sid uid w = (Ret (Some s), w') -> quiet w w'.
Proof.
  unfold get_session. intros Hs.
  apply try_except_inv in Hs as [(a & Hb & [= <-])|(e & w2 & _ & Hr)]; [|done].
  apply bind_ret_inv in Hb as ([item|] & w1 & Hdb & Hk); [|done].
  apply get_session_from_db_quiet in Hdb.
  apply bind_ret_inv in Hk as (session & w2 & Hfd & Hk).
  pose proof (session_from_dict_pure (item_data item) w1) as Hp.
  rewrite Hfd in Hp. simpl in Hp. subst w2.
  destruct (negb _); [done|].
  apply bind_ret_inv in Hk as (expired & w2 & Hex & Hk).
  rewrite is_expired_eq in Hex. injection Hex as <- <-.
  destruct (_ >? _).
  - by apply bind_ret_inv in Hk as ([] & w2 & _ & ?).
  - by inversion Hk; subst.
Qed.

Lemma update_session_quiet self (s : Session.t) w w' :
  update_session self s w = (Ret true, w') -> quiet w w'.
Proof.
  unfold update_session. intros Hs.
  apply try_except_inv in Hs as [(a & Hb & _)|(e & w2 & _ & Hr)]; [|done].
  apply bind_ret_inv in Hb as ([] & w1 & Hst & [= _ <-]).
  by eapply store_session_quiet.
Qed.

Lemma add_message_pure (s : Session.t) (m : Message.t) w :
  snd (Session.add_message s m w) = w.
Proof. unfold Session.add_message. by destruct (negb _). Qed.

Lemma add_message_to_session_quiet self (sid uid : string) (m : Message.t) w w' :
  add_message_to_session self sid uid m w = (Ret true, w') -> quiet w w'.
Proof.
  unfold add_message_to_session. intros Hs.
  apply try_except_inv in Hs as [(a & Hb & [= <-])|(e & w2 & _ & Hr)]; [|done].
  apply bind_ret_inv in Hb as ([s|] & w1 & Hget & Hk); [|done].
  apply get_session_quiet in Hget.
  apply bind_ret_inv in Hk as (s' & w2 & Hadd & Hk).
  pose proof (add_message_pure s (Message.set_session_id m sid) w1) as Hp.
  rewrite Hadd in Hp. simpl in Hp. subst w2.
  eapply quiet_trans; [done|]. by eapply update_session_quiet.
Qed.

Lemma delete_session_quiet self (sid uid : string) w w' :
  delete_session self sid uid w = (Ret true, w') -> quiet w w'.
Proof.
  unfold delete_session. intros Hs.
  apply try_except_inv in Hs as [(a & Hb & [= <-])|(e & w2 & _ & Hr)]; [|done].
  apply bind_ret_inv in Hb as ([s|] & w1 & Hget & Hk); [|done].
  apply get_session_quiet in Hget.
  eapply quiet_trans; [done|]. by eapply update_session_quiet.
Qed.

Lemma collect_sessions_quiet self (active_only : bool) (data : list Item)
    (acc result : list Session.t) w w' :
  collect_sessions self active_only data acc w = (Ret result, w') -> quiet w w'.
Proof.
  revert acc w. induction data as [|item data IH]; intros acc w Hc; simpl in Hc.
  - inversion Hc. apply quiet_refl.
  - apply bind_ret_inv in Hc as (s & w1 & Hfd & Hc).
    pose proof (session_from_dict_pure (item_data item) w) as Hp.
    rewrite Hfd in Hp. simpl in Hp. subst w1.
    apply bind_ret_inv in Hc as (expired & w1 & Hex & Hc).
    rewrite is_expired_eq in Hex. injection Hex as <- <-.
    apply bind_ret_inv in Hc as (s' & w1 & Hst & Hc).
    assert (quiet w w1) as Hq1.
    { destruct (_ >? _).
      - apply bind_ret_inv in Hst as ([] & w2 & Hst & [= _ <-]).
        by eapply store_session_quiet.
      - inversion Hst. apply quiet_refl. }
    eapply quiet_trans; [exact Hq1|].
    destruct (_ && _)%bool; by eapply IH.
Qed.

Lemma get_user_sessions_quiet self (uid : string) (data : list Item) w w' :
  _get_user_sessions_from_db self uid w = (Ret data, w') ->
  quiet w w' \/ data = [].
Proof.
  unfold _get_user_sessions_from_db. intros Hs.
  apply bind_ret_inv in Hs as (tbl & w1 & [= <- <-] & Hs).
  destruct (table w); [|inversion Hs; by right].
  apply try_except_inv in Hs as [(a & Hp & [= <-])|(e & w2 & _ & Hr)].
  - left. by eapply boto_request_quiet.
  - destruct (is_boto_error e); [|done]. inversion Hr. by right.
Qed.

Lemma list_user_sessions_quiet self (uid : string) (active_only : bool)
    (result : list Session.t) w w' :
  list_user_sessions self uid active_only w = (Ret result, w') ->
  result <> [] -> quiet w w'.
Proof.
  unfold list_user_sessions. intros Hs Hne.
  apply try_except_inv in Hs as [(a & Hb & [= <-])|(e & w2 & _ & Hr)];
    [|inversion Hr; by subst].
  apply bind_ret_inv in Hb as (data & w1 & Hdb & Hk).
  apply bind_ret_inv in Hk as (sessions & w2 & Hc & [= <- <-]).
  apply get_user_sessions_quiet in Hdb as [Hq| ->].
  - eapply quiet_trans; [done|]. by eapply collect_sessions_quiet.
  - simpl in Hc. by inversion Hc; subst.
Qed.

(** None of the five operations raises. *)
Lemma get_session_total self (sid uid : string) w :
  exists r w', get_session self sid uid w = (Ret r, w').
Proof. apply try_except_total. Qed.

Lemma update_session_total self (s : Session.t) w :
  exists r w', update_session self s w = (Ret r, w').
Proof. apply try_except_total. Qed.

Lemma add_message_to_session_total self (sid uid : string) (m : Message.t) w :
  exists r w', add_message_to_session self sid uid m w = (Ret r, w').
Proof. apply try_except_total. Qed.

Lemma list_user_sessions_total self (uid : string) (active_only : bool) w :
  exists r w', list_user_sessions self uid active_only w = (Ret r, w').
Proof. apply try_except_total. Qed.

Lemma delete_session_total self (sid uid : string) w :
  exists r w', delete_session self sid uid w = (Ret r, w').
Proof. apply try_except_total. Qed.

End Facade.

Section FacadeRuns.
Import SessionService.
Implicit Types (self : SessionService.t) (w : World).

Lemma get_session_from_db_answered self (sid : string) w (items : gmap string Item) :
  table w = Some items -> faults w (boto_calls w) = None ->
  _get_session_from_db self sid w = (Ret (items !! sid), answered w items).
Proof.
  intros Ht Hf. unfold _get_session_from_db, bind, gets. rewrite Ht.
  unfold try_except, get_item. by rewrite (boto_request_answered _ w items).
Qed.

Lemma store_session_answered self (s : Session.t) w (items : gmap string Item) :
  table w = Some items -> faults w (boto_calls w) = None ->
  _store_session self s w
  = (Ret tt,
     answered w (<[Session.session_id s :=
                     {| item_data := s;
                        item_ttl := Z.quot (Session.last_activity s + seconds (30 * 86400))
                                      1000000 |}]> items)).
Proof.
  intros Ht Hf. unfold _store_session, bind, gets. rewrite Ht.
  unfold try_except, put_item. by rewrite (boto_request_answered _ w items).
Qed.

Lemma store_session_refused self (s : Session.t) w (items : gmap string Item) (e : exn) :
  table w = Some items -> faults w (boto_calls w) = Some e ->
  _store_session self s w = (Raise e, refused w).
Proof.
  intros Ht Hf. unfold _store_session, bind, gets. rewrite Ht.
  unfold try_except, put_item. by rewrite (boto_request_refused _ w e).
Qed.

(** Reading a stored, valid session as its owner. *)
Lemma get_session_found self (sid : string) w (items : gmap string Item)
    (s : Session.t) (ttl : Z) :
  table w = Some items -> items !! sid = Some {| item_data := s; item_ttl := ttl |} ->
  valid_session (clock w) s ->
  faults w (boto_calls w) = None ->
  get_session self sid (Session.user_id s) w
  = if clock w - Session.last_activity s >? seconds (session_timeout_hours self * 3600)
    then match _store_session self (Session.set_status s EXPIRED) (answered w items) with
         | (_, w') => (Ret None, w')
         end
    else (Ret (Some s), answered w items).
Proof.
  intros Ht Hl Hv Hf. unfold get_session, try_except.
  unfold bind at 1. rewrite (get_session_from_db_answered self sid w items), Hl by done.
  unfold bind at 1. rewrite session_from_dict_valid by done. simpl.
  rewrite String.eqb_refl. simpl.
  unfold bind at 1. rewrite is_expired_eq. simpl.
  destruct (_ >? _); [|done].
  unfold bind. by destruct (_store_session _ _ _) as [[[]|e] w'].
Qed.

End FacadeRuns.

(** C7.  A stored session whose last activity is more than
    [session_timeout_hours] hours old, read by its owner while the
    store answers: [get_session] returns none and puts the session back
    with the status expired, the other fields as they were; a raw read
    of the table that follows returns the session with that status. *)
Theorem expired_session_is_marked (self : SessionService.t) (w : World)
    (items : gmap string Item) (session : Session.t) (ttl : Z) (session_id : string) :
  table w = Some items ->
  items !! session_id = Some {| item_data := session; item_ttl := ttl |} ->
  Session.session_id session = session_id ->
  valid_session (clock w) session ->
  seconds (SessionService.session_timeout_hours self * 3600)
    < clock w - Session.last_activity session ->
  faults w (boto_calls w) = None ->
  faults w (S (boto_calls w)) = None ->
  exists w' item',
    SessionService.get_session self session_id (Session.user_id session) w = (Ret None, w') /\
    (table w' ≫= (.!! session_id)) = Some item' /\
    item_data item' = Session.set_status session EXPIRED /\
    Session.status (item_data item') = EXPIRED /\
    (faults w' (boto_calls w') = None ->
     fst (get_item session_id w') = Ret (Some item')).
Proof.
  intros Ht Hl Hid Hv Hold Hf1 Hf2.
  rewrite (get_session_found self session_id w items session ttl) by done.
  rewrite gtb_true by done.
  rewrite (store_session_answered _ _ _ items) by done.
  simpl. rewrite Hid. do 2 eexists. split; [reflexivity|].
  simpl. rewrite lookup_insert_eq. split_and!; [done..|].
  intros Hf3. unfold get_item.
  erewrite boto_request_answered by (done || reflexivity).
  simpl. by rewrite lookup_insert_eq.
Qed.

(** A session last active 25 hours before the read. *)
Lemma expired_session_is_marked_witness :
  exists w' item',
    SessionService.get_session SessionService.default "s1" "user-1"
      (Example.store_with (Example.session [] 0) (seconds (25 * 3600))) = (Ret None, w') /\
    (table w' ≫= (.!! "s1")) = Some item' /\
    Session.status (item_data item') = EXPIRED.
Proof.
  destruct (expired_session_is_marked SessionService.default
              (Example.store_with (Example.session [] 0) (seconds (25 * 3600)))
              {[ "s1" := {| item_data := Example.session [] 0; item_ttl := 0 |} ]}
              (Example.session [] 0) 0 "s1")
    as (w' & item' & Hget & Hlook & _ & Hst & _).
  - reflexivity.
  - reflexivity.
  - reflexivity.
  - repeat split; simpl; try done; try lia.
  - reflexivity.
  - reflexivity.
  - reflexivity.
  - exists w', item'. by split_and!.
Defined.

Lemma slice_from_last (A : Type) (cap : Z) (x : A) (xs : list A) (y : A) :
  Z.of_nat (length (x :: xs)) = cap ->
  slice_from (- cap) ((x :: xs) ++ [y]) = xs ++ [y].
Proof.
  intros Hlen. unfold slice_from.
  rewrite length_app. simpl length in *.
  replace (- cap <? 0) with true by (symmetry; apply Z.ltb_lt; lia).
  replace (Z.max 0 (- cap + Z.of_nat (S (length xs) + 1))) with 1 by lia.
  done.
Qed.

(** C8.  A stored session whose history holds exactly
    [max_conversation_history] messages (a positive number), appended
    to by its owner while the session is live and the store answers:
    [add_message_to_session] succeeds, and the stored history is the
    old one without its first message, in the same order, followed by
    the new message; it holds [max_conversation_history] messages
    again. *)
Theorem append_at_cap_evicts_oldest (self : SessionService.t) (w : World)
    (items : gmap string Item) (session : Session.t) (ttl : Z) (session_id : string)
    (message : Message.t) :
  0 < SessionService.max_conversation_history self ->
  table w = Some items ->
  items !! session_id = Some {| item_data := session; item_ttl := ttl |} ->
  Session.session_id session = session_id ->
  valid_session (clock w) session ->
  clock w - Session.last_activity session
    <= seconds (SessionService.session_timeout_hours self * 3600) ->
  Z.of_nat (length (Session.conversation_history session))
    = SessionService.max_conversation_history self ->
  faults w (boto_calls w) = None ->
  faults w (S (boto_calls w)) = None ->
  exists w' item' oldest rest,
    SessionService.add_message_to_session self session_id (Session.user_id session) message w
      = (Ret true, w') /\
    (table w' ≫= (.!! session_id)) = Some item' /\
    Session.conversation_history session = oldest :: rest /\
    Session.conversation_history (item_data item')
      = rest ++ [Message.set_session_id message session_id] /\
    Z.of_nat (length (Session.conversation_history (item_data item')))
      = SessionService.max_conversation_history self.
Proof.
  intros Hcap Ht Hl Hid Hv Hlive Hlen Hf1 Hf2.
  destruct (Session.conversation_history session) as [|oldest rest] eqn:Hh;
    [simpl in Hlen; lia|].
  unfold SessionService.add_message_to_session, try_except.
  unfold bind at 1.
  rewrite (get_session_found self session_id w items session ttl) by done.
  rewrite gtb_false by done.
  unfold bind at 1. unfold Session.add_message. simpl.
  rewrite Hid, String.eqb_refl. simpl.
  rewrite Hh.
  replace (Z.of_nat (length ((oldest :: rest) ++ [Message.set_session_id message session_id]))
             >? SessionService.max_conversation_history self) with true
    by (symmetry; apply gtb_true; rewrite length_app; simpl length in *; lia).
  rewrite slice_from_last by done.
  unfold SessionService.update_session, try_except, bind.
  rewrite (store_session_answered _ _ _ items) by done.
  simpl. rewrite Hid. do 4 eexists. split; [reflexivity|].
  simpl. rewrite lookup_insert_eq. split_and!; [done..|].
  simpl. rewrite length_app. simpl length in *. lia.
Qed.

(** A history of two messages under a cap of two. *)
Lemma append_at_cap_evicts_oldest_witness :
  exists w' item',
    SessionService.add_message_to_session
      {| SessionService.session_timeout_hours := 24;
         SessionService.max_conversation_history := 2 |}
      "s1" "user-1" (Example.message 3)
      (Example.store_with (Example.session [Example.message 1; Example.message 2] 900) 1000)
      = (Ret true, w') /\
    (table w' ≫= (.!! "s1")) = Some item' /\
    Session.conversation_history (item_data item') = [Example.message 2; Example.message 3].
Proof.
  destruct (append_at_cap_evicts_oldest
              {| SessionService.session_timeout_hours := 24;
                 SessionService.max_conversation_history := 2 |}
              (Example.store_with (Example.session [Example.message 1; Example.message 2] 900) 1000)
              {[ "s1" := {| item_data := Example.session [Example.message 1; Example.message 2] 900;
                            item_ttl := 0 |} ]}
              (Example.session [Example.message 1; Example.message 2] 900) 0 "s1"
              (Example.message 3))
    as (w' & item' & oldest & rest & Hadd & Hlook & Hold & Hnew & _).
  - reflexivity.
  - reflexivity.
  - reflexivity.
  - reflexivity.
  - repeat split; simpl; try done; try lia.
    repeat constructor; simpl; try done; vm_compute; congruence.
  - vm_compute. congruence.
  - reflexivity.
  - reflexivity.
  - reflexivity.
  - exists w', item'. split_and!; [done..|].
    rewrite Hnew. injection Hold as _ <-. reflexivity.
Defined.

(** With a cap of zero the slice [history[-0:]] is the whole history:
    nothing is evicted. *)
Lemma cap_zero_keeps_everything :
  let self := {| SessionService.session_timeout_hours := 24;
                 SessionService.max_conversation_history := 0 |} in
  let run := SessionService.add_message_to_session self "s1" "user-1" (Example.message 1)
               (Example.store_with (Example.session [] 900) 1000) in
  fst run = Ret true /\
  (Session.conversation_history ∘ item_data <$> (table (snd run) ≫= (.!! "s1")))
    = Some [Example.message 1].
Proof. split; reflexivity. Qed.

(** C6, as the code has it.  [get_session], [update_session],
    [add_message_to_session], [list_user_sessions] and [delete_session]
    never raise, and when a request they made to the storage backend
    failed they return none, false, false, the empty list and false.
    [create_session] is different: when its request to the backend
    fails it raises an HTTP exception with status 500, and apart from
    that exception it raises nothing. *)
Theorem facade_failure_policy (self : SessionService.t) (w : World) :
  (forall sid uid, exists r w',
      SessionService.get_session self sid uid w = (Ret r, w') /\
      (storage_failed w w' -> r = None)) /\
  (forall session, exists r w',
      SessionService.update_session self session w = (Ret r, w') /\
      (storage_failed w w' -> r = false)) /\
  (forall sid uid message, exists r w',
      SessionService.add_message_to_session self sid uid message w = (Ret r, w') /\
      (storage_failed w w' -> r = false)) /\
  (forall uid active_only, exists r w',
      SessionService.list_user_sessions self uid active_only w = (Ret r, w') /\
      (storage_failed w w' -> r = [])) /\
  (forall sid uid, exists r w',
      SessionService.delete_session self sid uid w = (Ret r, w') /\
      (storage_failed w w' -> r = false)) /\
  (forall user_context knowledge_base_id,
      (exists session, fst (SessionService.create_session self user_context knowledge_base_id w)
                       = Ret session) \/
      fst (SessionService.create_session self user_context knowledge_base_id w)
        = Raise (HTTPException 500 "Failed to create session")) /\
  (forall user_context knowledge_base_id items e,
      table w = Some items -> faults w (boto_calls w) = Some e ->
      fst (SessionService.create_session self user_context knowledge_base_id w)
        = Raise (HTTPException 500 "Failed to create session")).
Proof.
  split_and!.
  - intros sid uid.
    destruct (get_session_total self sid uid w) as (r & w' & Hr).
    exists r, w'. split; [exact Hr|].
    intros Hfail. destruct r as [s|]; [|done].
    apply get_session_quiet, quiet_not_failed in Hr. done.
  - intros session.
    destruct (update_session_total self session w) as (r & w' & Hr).
    exists r, w'. split; [exact Hr|].
    intros Hfail. destruct r; [|done].
    apply update_session_quiet, quiet_not_failed in Hr. done.
  - intros sid uid message.
    destruct (add_message_to_session_total self sid uid message w) as (r & w' & Hr).
    exists r, w'. split; [exact Hr|].
    intros Hfail. destruct r; [|done].
    apply add_message_to_session_quiet, quiet_not_failed in Hr. done.
  - intros uid active_only.
    destruct (list_user_sessions_total self uid active_only w) as (r & w' & Hr).
    exists r, w'. split; [exact Hr|].
    intros Hfail. destruct r as [|s r]; [done|].
    apply list_user_sessions_quiet, quiet_not_failed in Hr; done.
  - intros sid uid.
    destruct (delete_session_total self sid uid w) as (r & w' & Hr).
    exists r, w'. split; [exact Hr|].
    intros Hfail. destruct r; [|done].
    apply delete_session_quiet, quiet_not_failed in Hr. done.
  - intros user_context knowledge_base_id.
    unfold SessionService.create_session, try_except.
    destruct (bind _ _ w) as [[session|e] w']; simpl; eauto.
  - intros user_context knowledge_base_id items e Ht Hf.
    unfold SessionService.create_session, try_except.
    destruct (bind _ _ w) as [[session|e'] w'] eqn:Hb; [|done].
    exfalso.
    apply bind_ret_inv in Hb as (sid & w1 & Hu & Hb).
    apply bind_ret_inv in Hb as (s & w2 & Hnew & Hb).
    apply bind_ret_inv in Hb as ([] & w3 & Hst & _).
    assert (w2 = w1) as ->.
    { pose proof (session_new_pure sid (UserContext.user_id user_context)
                    knowledge_base_id ACTIVE w1) as Hp.
      by rewrite Hnew in Hp. }
    assert (table w1 = Some items /\ faults w1 (boto_calls w1) = Some e) as [Ht1 Hf1].
    { revert Hu. unfold uuid4, fresh_uuid, World_uuid. by intros [= _ <-]. }
    by rewrite (store_session_refused _ _ _ items e) in Hst.
Qed.

(** C6 as stated fails for [create_session]: with a store that refuses
    every request it raises, where the claim has it return a failure
    value. *)
Lemma create_session_raises_on_storage_error :
  fst (SessionService.create_session SessionService.default Example.user None Example.failing)
  = Raise (HTTPException 500 "Failed to create session").
Proof. reflexivity. Qed.

(** On the same store the other operations answer with their failure
    values. *)
Lemma facade_failure_policy_witness :
  exists w',
    SessionService.update_session SessionService.default (Example.session [] 900)
      Example.failing = (Ret false, w').
Proof.
  destruct (proj1 (proj2 (facade_failure_policy SessionService.default Example.failing))
              (Example.session [] 900)) as (r & w' & Hr & Hfail).
  exists w'. rewrite Hr. f_equal. f_equal. apply Hfail.
  exists 0%nat. split; [|done].
  assert (boto_calls w' = 1%nat) as ->; [|simpl; lia].
  revert Hr. vm_compute. by intros [= _ <-].
Defined.

(* ===================================================================== *)
(** * The orchestrator *)
(* ===================================================================== *)

(** Every response type prints through the last branch of
    [_format_agent_response]: the values of the enumeration are in
    lower case and the branches compare them with upper-case words. *)
Lemma format_agent_response_falls_through (r : AgentResponse.t) (w : World) :
  _format_agent_response r w = (Ret (str_dict (AgentResponse.data r)), w).
Proof. unfold _format_agent_response. by destruct (AgentResponse.response_type r). Qed.

(** C1, what the code does.  [_format_agent_response] applies none of
    its templates: the values of the enumeration are in lower case and
    the branches compare them with upper-case words, so the text it
    returns is [str(data)], which depends on the data alone and neither
    on the type of the response nor on its location.  For the weather
    response 72°F, Partly Cloudy it returns the printed dictionary, not
    the sentence "Weather in Birmingham, Alabama: Partly Cloudy, 72°F";
    a time response is printed the same way. *)
Theorem formatter_prints_the_dictionary :
  (forall (r1 r2 : AgentResponse.t) (w : World),
      AgentResponse.data r1 = AgentResponse.data r2 ->
      fst (_format_agent_response r1 w) = fst (_format_agent_response r2 w)) /\
  (forall w : World,
      _format_agent_response Example.weather_response w
      = (Ret "{'temperature': '72°F', 'condition': 'Partly Cloudy'}", w)) /\
  fst (_format_agent_response Example.weather_response Example.fresh)
    <> Ret "Weather in Birmingham, Alabama: Partly Cloudy, 72°F" /\
  (forall w : World,
      _format_agent_response
        {| AgentResponse.agent_id := "birmingham_agent";
           AgentResponse.response_type := AgentResponseType.TIME;
           AgentResponse.data := [("time", VStr "10:00:00 AM");
                                  ("timezone", VStr "Central Time (CT)")];
           AgentResponse.location := "Birmingham, Alabama";
           AgentResponse.timestamp := 1000 |} w
      = (Ret "{'time': '10:00:00 AM', 'timezone': 'Central Time (CT)'}", w)).
Proof.
  split_and!.
  - intros r1 r2 w Hdata. rewrite !format_agent_response_falls_through. simpl.
    by rewrite Hdata.
  - intros w. by rewrite format_agent_response_falls_through.
  - vm_compute. discriminate.
  - intros w. by rewrite format_agent_response_falls_through.
Qed.

(** The dispatch of [process_user_command] never reaches a handler: the
    call of a wrapped handler returns a coroutine, over which
    [async for] raises. *)
Lemma dispatch_raises (command_type : string) (self : IntegrationService.t)
    (session : Session.t) (user_message : string) (user_context : UserContext.t)
    (w : World) :
  dispatch_of command_type self session user_message user_context w
  = (Raise (TypeError
              "'async for' requires an object with __aiter__ method, got coroutine"), w).
Proof. reflexivity. Qed.




(* ===================================================================== *)
(** * Further properties of the session store *)
(* ===================================================================== *)

Section FacadeMore.
Import SessionService.
Implicit Types (self : SessionService.t) (w : World).

Lemma message_from_dict_ret (m m' : Message.t) w w' :
  Message.from_dict m w = (Ret m', w') -> m' = m.
Proof.
  unfold Message.from_dict. intros Hb.
  by apply bind_ret_inv in Hb as ([] & w1 & _ & [= <- _]).
Qed.

Lemma map_from_dict_ret (h h' : list Message.t) w w' :
  map_m Message.from_dict h w = (Ret h', w') -> h' = h.
Proof.
  revert h' w w'. induction h as [|m h IH]; intros h' w w' Hb; simpl in Hb.
  - by injection Hb as <- _.
  - apply bind_ret_inv in Hb as (m' & w1 & Hm & Hb).
    apply bind_ret_inv in Hb as (h1 & w2 & Hh & [= <- _]).
    apply message_from_dict_ret in Hm as ->. by apply IH in Hh as ->.
Qed.

Lemma session_from_dict_ret (d s : Session.t) w w' :
  Session.from_dict d w = (Ret s, w') -> s = d.
Proof.
  unfold Session.from_dict. intros Hb.
  apply bind_ret_inv in Hb as (h & w1 & Hh & Hb).
  apply bind_ret_inv in Hb as ([] & w2 & _ & [= <- _]).
  apply map_from_dict_ret in Hh as ->. by destruct d.
Qed.

(** A record that is read back satisfies the invariants. *)
Lemma message_post_init_valid (m : Message.t) w w' :
  Message.__post_init__ m w = (Ret tt, w') -> valid_message (clock w) m.
Proof.
  unfold Message.__post_init__, valid_message, bind, datetime_now, gets, now, World_clock.
  destruct (Message.session_id m) eqn:Es; [done|]. simpl.
  destruct (Py.strip (Message.content m)) eqn:Ec; [done|]. simpl.
  destruct (Message.timestamp m >? clock w) eqn:Et; [done|].
  destruct (Py.len (Message.content m) >? 10000) eqn:El; [done|].
  intros _. rewrite Z.gtb_ltb in Et, El. apply Z.ltb_ge in Et, El. by split_and!.
Qed.

Lemma map_from_dict_valid_inv (h h' : list Message.t) w w' :
  map_m Message.from_dict h w = (Ret h', w') -> Forall (valid_message (clock w)) h.
Proof.
  revert h' w'. induction h as [|m h IH]; intros h' w' Hb; simpl in Hb; [constructor|].
  apply bind_ret_inv in Hb as (m' & w1 & Hm & Hb).
  apply bind_ret_inv in Hb as (h1 & w2 & Hh & _).
  pose proof (message_from_dict_pure m w) as Hp. rewrite Hm in Hp. simpl in Hp. subst w1.
  constructor; [|by eapply IH].
  unfold Message.from_dict in Hm. apply bind_ret_inv in Hm as ([] & w3 & Hm & _).
  by eapply message_post_init_valid.
Qed.

Lemma session_from_dict_valid_inv (d s : Session.t) w w' :
  Session.from_dict d w = (Ret s, w') -> valid_session (clock w) d.
Proof.
  unfold Session.from_dict. intros Hb.
  apply bind_ret_inv in Hb as (h & w1 & Hh & Hb).
  pose proof (map_from_dict_pure (Session.conversation_history d) w) as Hp.
  rewrite Hh in Hp. simpl in Hp. subst w1.
  pose proof (map_from_dict_ret _ _ _ _ Hh) as ->.
  apply map_from_dict_valid_inv in Hh.
  apply bind_ret_inv in Hb as ([] & w2 & Hp & _).
  revert Hp. unfold Session.__post_init__, valid_session, bind, datetime_now, gets, now,
    World_clock. simpl.
  destruct (Session.user_id d) eqn:Eu; [done|]. simpl.
  destruct (Session.created_at d >? clock w) eqn:Ec; [done|].
  destruct (Session.last_activity d <? Session.created_at d) eqn:El; [done|].
  intros _. rewrite Z.gtb_ltb in Ec. apply Z.ltb_ge in Ec, El. by split_and!.
Qed.

(** What [_get_session_from_db] leaves of the state: the table. *)
Lemma get_session_from_db_table self (sid : string) w w' (r : outcome (option Item)) :
  _get_session_from_db self sid w = (r, w') ->
  table w' = table w /\ clock w' = clock w /\
  (forall item, r = Ret (Some item) -> (table w ≫= (.!! sid)) = Some item).
Proof.
  unfold _get_session_from_db, bind, gets. simpl. destruct (table w) as [items|] eqn:Ht.
  - unfold try_except, get_item, boto_request. rewrite Ht.
    destruct (faults w (boto_calls w)) as [e|].
    + destruct (is_boto_error e); intros [= <- <-]; simpl; by rewrite ?Ht.
    + intros [= <- <-]. simpl. split_and!; [done..|]. by intros item [= ->].
  - intros [= <- <-]. by rewrite ?Ht.
Qed.

Lemma store_session_clock self (s : Session.t) w w' (r : outcome unit) :
  _store_session self s w = (r, w') -> clock w' = clock w.
Proof.
  unfold _store_session, bind, gets. simpl. destruct (table w) as [items|] eqn:Ht.
  - unfold try_except, put_item, boto_request. rewrite Ht.
    destruct (faults w (boto_calls w)) as [e|]; by intros [= <- <-].
  - by intros [= <- <-].
Qed.

(** What a read does: it returns a session only when the stored record
    is valid, owned by the reader and live, and then changes nothing in
    the table; the table changes only when a record of the reader is
    found expired. *)
Lemma get_session_cases self (sid uid : string) w w' (r : option Session.t) :
  get_session self sid uid w = (Ret r, w') ->
  clock w' = clock w /\
  (table w' = table w \/
   exists item, (table w ≫= (.!! sid)) = Some item /\
                Session.user_id (item_data item) = uid) /\
  (forall s, r = Some s ->
     table w' = table w /\
     (exists ttl, (table w ≫= (.!! sid)) = Some {| item_data := s; item_ttl := ttl |}) /\
     Session.user_id s = uid /\
     valid_session (clock w) s /\
     clock w - Session.last_activity s <= seconds (session_timeout_hours self * 3600)).
Proof.
  unfold get_session. intros Hr.
  apply try_except_inv in Hr as [(a & Hb & [= <-])|(e & w1 & Hb & [= <- <-])].
  - apply bind_ret_inv in Hb as (found & w1 & Hdb & Hk).
    apply get_session_from_db_table in Hdb as (Ht & Hc & Hitem).
    destruct found as [item|]; [|injection Hk as <- <-; by split_and!; [|left|]].
    specialize (Hitem item eq_refl).
    apply bind_ret_inv in Hk as (s & w2 & Hfd & Hk).
    pose proof (session_from_dict_pure (item_data item) w1) as Hp.
    rewrite Hfd in Hp. simpl in Hp. subst w2.
    pose proof (session_from_dict_valid_inv _ _ _ _ Hfd) as Hv.
    apply session_from_dict_ret in Hfd as ->.
    destruct (String.eqb (Session.user_id (item_data item)) uid) eqn:Eo; simpl in Hk;
      [|injection Hk as <- <-; by split_and!; [|left|]].
    apply String.eqb_eq in Eo.
    apply bind_ret_inv in Hk as (expired & w2 & Hex & Hk).
    rewrite is_expired_eq in Hex. injection Hex as <- <-.
    destruct (_ >? _) eqn:Hgt.
    + apply bind_ret_inv in Hk as ([] & w2 & Hst & [= <- <-]).
      apply store_session_clock in Hst. split_and!; [congruence | right; eauto | done].
    + injection Hk as <- <-. split_and!; [done | by left |].
      intros s [= <-]. rewrite Z.gtb_ltb in Hgt. apply Z.ltb_ge in Hgt.
      rewrite Hc in *. split_and!; try done.
      exists (item_ttl item). by destruct item.
  - (* the body raised: find where *)
    apply bind_inv in Hb as [(found & w2 & Hdb & Hk)|(e' & Hdb & _)].
    + apply get_session_from_db_table in Hdb as (Ht & Hc & Hitem).
      destruct found as [item|]; [|done].
      specialize (Hitem item eq_refl).
      apply bind_inv in Hk as [(s & w3 & Hfd & Hk)|(e' & Hfd & _)].
      * pose proof (session_from_dict_pure (item_data item) w2) as Hp.
        rewrite Hfd in Hp. simpl in Hp. subst w3.
        apply session_from_dict_ret in Hfd as ->.
        destruct (String.eqb (Session.user_id (item_data item)) uid) eqn:Eo; simpl in Hk;
          [|done].
        apply String.eqb_eq in Eo.
        apply bind_inv in Hk as [(expired & w3 & Hex & Hk)|(e' & Hex & _)]; [|done].
        rewrite is_expired_eq in Hex. injection Hex as <- <-.
        destruct (_ >? _); [|done].
        apply bind_inv in Hk as [([] & w3 & _ & ?)|(e' & Hst & _)]; [done|].
        apply store_session_clock in Hst. split_and!; [congruence | right; eauto | done].
      * pose proof (session_from_dict_pure (item_data item) w2) as Hp.
        rewrite Hfd in Hp. simpl in Hp. subst w1. by split_and!; [|left|].
    + apply get_session_from_db_table in Hdb as (Ht & Hc & _). by split_and!; [|left|].
Qed.

Lemma get_session_from_db_unavailable self (sid : string) w :
  table w = None -> _get_session_from_db self sid w = (Ret None, w).
Proof. intros Ht. unfold _get_session_from_db, bind, gets. by rewrite Ht. Qed.

Lemma store_session_unavailable self (s : Session.t) w :
  table w = None -> _store_session self s w = (Ret tt, w).
Proof. intros Ht. unfold _store_session, bind, gets. by rewrite Ht. Qed.

Lemma get_user_sessions_unavailable self (uid : string) w :
  table w = None -> _get_user_sessions_from_db self uid w = (Ret [], w).
Proof. intros Ht. unfold _get_user_sessions_from_db, bind, gets. by rewrite Ht. Qed.

Lemma session_new_ok (sid uid : string) (kb : option string) (st : SessionStatus) w :
  uid <> "" ->
  Session.new sid uid kb st w
  = (Ret {| Session.session_id := sid; Session.user_id := uid;
            Session.created_at := clock w; Session.last_activity := clock w;
            Session.knowledge_base_id := kb; Session.conversation_history := [];
            Session.status := st |}, w).
Proof.
  intros Hu.
  unfold Session.new, Session.__post_init__, bind, datetime_now, gets, now, World_clock.
  cbn [Session.user_id Session.created_at Session.last_activity].
  destruct uid; [done|]. cbn [Py.is_empty].
  rewrite gtb_false by lia. by rewrite Z.ltb_irrefl.
Qed.

Lemma uuid4_eq w : uuid4 w = (Ret (fst (fresh_uuid w)), snd (fresh_uuid w)).
Proof. reflexivity. Qed.

Lemma add_message_denied self (sid uid : string) (m : Message.t) w w' :
  get_session self sid uid w = (Ret None, w') ->
  add_message_to_session self sid uid m w = (Ret false, w').
Proof. intros Hg. unfold add_message_to_session, try_except, bind. by rewrite Hg. Qed.

Lemma delete_denied self (sid uid : string) w w' :
  get_session self sid uid w = (Ret None, w') ->
  delete_session self sid uid w = (Ret false, w').
Proof. intros Hg. unfold delete_session, try_except, bind. by rewrite Hg. Qed.

Lemma get_session_denied self (sid uid : string) w :
  (forall item, (table w ≫= (.!! sid)) = Some item ->
                Session.user_id (item_data item) <> uid) ->
  exists w', get_session self sid uid w = (Ret None, w') /\ table w' = table w.
Proof.
  intros Hden. destruct (get_session_total self sid uid w) as (r & w' & Hr).
  destruct (get_session_cases _ _ _ _ _ _ Hr) as (_ & Ht & Hs).
  exists w'. destruct r as [s|].
  - destruct (Hs s eq_refl) as (_ & (ttl & Hl) & Hu & _). by destruct (Hden _ Hl).
  - split; [done|]. destruct Ht as [?|(item & Hl & Hu)]; [done|]. by destruct (Hden _ Hl).
Qed.

End FacadeMore.

(** X1.  A user who does not own a session, and any user of an unknown
    session identifier, can neither read it, append to it nor archive
    it: the three operations return none, false and false, and the
    table is left as it was. *)
Theorem sessions_are_private (self : SessionService.t) (w : World)
    (session_id user_id : string) (message : Message.t) :
  (forall item, (table w ≫= (.!! session_id)) = Some item ->
                Session.user_id (item_data item) <> user_id) ->
  (exists w', SessionService.get_session self session_id user_id w = (Ret None, w') /\
              table w' = table w) /\
  (exists w', SessionService.add_message_to_session self session_id user_id message w
                = (Ret false, w') /\
              table w' = table w) /\
  (exists w', SessionService.delete_session self session_id user_id w = (Ret false, w') /\
              table w' = table w).
Proof.
  intros Hden. destruct (get_session_denied self session_id user_id w Hden) as (w' & Hg & Ht).
  split_and!; exists w'; (split; [|done]).
  - done.
  - by apply add_message_denied.
  - by apply delete_denied.
Qed.

(** A session of user-1, asked for by user-2. *)
Lemma sessions_are_private_witness :
  exists w',
    SessionService.delete_session SessionService.default "s1" "user-2"
      (Example.store_with (Example.session [] 900) 1000) = (Ret false, w') /\
    table w' = table (Example.store_with (Example.session [] 900) 1000).
Proof.
  apply (proj2 (proj2 (sessions_are_private SessionService.default
                         (Example.store_with (Example.session [] 900) 1000)
                         "s1" "user-2" (Example.message 1)
                         ltac:(by intros item [= <-])))).
Defined.

(** X2.  While the table is not available ([self.table] is none) no
    request is made and nothing is stored, yet the writes report
    success: [update_session] returns true and [create_session] returns
    a session, while every read finds nothing. *)
Theorem unavailable_table_stores_nothing (self : SessionService.t) (w : World)
    (session : Session.t) (session_id user_id : string) (message : Message.t)
    (active_only : bool) :
  table w = None ->
  SessionService.update_session self session w = (Ret true, w) /\
  SessionService.get_session self session_id user_id w = (Ret None, w) /\
  SessionService.add_message_to_session self session_id user_id message w = (Ret false, w) /\
  SessionService.delete_session self session_id user_id w = (Ret false, w) /\
  SessionService.list_user_sessions self user_id active_only w = (Ret [], w) /\
  (forall user_context knowledge_base_id,
      UserContext.user_id user_context <> "" ->
      exists created w',
        SessionService.create_session self user_context knowledge_base_id w
          = (Ret created, w') /\
        table w' = None /\ boto_calls w' = boto_calls w).
Proof.
  intros Ht.
  assert (SessionService.get_session self session_id user_id w = (Ret None, w)) as Hg.
  { unfold SessionService.get_session, try_except. unfold bind at 1.
    by rewrite get_session_from_db_unavailable. }
  split_and!.
  - unfold SessionService.update_session, try_except, bind.
    by rewrite store_session_unavailable.
  - done.
  - by apply add_message_denied.
  - by apply delete_denied.
  - unfold SessionService.list_user_sessions, try_except. unfold bind at 1.
    by rewrite get_user_sessions_unavailable.
  - intros user_context knowledge_base_id Hu.
    unfold SessionService.create_session, try_except.
    unfold bind at 1. rewrite uuid4_eq.
    unfold bind at 1. rewrite session_new_ok by done.
    unfold bind. rewrite store_session_unavailable by done. eauto.
Qed.

Lemma unavailable_table_stores_nothing_witness :
  let w := {| clock := 1000; uuid_counter := 0; table := None; faults := fun _ => None;
              boto_calls := 0; sent := [] |} in
  SessionService.update_session SessionService.default (Example.session [] 900) w
  = (Ret true, w).
Proof.
  intros w.
  exact (proj1 (unavailable_table_stores_nothing SessionService.default w
                  (Example.session [] 900) "s1" "user-1" (Example.message 1) true
                  eq_refl)).
Defined.

Section FacadeWrites.
Import SessionService.
Implicit Types (self : SessionService.t) (w : World).

Lemma update_session_answered self (s : Session.t) w (items : gmap string Item) :
  table w = Some items -> faults w (boto_calls w) = None ->
  update_session self s w
  = (Ret true,
     answered w (<[Session.session_id s :=
                     {| item_data := s;
                        item_ttl := Z.quot (Session.last_activity s + seconds (30 * 86400))
                                      1000000 |}]> items)).
Proof.
  intros Ht Hf. unfold update_session, try_except, bind.
  by rewrite (store_session_answered _ _ _ items).
Qed.

(** The run of an append to a stored, valid, live session by its owner
    while the store answers. *)
Lemma add_message_to_session_run self (sid : string) w (items : gmap string Item)
    (s : Session.t) (ttl : Z) (m : Message.t) :
  table w = Some items ->
  items !! sid = Some {| item_data := s; item_ttl := ttl |} ->
  Session.session_id s = sid ->
  valid_session (clock w) s ->
  clock w - Session.last_activity s <= seconds (session_timeout_hours self * 3600) ->
  faults w (boto_calls w) = None ->
  faults w (S (boto_calls w)) = None ->
  add_message_to_session self sid (Session.user_id s) m w
  = (Ret true,
     answered (answered w items)
       (<[sid := {| item_data :=
                      {| Session.session_id := sid;
                         Session.user_id := Session.user_id s;
                         Session.created_at := Session.created_at s;
                         Session.last_activity := clock w;
                         Session.knowledge_base_id := Session.knowledge_base_id s;
                         Session.conversation_history :=
                           trimmed (max_conversation_history self)
                             (Session.conversation_history s ++ [Message.set_session_id m sid]);
                         Session.status := Session.status s |};
                    item_ttl := Z.quot (clock w + seconds (30 * 86400)) 1000000 |}]> items)).
Proof.
  intros Ht Hl Hid Hv Hlive Hf1 Hf2.
  unfold add_message_to_session, try_except.
  unfold bind at 1.
  rewrite (get_session_found self sid w items s ttl) by done.
  rewrite gtb_false by done.
  unfold bind at 1. unfold Session.add_message. simpl.
  rewrite Hid, String.eqb_refl. simpl.
  unfold trimmed.
  destruct (_ >? _); rewrite (update_session_answered _ _ _ items) by done;
    unfold now, World_clock; simpl; by subst sid.
Qed.

End FacadeWrites.

(** X3.  A session that is stored is read back: after [update_session]
    of a valid, live session the owner's [get_session] returns that
    very session. *)
Theorem stored_session_is_read_back (self : SessionService.t) (w : World)
    (items : gmap string Item) (session : Session.t) :
  table w = Some items ->
  valid_session (clock w) session ->
  clock w - Session.last_activity session
    <= seconds (SessionService.session_timeout_hours self * 3600) ->
  faults w (boto_calls w) = None ->
  faults w (S (boto_calls w)) = None ->
  exists w1 w2,
    SessionService.update_session self session w = (Ret true, w1) /\
    SessionService.get_session self (Session.session_id session)
      (Session.user_id session) w1 = (Ret (Some session), w2).
Proof.
  intros Ht Hv Hlive Hf1 Hf2.
  rewrite (update_session_answered _ _ _ items) by done.
  do 2 eexists. split; [reflexivity|].
  erewrite get_session_found; [|reflexivity|apply lookup_insert_eq|done|done].
  simpl. by rewrite gtb_false by done.
Qed.

Lemma stored_session_is_read_back_witness :
  exists w1 w2,
    SessionService.update_session SessionService.default (Example.session [] 900)
      Example.fresh = (Ret true, w1) /\
    SessionService.get_session SessionService.default "s1" "user-1" w1
      = (Ret (Some (Example.session [] 900)), w2).
Proof.
  apply (stored_session_is_read_back SessionService.default Example.fresh ∅
           (Example.session [] 900)).
  - reflexivity.
  - repeat split; simpl; try done; lia.
  - vm_compute. congruence.
  - reflexivity.
  - reflexivity.
Defined.

(** X4.  [create_session] for a user with a non-empty identifier, on a
    store that answers, returns an active session of that user with a
    fresh identifier, an empty history, the given knowledge base and
    both timestamps at the current time; it stores it under its
    identifier, and the owner reads it back.  For an empty user
    identifier it raises the HTTP exception without a request to the
    store. *)
Theorem created_session_is_stored (self : SessionService.t) (w : World)
    (items : gmap string Item) (user_context : UserContext.t)
    (knowledge_base_id : option string) :
  table w = Some items ->
  faults w (boto_calls w) = None ->
  (UserContext.user_id user_context <> "" ->
   exists w',
     let created := {| Session.session_id := fst (fresh_uuid w);
                       Session.user_id := UserContext.user_id user_context;
                       Session.created_at := clock w;
                       Session.last_activity := clock w;
                       Session.knowledge_base_id := knowledge_base_id;
                       Session.conversation_history := [];
                       Session.status := ACTIVE |} in
     SessionService.create_session self user_context knowledge_base_id w
       = (Ret created, w') /\
     (item_data <$> (table w' ≫= (.!! Session.session_id created))) = Some created /\
     (0 <= SessionService.session_timeout_hours self ->
      faults w (S (boto_calls w)) = None ->
      exists w'',
        SessionService.get_session self (Session.session_id created)
          (UserContext.user_id user_context) w' = (Ret (Some created), w''))) /\
  (UserContext.user_id user_context = "" ->
   exists w',
     SessionService.create_session self user_context knowledge_base_id w
       = (Raise (HTTPException 500 "Failed to create session"), w') /\
     table w' = table w /\ boto_calls w' = boto_calls w).
Proof.
  intros Ht Hf. split.
  - intros Hu. eexists. cbv zeta.
    set (created := {| Session.session_id := fst (fresh_uuid w);
                       Session.user_id := UserContext.user_id user_context;
                       Session.created_at := clock w;
                       Session.last_activity := clock w;
                       Session.knowledge_base_id := knowledge_base_id;
                       Session.conversation_history := [];
                       Session.status := ACTIVE |}).
    unfold SessionService.create_session, try_except.
    unfold bind at 1. rewrite uuid4_eq.
    unfold bind at 1. rewrite session_new_ok by done. fold created.
    unfold bind. rewrite (store_session_answered _ _ _ items) by done.
    split; [reflexivity|]. simpl. rewrite lookup_insert_eq. split; [done|].
    intros Htime Hf2.
    change (UserContext.user_id user_context) with (Session.user_id created).
    erewrite (get_session_found self _ _ _ created);
      [|reflexivity|apply lookup_insert_eq| |done].
    + simpl. rewrite gtb_false; [eauto|]. unfold seconds. lia.
    + repeat split; simpl; try done; lia.
  - intros Hu. eexists.
    unfold SessionService.create_session, try_except.
    unfold bind at 1. rewrite uuid4_eq.
    unfold bind at 1. unfold Session.new, Session.__post_init__, bind, datetime_now, gets.
    simpl. rewrite Hu. simpl. done.
Qed.

Lemma created_session_is_stored_witness :
  exists created w',
    SessionService.create_session SessionService.default Example.user (Some "kb-1")
      Example.fresh = (Ret created, w') /\
    Session.knowledge_base_id created = Some "kb-1" /\
    (item_data <$> (table w' ≫= (.!! Session.session_id created))) = Some created.
Proof.
  destruct (proj1 (created_session_is_stored SessionService.default Example.fresh ∅
                     Example.user (Some "kb-1") eq_refl eq_refl))
    as (w' & Hc & Hl & _); [done|].
  eexists _, w'. split; [exact Hc|]. split; [reflexivity | exact Hl].
Defined.

(** X5.  An append by the owner to a stored, valid, live session, while
    the store answers: the message is stored with the session's
    identifier in place of its own; below the cap it is added at the
    end of the history and nothing is dropped; the session's
    [last_activity] becomes the current time and its other fields stay. *)
Theorem append_below_cap (self : SessionService.t) (w : World)
    (items : gmap string Item) (session : Session.t) (ttl : Z) (session_id : string)
    (message : Message.t) :
  table w = Some items ->
  items !! session_id = Some {| item_data := session; item_ttl := ttl |} ->
  Session.session_id session = session_id ->
  valid_session (clock w) session ->
  clock w - Session.last_activity session
    <= seconds (SessionService.session_timeout_hours self * 3600) ->
  Z.of_nat (length (Session.conversation_history session))
    < SessionService.max_conversation_history self ->
  faults w (boto_calls w) = None ->
  faults w (S (boto_calls w)) = None ->
  exists w' stored,
    SessionService.add_message_to_session self session_id (Session.user_id session) message w
      = (Ret true, w') /\
    (item_data <$> (table w' ≫= (.!! session_id))) = Some stored /\
    Session.conversation_history stored
      = Session.conversation_history session ++ [Message.set_session_id message session_id] /\
    Session.last_activity stored = clock w /\
    Session.session_id stored = session_id /\
    Session.user_id stored = Session.user_id session /\
    Session.created_at stored = Session.created_at session /\
    Session.knowledge_base_id stored = Session.knowledge_base_id session /\
    Session.status stored = Session.status session.
Proof.
  intros Ht Hl Hid Hv Hlive Hlen Hf1 Hf2.
  rewrite (add_message_to_session_run self session_id w items session ttl) by done.
  do 2 eexists. split; [reflexivity|]. simpl. rewrite lookup_insert_eq. simpl.
  split; [reflexivity|]. simpl. split_and!; try done.
  unfold trimmed. rewrite gtb_false; [done|]. rewrite length_app. simpl. lia.
Qed.

Lemma append_below_cap_witness :
  exists w' stored,
    SessionService.add_message_to_session SessionService.default "s1" "user-1"
      (Example.message 2) (Example.store_with (Example.session [Example.message 1] 900) 1000)
      = (Ret true, w') /\
    (item_data <$> (table w' ≫= (.!! "s1"))) = Some stored /\
    Session.conversation_history stored = [Example.message 1; Example.message 2].
Proof.
  destruct (append_below_cap SessionService.default
              (Example.store_with (Example.session [Example.message 1] 900) 1000)
              {[ "s1" := {| item_data := Example.session [Example.message 1] 900;
                            item_ttl := 0 |} ]}
              (Example.session [Example.message 1] 900) 0 "s1" (Example.message 2))
    as (w' & stored & Hadd & Hl & Hh & _).
  - reflexivity.
  - reflexivity.
  - reflexivity.
  - repeat split; simpl; try done; try lia.
    repeat constructor; simpl; try done; vm_compute; congruence.
  - vm_compute. congruence.
  - reflexivity.
  - reflexivity.
  - reflexivity.
  - exists w', stored. split_and!; [done..|]. rewrite Hh. reflexivity.
Defined.

Lemma slice_from_suffix {A} (cap : Z) (l : list A) :
  0 < cap ->
  slice_from (- cap) l = drop (length l - Z.to_nat cap) l.
Proof.
  intros Hcap. unfold slice_from.
  replace (- cap <? 0) with true by (symmetry; apply Z.ltb_lt; lia).
  f_equal. lia.
Qed.

Lemma trimmed_suffix (cap : Z) (h : list Message.t) :
  0 < cap ->
  trimmed cap h = drop (length h - Z.to_nat cap) h.
Proof.
  intros Hcap. unfold trimmed. destruct (_ >? _) eqn:Hgt.
  - by apply slice_from_suffix.
  - rewrite Z.gtb_ltb in Hgt. apply Z.ltb_ge in Hgt.
    replace (length h - Z.to_nat cap)%nat with 0%nat by lia. done.
Qed.

(** X6.  For every positive cap, whatever the length of the stored
    history, an append stores the last messages of the old history
    followed by the new one, in their order, and as many of them as the
    cap allows: the stored history is never longer than the cap. *)
Theorem stored_history_is_bounded (self : SessionService.t) (w : World)
    (items : gmap string Item) (session : Session.t) (ttl : Z) (session_id : string)
    (message : Message.t) :
  0 < SessionService.max_conversation_history self ->
  table w = Some items ->
  items !! session_id = Some {| item_data := session; item_ttl := ttl |} ->
  Session.session_id session = session_id ->
  valid_session (clock w) session ->
  clock w - Session.last_activity session
    <= seconds (SessionService.session_timeout_hours self * 3600) ->
  faults w (boto_calls w) = None ->
  faults w (S (boto_calls w)) = None ->
  exists w' stored dropped,
    SessionService.add_message_to_session self session_id (Session.user_id session) message w
      = (Ret true, w') /\
    (item_data <$> (table w' ≫= (.!! session_id))) = Some stored /\
    Session.conversation_history session ++ [Message.set_session_id message session_id]
      = dropped ++ Session.conversation_history stored /\
    Z.of_nat (length (Session.conversation_history stored))
      = Z.min (Z.of_nat (length (Session.conversation_history session)) + 1)
              (SessionService.max_conversation_history self).
Proof.
  intros Hcap Ht Hl Hid Hv Hlive Hf1 Hf2.
  rewrite (add_message_to_session_run self session_id w items session ttl) by done.
  eexists _, _, _. split; [reflexivity|]. simpl. rewrite lookup_insert_eq. simpl.
  split; [reflexivity|]. simpl. rewrite trimmed_suffix by done. split.
  - symmetry. apply take_drop.
  - rewrite length_drop, length_app. simpl. lia.
Qed.

(** Three stored messages under a cap lowered to two. *)
Lemma stored_history_is_bounded_witness :
  exists w' stored,
    SessionService.add_message_to_session
      {| SessionService.session_timeout_hours := 24;
         SessionService.max_conversation_history := 2 |}
      "s1" "user-1" (Example.message 4)
      (Example.store_with
         (Example.session [Example.message 1; Example.message 2; Example.message 3] 900) 1000)
      = (Ret true, w') /\
    (item_data <$> (table w' ≫= (.!! "s1"))) = Some stored /\
    Z.of_nat (length (Session.conversation_history stored)) = 2.
Proof.
  destruct (stored_history_is_bounded
              {| SessionService.session_timeout_hours := 24;
                 SessionService.max_conversation_history := 2 |}
              (Example.store_with
                 (Example.session [Example.message 1; Example.message 2; Example.message 3] 900)
                 1000)
              {[ "s1" := {| item_data := Example.session
                              [Example.message 1; Example.message 2; Example.message 3] 900;
                            item_ttl := 0 |} ]}
              (Example.session [Example.message 1; Example.message 2; Example.message 3] 900)
              0 "s1" (Example.message 4))
    as (w' & stored & dropped & Hadd & Hl & _ & Hlen).
  - reflexivity.
  - reflexivity.
  - reflexivity.
  - reflexivity.
  - repeat split; simpl; try done; try lia.
    repeat constructor; simpl; try done; vm_compute; congruence.
  - vm_compute. congruence.
  - reflexivity.
  - reflexivity.
  - exists w', stored. split_and!; [done..|]. rewrite Hlen. reflexivity.
Defined.

(** X7.  An append of a valid message keeps the stored record valid:
    what [add_message_to_session] writes satisfies the invariants that
    the next read checks. *)
Theorem append_keeps_record_valid (self : SessionService.t) (w : World)
    (items : gmap string Item) (session : Session.t) (ttl : Z) (session_id : string)
    (message : Message.t) :
  session_id <> "" ->
  valid_message (clock w) message ->
  table w = Some items ->
  items !! session_id = Some {| item_data := session; item_ttl := ttl |} ->
  Session.session_id session = session_id ->
  valid_session (clock w) session ->
  clock w - Session.last_activity session
    <= seconds (SessionService.session_timeout_hours self * 3600) ->
  faults w (boto_calls w) = None ->
  faults w (S (boto_calls w)) = None ->
  exists w' stored,
    SessionService.add_message_to_session self session_id (Session.user_id session) message w
      = (Ret true, w') /\
    (item_data <$> (table w' ≫= (.!! session_id))) = Some stored /\
    valid_session (clock w') stored.
Proof.
  intros Hsid (Hms & Hmc & Hmt & Hml) Ht Hl Hid (Hu & Hc & Hla & Hh) Hlive Hf1 Hf2.
  rewrite (add_message_to_session_run self session_id w items session ttl) by done.
  eexists _, _. split; [reflexivity|]. simpl. rewrite lookup_insert_eq. simpl.
  split; [reflexivity|]. split_and!; simpl; try done.
  assert (Forall (valid_message (clock w))
            (Session.conversation_history session
               ++ [Message.set_session_id message session_id])) as Hall.
  { apply Forall_app. split; [done|]. constructor; [|constructor]. by split_and!. }
  unfold trimmed, slice_from. destruct (_ >? _); [|done]. by apply Forall_drop.
Qed.

Lemma append_keeps_record_valid_witness :
  exists w' stored,
    SessionService.add_message_to_session SessionService.default "s1" "user-1"
      (Example.message 2) (Example.store_with (Example.session [Example.message 1] 900) 1000)
      = (Ret true, w') /\
    (item_data <$> (table w' ≫= (.!! "s1"))) = Some stored /\
    valid_session (clock w') stored.
Proof.
  apply (append_keeps_record_valid SessionService.default
           (Example.store_with (Example.session [Example.message 1] 900) 1000)
           {[ "s1" := {| item_data := Example.session [Example.message 1] 900;
                         item_ttl := 0 |} ]}
           (Example.session [Example.message 1] 900) 0 "s1" (Example.message 2)).
  - done.
  - repeat split; simpl; try done; vm_compute; congruence.
  - reflexivity.
  - reflexivity.
  - reflexivity.
  - repeat split; simpl; try done; try lia.
    repeat constructor; simpl; try done; vm_compute; congruence.
  - vm_compute. congruence.
  - reflexivity.
  - reflexivity.
Defined.

(** X8.  [delete_session] by the owner stores the session with the
    status archived and everything else as it was.  The archived
    session is not hidden from its owner: [get_session] still returns
    it. *)
Theorem archived_session_stays_readable (self : SessionService.t) (w : World)
    (items : gmap string Item) (session : Session.t) (ttl : Z) (session_id : string) :
  table w = Some items ->
  items !! session_id = Some {| item_data := session; item_ttl := ttl |} ->
  Session.session_id session = session_id ->
  valid_session (clock w) session ->
  clock w - Session.last_activity session
    <= seconds (SessionService.session_timeout_hours self * 3600) ->
  faults w (boto_calls w) = None ->
  faults w (S (boto_calls w)) = None ->
  exists w',
    SessionService.delete_session self session_id (Session.user_id session) w
      = (Ret true, w') /\
    (item_data <$> (table w' ≫= (.!! session_id)))
      = Some (Session.set_status session ARCHIVED) /\
    (faults w (S (S (boto_calls w))) = None ->
     exists w'',
       SessionService.get_session self session_id (Session.user_id session) w'
         = (Ret (Some (Session.set_status session ARCHIVED)), w'')).
Proof.
  intros Ht Hl Hid Hv Hlive Hf1 Hf2.
  unfold SessionService.delete_session, try_except. unfold bind at 1.
  rewrite (get_session_found self session_id w items session ttl) by done.
  rewrite gtb_false by done.
  rewrite (update_session_answered _ _ _ items) by done.
  eexists. split; [reflexivity|]. simpl. rewrite Hid, lookup_insert_eq.
  split; [done|]. intros Hf3.
  change (Session.user_id session) with (Session.user_id (Session.set_status session ARCHIVED)).
  erewrite (get_session_found self _ _ _ (Session.set_status session ARCHIVED));
    [|reflexivity|apply lookup_insert_eq|done|done].
  simpl. rewrite gtb_false by done. eauto.
Qed.

Lemma archived_session_stays_readable_witness :
  exists w',
    SessionService.delete_session SessionService.default "s1" "user-1"
      (Example.store_with (Example.session [] 900) 1000) = (Ret true, w') /\
    (item_data <$> (table w' ≫= (.!! "s1")))
      = Some (Session.set_status (Example.session [] 900) ARCHIVED).
Proof.
  destruct (archived_session_stays_readable SessionService.default
              (Example.store_with (Example.session [] 900) 1000)
              {[ "s1" := {| item_data := Example.session [] 900; item_ttl := 0 |} ]}
              (Example.session [] 900) 0 "s1") as (w' & Hd & Hl & _).
  - reflexivity.
  - reflexivity.
  - reflexivity.
  - repeat split; simpl; try done; lia.
  - vm_compute. congruence.
  - reflexivity.
  - reflexivity.
  - by exists w'.
Defined.

(** X9.  [Session.get_recent_messages] with a positive limit returns
    the last messages of the history, in their order, the whole history
    when it has no more than [limit] messages; with the limit 0 the
    slice [history[-0:]] is the whole history. *)
Theorem recent_messages_are_the_last (session : Session.t) (limit : Z) :
  (0 < limit ->
   exists older,
     Session.conversation_history session
       = older ++ Session.get_recent_messages session limit /\
     Z.of_nat (length (Session.get_recent_messages session limit))
       = Z.min (Z.of_nat (length (Session.conversation_history session))) limit) /\
  Session.get_recent_messages session 0 = Session.conversation_history session.
Proof.
  unfold Session.get_recent_messages. split.
  - intros Hlim. destruct (Session.conversation_history session) as [|m h] eqn:Hh.
    + exists []. split; [done|]. simpl. lia.
    + rewrite slice_from_suffix by done.
      exists (take (length (m :: h) - Z.to_nat limit) (m :: h)). split.
      * symmetry. apply take_drop.
      * rewrite length_drop. lia.
  - by destruct (Session.conversation_history session).
Qed.

Lemma recent_messages_are_the_last_witness :
  Session.get_recent_messages
    (Example.session [Example.message 1; Example.message 2; Example.message 3] 900) 2
  = [Example.message 2; Example.message 3].
Proof.
  destruct (proj1 (recent_messages_are_the_last
                     (Example.session [Example.message 1; Example.message 2; Example.message 3]
                        900) 2) ltac:(lia)) as (older & _ & _).
  reflexivity.
Defined.

(** The order of a listing: most recent activity first. *)
Section Listing.
Import SessionService.
Implicit Types (self : SessionService.t) (w : World).

Lemma insert_by_last_activity_in (s x : Session.t) (sorted : list Session.t) :
  In x (insert_by_last_activity s sorted) <-> x = s \/ In x sorted.
Proof.
  induction sorted as [|y rest IH]; simpl; [intuition congruence|].
  destruct (_ <=? _); simpl; [intuition congruence|]. rewrite IH. intuition congruence.
Qed.

Lemma sort_by_last_activity_in (x : Session.t) (sessions : list Session.t) :
  In x (sort_by_last_activity sessions) <-> In x sessions.
Proof.
  induction sessions as [|s rest IH]; simpl; [done|].
  rewrite insert_by_last_activity_in, IH. intuition congruence.
Qed.

Lemma insert_by_last_activity_sorted (s : Session.t) (sorted : list Session.t) :
  StronglySorted newer_first sorted ->
  StronglySorted newer_first (insert_by_last_activity s sorted).
Proof.
  induction 1 as [|y rest Hs IH Hy]; simpl; [repeat constructor|].
  destruct (_ <=? _) eqn:Hle.
  - apply Z.leb_le in Hle. constructor; [by constructor|].
    constructor; [done|]. rewrite List.Forall_forall in Hy |- *. intros z Hz.
    specialize (Hy z Hz). unfold newer_first in *. lia.
  - apply Z.leb_gt in Hle. constructor; [done|].
    rewrite List.Forall_forall in Hy |- *. intros z Hz.
    apply insert_by_last_activity_in in Hz as [->|Hz]; [|by apply Hy].
    unfold newer_first. lia.
Qed.

Lemma sort_by_last_activity_sorted (sessions : list Session.t) :
  StronglySorted newer_first (sort_by_last_activity sessions).
Proof.
  induction sessions as [|s rest IH]; simpl; [constructor|].
  by apply insert_by_last_activity_sorted.
Qed.

Lemma get_user_sessions_owned self (uid : string) (data : list Item) w w' :
  _get_user_sessions_from_db self uid w = (Ret data, w') ->
  clock w' = clock w /\
  forall item, In item data -> Session.user_id (item_data item) = uid.
Proof.
  unfold _get_user_sessions_from_db, bind, gets. simpl.
  destruct (table w) as [items|] eqn:Ht; [|intros [= <- <-]; by split].
  unfold try_except, scan, boto_request. rewrite Ht.
  destruct (faults w (boto_calls w)) as [e|].
  - destruct (is_boto_error e); [|done]. intros [= <- <-]. by split.
  - intros [= <- <-]. split; [done|]. intros item Hin.
    apply list_elem_of_In, list_elem_of_filter in Hin as [Hu _].
    by apply String.eqb_eq, Is_true_true.
Qed.

(** The loop keeps what it has collected, and adds sessions of the
    scanned records only: with their owner, and, when only active ones
    are asked for, active and not expired. *)
Lemma collect_sessions_spec self (active_only : bool) (uid : string) (data : list Item)
    (acc result : list Session.t) w w' :
  collect_sessions self active_only data acc w = (Ret result, w') ->
  (forall item, In item data -> Session.user_id (item_data item) = uid) ->
  forall s, In s result ->
    In s acc \/
    (Session.user_id s = uid /\
     (active_only = true ->
      Session.status s = ACTIVE /\
      clock w - Session.last_activity s <= seconds (session_timeout_hours self * 3600))).
Proof.
  revert acc w. induction data as [|item data IH]; intros acc w Hc Hown s Hin; simpl in Hc.
  - injection Hc as <- <-. by left.
  - apply bind_ret_inv in Hc as (s0 & w1 & Hfd & Hc).
    pose proof (session_from_dict_pure (item_data item) w) as Hp.
    rewrite Hfd in Hp. simpl in Hp. subst w1.
    apply session_from_dict_ret in Hfd as ->.
    apply bind_ret_inv in Hc as (expired & w1 & Hex & Hc).
    rewrite is_expired_eq in Hex. injection Hex as <- <-.
    apply bind_ret_inv in Hc as (s' & w1 & Hst & Hc).
    assert (clock w1 = clock w /\
            Session.user_id s' = uid /\
            (Session.status s' = ACTIVE ->
             clock w - Session.last_activity s'
               <= seconds (session_timeout_hours self * 3600))) as (Hck & Hu & Hact).
    { destruct (_ >? _) eqn:Hgt.
      - apply bind_ret_inv in Hst as ([] & w2 & Hst & [= <- <-]).
        apply store_session_clock in Hst. split_and!; [done| |done].
        simpl. apply Hown. by left.
      - injection Hst as <- <-. split_and!; [done| |].
        + apply Hown. by left.
        + intros _. rewrite Z.gtb_ltb in Hgt. by apply Z.ltb_ge in Hgt. }
    assert (forall item, In item data -> Session.user_id (item_data item) = uid) as Hown'.
    { intros it Hit. apply Hown. by right. }
    destruct (active_only && negb (SessionStatus_eqb (Session.status s') ACTIVE))%bool eqn:Hskip.
    + destruct (IH _ _ Hc Hown' s Hin) as [?|(? & Hr)]; [by left|].
      right. split; [done|]. rewrite <- Hck. exact Hr.
    + destruct (IH _ _ Hc Hown' s Hin) as [Hacc|(? & Hr)].
      * apply in_app_iff in Hacc as [?|[<-|[]]]; [by left|].
        right. split; [done|]. intros ->. simpl in Hskip.
        apply negb_false_iff in Hskip.
        assert (Session.status s' = ACTIVE) as Hs by (by destruct (Session.status s')).
        split; [done|]. by apply Hact.
      * right. split; [done|]. rewrite <- Hck. exact Hr.
Qed.

End Listing.

(** X10.  [list_user_sessions] never raises; the sessions it returns
    belong to the user asked for and come with the most recent
    [last_activity] first; when only active sessions are asked for,
    each one returned is active and has not passed the timeout. *)
Theorem listing_is_owned_and_ordered (self : SessionService.t) (w : World)
    (user_id : string) (active_only : bool) :
  exists sessions w',
    SessionService.list_user_sessions self user_id active_only w = (Ret sessions, w') /\
    StronglySorted newer_first sessions /\
    (forall s, In s sessions ->
       Session.user_id s = user_id /\
       (active_only = true ->
        Session.status s = ACTIVE /\
        clock w - Session.last_activity s
          <= seconds (SessionService.session_timeout_hours self * 3600))).
Proof.
  destruct (list_user_sessions_total self user_id active_only w) as (r & w' & Hr).
  exists r, w'. split; [done|].
  unfold SessionService.list_user_sessions in Hr.
  apply try_except_inv in Hr as [(a & Hb & [= <-])|(e & w1 & _ & [= <- _])];
    [|split; [constructor | by intros s []]].
  apply bind_ret_inv in Hb as (data & w1 & Hdb & Hk).
  apply bind_ret_inv in Hk as (collected & w2 & Hc & [= <- _]).
  split; [apply sort_by_last_activity_sorted|].
  intros s Hin. apply (proj1 (sort_by_last_activity_in _ _)) in Hin.
  apply get_user_sessions_owned in Hdb as (Hck & Hown).
  destruct (collect_sessions_spec _ _ _ _ _ _ _ _ Hc Hown s Hin) as [[]|Hs].
  by rewrite <- Hck.
Qed.

(* ===================================================================== *)
(** * Further properties of the circuit breaker *)
(* ===================================================================== *)

Section BreakerMore.
Import CircuitBreaker.
Context {W : Type} `{Clock W} {A : Type}.
Implicit Types (func : Mon W A) (self : CircuitBreaker.t).

Lemma call_reset_without_time func self (w : W) :
  state self = OPEN -> last_failure_time self = None ->
  call func (self, w) = call func (set_state self HALF_OPEN, w).
Proof.
  intros Hst Hlast. unfold call, bind, gets, _should_attempt_reset. simpl.
  rewrite Hst. simpl. by rewrite Hlast.
Qed.

(** The breaker after a call that was let through. *)
Lemma call_through_state func self (w : W) :
  state self <> OPEN ->
  exists r self' w',
    func w = (r, w') /\ call func (self, w) = (r, (self', w')) /\
    failure_threshold self' = failure_threshold self /\
    recovery_timeout self' = recovery_timeout self /\
    match r with
    | Ret _ => failure_count self' = 0 /\ state self' = CLOSED /\
               last_failure_time self' = last_failure_time self
    | Raise _ =>
        failure_count self' = failure_count self + 1 /\
        last_failure_time self' = Some (now w') /\
        state self' = if failure_count self + 1 >=? failure_threshold self
                      then OPEN else state self
    end.
Proof.
  intros Hst. rewrite call_through by done.
  destruct (func w) as [[a|e] w']; eexists _, _, _; (split; [reflexivity|]);
    (split; [reflexivity|]); simpl; [done|].
  by destruct (_ >=? _).
Qed.

End BreakerMore.

(** X11.  Consistency is an invariant of the breaker: whatever the
    wrapped function does, after a call the failure count is not
    negative, and a breaker that is open or half-open has reached its
    threshold and has a time of last failure.  The two settings are
    never changed. *)
Theorem breaker_stays_consistent {W : Type} `{Clock W} {A : Type}
    (func : Mon W A) (self : CircuitBreaker.t) (w : W) :
  breaker_consistent self ->
  exists r self' w',
    CircuitBreaker.call func (self, w) = (r, (self', w')) /\
    breaker_consistent self' /\
    CircuitBreaker.failure_threshold self' = CircuitBreaker.failure_threshold self /\
    CircuitBreaker.recovery_timeout self' = CircuitBreaker.recovery_timeout self.
Proof.
  intros (Hcount & Hopen).
  assert (forall self0,
            CircuitBreaker.state self0 <> CircuitBreaker.OPEN ->
            0 <= CircuitBreaker.failure_count self0 ->
            (CircuitBreaker.state self0 <> CircuitBreaker.CLOSED ->
             CircuitBreaker.failure_threshold self0 <= CircuitBreaker.failure_count self0) ->
            exists r self' w',
              CircuitBreaker.call func (self0, w) = (r, (self', w')) /\
              breaker_consistent self' /\
              CircuitBreaker.failure_threshold self' = CircuitBreaker.failure_threshold self0 /\
              CircuitBreaker.recovery_timeout self' = CircuitBreaker.recovery_timeout self0)
    as Hthrough.
  { intros self0 Hst Hc Hth.
    destruct (call_through_state func self0 w Hst)
      as (r & self' & w' & _ & Hcall & Ht & Hr & Hres).
    exists r, self', w'. split_and!; [done| |done|done].
    destruct r as [a|e].
    - destruct Hres as (Hc' & Hs' & _). split; [lia|]. by rewrite Hs'.
    - destruct Hres as (Hc' & Hl' & Hs'). split; [lia|]. rewrite Hs', Hl', Hc', Ht.
      destruct (_ >=? _) eqn:Hge.
      + intros _. split; [|done]. apply Z.geb_le in Hge. lia.
      + intros Hnc. split; [|done]. specialize (Hth Hnc). lia. }
  destruct (CircuitBreaker.state self) eqn:Hst.
  - apply Hthrough; [by rewrite Hst | done | by rewrite Hst].
  - destruct Hopen as (Hth & Hlast); [done|].
    destruct (CircuitBreaker.last_failure_time self) as [t0|] eqn:El; [|done].
    destruct (Z_lt_le_dec (seconds (CircuitBreaker.recovery_timeout self)) (now w - t0))
      as [Hlate|Hearly].
    + rewrite (call_half_open func self w t0) by done.
      destruct (Hthrough (CircuitBreaker.set_state self CircuitBreaker.HALF_OPEN))
        as (r & self' & w' & ? & ? & ? & ?); [done|done|done|]. by exists r, self', w'.
    + rewrite (call_rejected func self w t0) by done.
      eexists _, _, _. split; [reflexivity|]. split_and!; [|done|done].
      split; [done|]. intros _. by rewrite El.
  - apply Hthrough; [by rewrite Hst | done |]. intros Hnc. by apply Hopen.
Qed.

Lemma breaker_stays_consistent_witness :
  exists r self' w',
    CircuitBreaker.call (raise (Exception "agent down") : Mon World unit)
      (CircuitBreaker.agent_circuit_breaker, Example.fresh) = (r, (self', w')) /\
    breaker_consistent self'.
Proof.
  destruct (breaker_stays_consistent (raise (Exception "agent down") : Mon World unit)
              CircuitBreaker.agent_circuit_breaker Example.fresh)
    as (r & self' & w' & Hc & Hcons & _).
  - split; [simpl; lia | by intros []].
  - by exists r, self', w'.
Defined.

(** X12.  Consecutive failures open the breaker at the threshold and
    not before: from a closed breaker without failures, after [n]
    calls that all fail the count is [n]; the breaker is closed while
    [n] is below the threshold and open when [n] is the threshold. *)
Theorem threshold_failures_open_the_breaker {W : Type} `{Clock W} {A : Type}
    (funcs : list (Mon W A)) (self : CircuitBreaker.t) (w : W) :
  Forall always_fails funcs ->
  CircuitBreaker.state self = CircuitBreaker.CLOSED ->
  CircuitBreaker.failure_count self = 0 ->
  Z.of_nat (length funcs) <= CircuitBreaker.failure_threshold self ->
  funcs <> [] ->
  exists self' w',
    call_each funcs (self, w) = (Ret tt, (self', w')) /\
    CircuitBreaker.failure_count self' = Z.of_nat (length funcs) /\
    (Z.of_nat (length funcs) < CircuitBreaker.failure_threshold self ->
     CircuitBreaker.state self' = CircuitBreaker.CLOSED) /\
    (Z.of_nat (length funcs) = CircuitBreaker.failure_threshold self ->
     CircuitBreaker.state self' = CircuitBreaker.OPEN).
Proof.
  intros Hfail Hst Hc Hlen Hne.
  assert (forall (fs : list (Mon W A)) self0 w0,
            Forall always_fails fs ->
            CircuitBreaker.failure_threshold self0 = CircuitBreaker.failure_threshold self ->
            0 <= CircuitBreaker.failure_count self0 ->
            CircuitBreaker.failure_count self0 + Z.of_nat (length fs)
              <= CircuitBreaker.failure_threshold self ->
            (CircuitBreaker.state self0 = CircuitBreaker.CLOSED \/
             (fs = [] /\ CircuitBreaker.state self0 = CircuitBreaker.OPEN /\
              CircuitBreaker.failure_count self0 = CircuitBreaker.failure_threshold self)) ->
            exists self' w',
              call_each fs (self0, w0) = (Ret tt, (self', w')) /\
              CircuitBreaker.failure_count self'
                = CircuitBreaker.failure_count self0 + Z.of_nat (length fs) /\
              (CircuitBreaker.failure_count self' < CircuitBreaker.failure_threshold self ->
               CircuitBreaker.state self' = CircuitBreaker.CLOSED) /\
              (fs <> [] \/ CircuitBreaker.state self0 = CircuitBreaker.OPEN ->
               CircuitBreaker.failure_count self' = CircuitBreaker.failure_threshold self ->
               CircuitBreaker.state self' = CircuitBreaker.OPEN)) as Hgen.
  { induction fs as [|f fs IH]; intros self0 w0 Hall Hth Hc0 Hsum Hstate.
    - exists self0, w0. simpl. split_and!; [done|lia| |].
      + intros Hlt. destruct Hstate as [?|(_ & _ & ?)]; [done|lia].
      + intros [?|?] _; done.
    - inversion Hall as [|? ? Hf Hall']; subst.
      destruct Hstate as [Hcl|(? & _)]; [|done].
      destruct (Hf w0) as (e & w1 & Hfw).
      simpl. unfold bind at 1. unfold try_except. unfold bind at 1.
      rewrite call_through by (by rewrite Hcl). rewrite Hfw. simpl.
      set (self1 := if _ >=? _ then _ else _).
      assert (CircuitBreaker.failure_threshold self1 = CircuitBreaker.failure_threshold self
              /\ CircuitBreaker.failure_count self1 = CircuitBreaker.failure_count self0 + 1
              /\ (CircuitBreaker.state self1 = CircuitBreaker.CLOSED \/
                  (fs = [] /\ CircuitBreaker.state self1 = CircuitBreaker.OPEN /\
                   CircuitBreaker.failure_count self1 = CircuitBreaker.failure_threshold self)))
        as (Hth1 & Hc1 & Hst1).
      { subst self1. destruct (_ >=? _) eqn:Hge; simpl; split_and!; try done.
        - apply Z.geb_le in Hge. right. simpl length in Hsum.
          split_and!; [destruct fs; [done|simpl length in Hsum; lia] | done | lia].
        - by left. }
      destruct (IH self1 w1 Hall' Hth1) as (self' & w' & Hrun & Hcount & Hclosed & Hopen).
      + lia.
      + simpl length in Hsum. lia.
      + done.
      + exists self', w'. split; [done|]. split; [simpl length; lia|].
        split; [done|]. intros _ Heq. apply Hopen; [|done].
        destruct fs; [right|by left].
        destruct Hst1 as [Hcl1|(_ & ? & _)]; [|done].
        exfalso. subst self1. revert Hcl1. simpl in Hcount.
        destruct (_ >=? _) eqn:Hge; [done|].
        rewrite Z.geb_leb in Hge. apply Z.leb_gt in Hge. simpl in *. lia. }
  destruct (Hgen funcs self w Hfail eq_refl) as (self' & w' & Hrun & Hcount & Hclosed & Hopen).
  - lia.
  - lia.
  - by left.
  - exists self', w'. rewrite Hc in Hcount. simpl in Hcount.
    split_and!; [done|done| |].
    + intros Hlt. apply Hclosed. lia.
    + intros Heq. apply Hopen; [by left|lia].
Qed.

(** Three failures on a breaker with the threshold three. *)
Lemma threshold_failures_open_the_breaker_witness :
  exists self' w',
    call_each [raise (Exception "down"); raise (Exception "down");
               raise (Exception "down") : Mon World unit]
      (CircuitBreaker.bedrock_circuit_breaker, Example.fresh) = (Ret tt, (self', w')) /\
    CircuitBreaker.state self' = CircuitBreaker.OPEN.
Proof.
  destruct (threshold_failures_open_the_breaker
              [raise (Exception "down"); raise (Exception "down");
               raise (Exception "down") : Mon World unit]
              CircuitBreaker.bedrock_circuit_breaker Example.fresh)
    as (self' & w' & Hrun & _ & _ & Hopen).
  - repeat constructor; intros w; by eexists _, _.
  - reflexivity.
  - reflexivity.
  - simpl. lia.
  - done.
  - exists self', w'. split; [exact Hrun|]. by apply Hopen.
Defined.

(** X13.  The trial call after the recovery time.  On a consistent
    breaker that is open, a call made more than [recovery_timeout]
    seconds after the last failure runs the wrapped function.  When the
    function fails, the breaker is open again with the time of this
    failure, so that a call made within [recovery_timeout] seconds of it
    is rejected; when it succeeds, the breaker is closed with no
    failure counted. *)
Theorem trial_call_closes_or_reopens {W : Type} `{Clock W} {A : Type}
    (func : Mon W A) (self : CircuitBreaker.t) (w : W) (t0 : Z) :
  breaker_consistent self ->
  CircuitBreaker.state self = CircuitBreaker.OPEN ->
  CircuitBreaker.last_failure_time self = Some t0 ->
  seconds (CircuitBreaker.recovery_timeout self) < now w - t0 ->
  (forall a w', func w = (Ret a, w') ->
     exists self',
       CircuitBreaker.call func (self, w) = (Ret a, (self', w')) /\
       CircuitBreaker.state self' = CircuitBreaker.CLOSED /\
       CircuitBreaker.failure_count self' = 0) /\
  (forall e w', func w = (Raise e, w') ->
     exists self',
       CircuitBreaker.call func (self, w) = (Raise e, (self', w')) /\
       CircuitBreaker.state self' = CircuitBreaker.OPEN /\
       CircuitBreaker.last_failure_time self' = Some (now w') /\
       forall (next : Mon W A) (w2 : W),
         now w2 - now w' <= seconds (CircuitBreaker.recovery_timeout self) ->
         CircuitBreaker.call next (self', w2)
         = (Raise (Exception "Circuit breaker is OPEN - service unavailable"), (self', w2))).
Proof.
  intros (Hcount & Hopen) Hst Hlast Hlate.
  destruct Hopen as (Hth & _); [by rewrite Hst|].
  split.
  - intros a w' Hf. rewrite (call_half_open func self w t0), call_through, Hf by done.
    eexists. by split_and!.
  - intros e w' Hf. rewrite (call_half_open func self w t0), call_through, Hf by done.
    simpl.
    destruct (CircuitBreaker.failure_count self + 1 >=? CircuitBreaker.failure_threshold self)
      eqn:Hge; [|rewrite Z.geb_leb in Hge; apply Z.leb_gt in Hge; lia].
    eexists. split; [reflexivity|]. split_and!; [done|done|].
    intros next w2 Hsoon. by apply (call_rejected next _ w2 (now w')).
Qed.

(** The agent's breaker, open since the time 900 s, at the time 1000 s:
    the trial call fails and the breaker is open again. *)
Lemma trial_call_closes_or_reopens_witness :
  let self := {| CircuitBreaker.failure_threshold := 5;
                 CircuitBreaker.recovery_timeout := 60;
                 CircuitBreaker.failure_count := 5;
                 CircuitBreaker.last_failure_time := Some (seconds 900);
                 CircuitBreaker.state := CircuitBreaker.OPEN |} in
  let w := Example.store_with (Example.session [] 0) (seconds 1000) in
  exists self',
    CircuitBreaker.call (raise (Exception "agent down") : Mon World unit) (self, w)
      = (Raise (Exception "agent down"), (self', w)) /\
    CircuitBreaker.state self' = CircuitBreaker.OPEN /\
    CircuitBreaker.last_failure_time self' = Some (seconds 1000).
Proof.
  intros self w.
  destruct (proj2 (trial_call_closes_or_reopens
                     (raise (Exception "agent down") : Mon World unit) self w (seconds 900)
                     ltac:(split; [simpl; lia | intros _; split; [simpl; lia | done]])
                     eq_refl eq_refl ltac:(reflexivity))
              (Exception "agent down") w eq_refl)
    as (self' & Hcall & Hstate & Hlast & _).
  exists self'. split_and!; [exact Hcall | exact Hstate | exact Hlast].
Defined.

(** X14.  Which calls an open breaker rejects.  A call on an open
    breaker is answered with the circuit-open exception, breaker and
    state untouched, exactly when the breaker has a time of last
    failure and at most [recovery_timeout] seconds have passed since:
    a call at exactly [recovery_timeout] seconds is still rejected, and
    an open breaker without a time of last failure lets the call
    through. *)
Theorem open_breaker_admission {W : Type} `{Clock W} {A : Type}
    (func : Mon W A) (self : CircuitBreaker.t) (w : W) :
  CircuitBreaker.state self = CircuitBreaker.OPEN ->
  CircuitBreaker.call func (self, w)
    = (Raise (Exception "Circuit breaker is OPEN - service unavailable"), (self, w))
  <->
  exists t0, CircuitBreaker.last_failure_time self = Some t0 /\
             now w - t0 <= seconds (CircuitBreaker.recovery_timeout self).
Proof.
  intros Hst. split.
  - intros Hcall.
    assert (CircuitBreaker.call func (CircuitBreaker.set_state self CircuitBreaker.HALF_OPEN, w)
            <> (Raise (Exception "Circuit breaker is OPEN - service unavailable"), (self, w)))
      as Hthrough.
    { rewrite call_through by done. destruct (func w) as [[a|e] w']; [done|]. simpl.
      destruct (_ >=? _); intros [= _ Hself _]; rewrite <- Hself in Hst; simpl in Hst.
      - apply (f_equal CircuitBreaker.failure_count) in Hself. simpl in Hself. lia.
      - done. }
    destruct (CircuitBreaker.last_failure_time self) as [t0|] eqn:El.
    + destruct (Z_lt_le_dec (seconds (CircuitBreaker.recovery_timeout self)) (now w - t0))
        as [Hlate|Hearly]; [|by exists t0].
      rewrite (call_half_open func self w t0) in Hcall by done. done.
    + rewrite (call_reset_without_time func self w) in Hcall by done. done.
  - intros (t0 & Hlast & Hearly). by apply (call_rejected func self w t0).
Qed.

(** The agent's breaker exactly sixty seconds after the failure. *)
Lemma open_breaker_admission_witness :
  let self := {| CircuitBreaker.failure_threshold := 5;
                 CircuitBreaker.recovery_timeout := 60;
                 CircuitBreaker.failure_count := 5;
                 CircuitBreaker.last_failure_time := Some (seconds 940);
                 CircuitBreaker.state := CircuitBreaker.OPEN |} in
  let w := Example.store_with (Example.session [] 0) (seconds 1000) in
  CircuitBreaker.call (ret tt : Mon World unit) (self, w)
  = (Raise (Exception "Circuit breaker is OPEN - service unavailable"), (self, w)).
Proof.
  intros self w.
  apply (proj2 (open_breaker_admission (ret tt : Mon World unit) self w eq_refl)).
  exists (seconds 940). split; [reflexivity|]. vm_compute. discriminate.
Defined.

(* ===================================================================== *)
(** * Further properties of the orchestrator *)
(* ===================================================================== *)

Section Frames.
Import SessionService.
Implicit Types (self : SessionService.t) (w : World).

Lemma silent_ret {A} (a : A) : silent (ret a).
Proof. by intros w r w' [= _ <-]. Qed.

Lemma silent_raise {A} (e : exn) : silent (raise e : M A).
Proof. by intros w r w' [= _ <-]. Qed.

Lemma silent_gets {A} (f : World -> A) : silent (gets f).
Proof. by intros w r w' [= _ <-]. Qed.

Lemma silent_bind {A B} (m : M A) (k : A -> M B) :
  silent m -> (forall a, silent (k a)) -> silent (bind m k).
Proof.
  intros Hm Hk w r w' Hb.
  apply bind_inv in Hb as [(a & w1 & Hm1 & Hk1)|(e & Hm1 & _)].
  - apply Hm in Hm1 as (? & ?). apply Hk in Hk1 as (? & ?). split; congruence.
  - by apply Hm in Hm1.
Qed.

Lemma silent_try_except {A} (m : M A) (h : exn -> M A) :
  silent m -> (forall e, silent (h e)) -> silent (try_except m h).
Proof.
  intros Hm Hh w r w' Hb.
  apply try_except_inv in Hb as [(a & Hm1 & _)|(e & w1 & Hm1 & Hh1)].
  - by apply Hm in Hm1.
  - apply Hm in Hm1 as (? & ?). apply Hh in Hh1 as (? & ?). split; congruence.
Qed.

Lemma silent_boto_request {A} (op : gmap string Item -> A * gmap string Item) :
  silent (boto_request op).
Proof.
  intros w r w'. unfold boto_request.
  destruct (faults w (boto_calls w)); [by intros [= _ <-]|].
  destruct (table w) as [items|]; [|by intros [= _ <-]].
  destruct (op items). by intros [= _ <-].
Qed.


Lemma silent_pure {A} (m : M A) : (forall w, snd (m w) = w) -> silent m.
Proof. intros Hp w r w' Hm. specialize (Hp w). rewrite Hm in Hp. simpl in Hp. by subst. Qed.

Lemma silent_store_session self (s : Session.t) : silent (_store_session self s).
Proof.
  apply silent_bind; [apply silent_gets|]. intros [items|]; [|apply silent_ret].
  apply silent_try_except; [apply silent_boto_request | intros e; apply silent_raise].
Qed.

Lemma silent_get_session_from_db self (sid : string) : silent (_get_session_from_db self sid).
Proof.
  apply silent_bind; [apply silent_gets|]. intros [items|]; [|apply silent_ret].
  apply silent_try_except; [apply silent_boto_request|].
  intros e. destruct (is_boto_error e); [apply silent_ret | apply silent_raise].
Qed.

Lemma silent_get_session self (sid uid : string) : silent (get_session self sid uid).
Proof.
  apply silent_try_except; [|intros e; apply silent_ret].
  apply silent_bind; [apply silent_get_session_from_db|]. intros [item|]; [|apply silent_ret].
  apply silent_bind; [apply silent_pure, session_from_dict_pure|]. intros s.
  destruct (negb _); [apply silent_ret|].
  apply silent_bind; [apply silent_bind; [apply silent_gets | intros; apply silent_ret]|].
  intros [|]; [|apply silent_ret].
  apply silent_bind; [apply silent_store_session | intros; apply silent_ret].
Qed.

Lemma silent_update_session self (s : Session.t) : silent (update_session self s).
Proof.
  apply silent_try_except; [|intros e; apply silent_ret].
  apply silent_bind; [apply silent_store_session | intros; apply silent_ret].
Qed.

Lemma silent_add_message_to_session self (sid uid : string) (m : Message.t) :
  silent (add_message_to_session self sid uid m).
Proof.
  apply silent_try_except; [|intros e; apply silent_ret].
  apply silent_bind; [apply silent_get_session|]. intros [s|]; [|apply silent_ret].
  apply silent_bind; [apply silent_pure, add_message_pure|]. intros s'.
  apply silent_update_session.
Qed.

Lemma silent_get_conversation_history self (sid uid : string) (limit : Z) :
  silent (get_conversation_history self sid uid limit).
Proof.
  apply silent_try_except; [|intros e; apply silent_ret].
  apply silent_bind; [apply silent_get_session|]. intros [s|]; apply silent_ret.
Qed.



Lemma sending_nil w : sending [] w = w.
Proof. unfold sending. rewrite app_nil_r. by destruct w. Qed.

Lemma sending_cons (fragment : Fragment.t) (fragments : list Fragment.t) w :
  sending (fragment :: fragments) w = sending fragments (sending [fragment] w).
Proof. unfold sending. simpl. by rewrite <- app_assoc. Qed.

Lemma append_assoc (a b c : string) : (a +:+ b) +:+ c = a +:+ (b +:+ c).
Proof.
  induction a as [|x a IH]; [done|].
  change (String x ((a +:+ b) +:+ c) = String x (a +:+ b +:+ c)). by rewrite IH.
Qed.

Lemma append_empty_r (a : string) : a +:+ EmptyString = a.
Proof.
  induction a as [|x a IH]; [done|].
  change (String x (a +:+ EmptyString) = String x a). by rewrite IH.
Qed.

Lemma forward_chunks_run (chunks : list string) (response_content : string) w :
  forward_chunks chunks response_content w
  = (Ret (response_content +:+ concat_chunks chunks),
     sending (map (chunk_fragment (clock w)) chunks) w).
Proof.
  revert response_content w. induction chunks as [|chunk chunks IH]; intros acc w.
  - simpl. by rewrite append_empty_r, sending_nil.
  - simpl forward_chunks. unfold bind at 1. unfold _create_streaming_response.
    unfold bind at 1. unfold datetime_now, gets. unfold ret at 1.
    unfold bind at 1. unfold yield, modify.
    rewrite IH. simpl map. rewrite (sending_cons _ _ w). simpl concat_chunks.
    by rewrite append_assoc.
Qed.

End Frames.

(** X15.  A stream is forwarded chunk by chunk.  Every chunk is yielded
    as a streaming fragment of type "response", in the order of the
    stream and stamped with the current time, and nothing else of the
    state changes.  The value is the text of all chunks joined; when
    the stream ends in an exception, the chunks that came before it
    have been yielded and the exception is raised. *)
Theorem stream_is_forwarded (chunks : list string) (ending : option exn) (w : World) :
  forward_stream (chunks, ending) w
  = (match ending with
     | Some e => Raise e
     | None => Ret (concat_chunks chunks)
     end,
     sending (map (chunk_fragment (clock w)) chunks) w).
Proof.
  unfold forward_stream, bind. simpl. rewrite forward_chunks_run. by destruct ending.
Qed.





(* ===================================================================== *)
(** * Further properties of the agent service and its responses *)
(* ===================================================================== *)

Section AgentMore.
Implicit Types (w : World).

Lemma is_empty_false (s : string) : s <> "" -> Py.is_empty s = false.
Proof. by destruct s. Qed.

(** The error response of an agent with an identifier. *)
Lemma create_error_response_run (agent_id error_message : string) w :
  agent_id <> "" ->
  AgentResponse.create_error_response agent_id error_message w
  = (Ret {| AgentResponse.agent_id := agent_id;
            AgentResponse.response_type := AgentResponseType.ERROR;
            AgentResponse.data := [("error_message", VStr error_message)];
            AgentResponse.location := "Birmingham, Alabama";
            AgentResponse.timestamp := clock w |}, w).
Proof.
  intros Hid. unfold AgentResponse.create_error_response, AgentResponse.new,
    AgentResponse.__post_init__, bind, datetime_now, gets, now, World_clock. simpl.
  rewrite (is_empty_false _ Hid).
  by rewrite Z.gtb_ltb, Z.ltb_irrefl.
Qed.

Lemma dict_mem_get (d : pydict) (key : string) :
  Dict.mem key d = true -> exists v, Dict.get d key = Some v.
Proof. unfold Dict.mem. destruct (Dict.get d key); [eauto | done]. Qed.

Lemma dict_item_get {W} (d : pydict) (key : string) (v : pyval) (w : W) :
  Dict.get d key = Some v -> Dict.item d key w = (Ret v, w).
Proof. unfold Dict.item. by intros ->. Qed.

Lemma filter_nil_all {A} (f : A -> bool) (l : list A) :
  filter f l = [] -> forall x, In x l -> f x = false.
Proof.
  induction l as [|a l IH]; [done|]. rewrite filter_cons.
  case_decide as Hd; [done|].
  intros Hnil x [<-|Hin]; [by apply Is_true_false_1 | by apply IH].
Qed.

(** Validation has found every required field. *)
Lemma validated_fields (self : AgentResponse.t) w w' :
  AgentResponse._validate_response_data self w = (Ret tt, w') ->
  forall field, In field (AgentResponse.required_fields (AgentResponse.response_type self)) ->
                exists v, Dict.get (AgentResponse.data self) field = Some v.
Proof.
  unfold AgentResponse._validate_response_data. intros Hv field Hin.
  apply dict_mem_get.
  assert (filter (fun field => negb (Dict.mem field (AgentResponse.data self)))
            (AgentResponse.required_fields (AgentResponse.response_type self)) = []) as Hnil.
  { destruct (AgentResponse.response_type self); try done;
      by destruct (filter _ _). }
  apply (filter_nil_all _ _ Hnil) in Hin. by apply negb_false_iff in Hin.
Qed.

Lemma post_init_validated (self : AgentResponse.t) w w' :
  AgentResponse.__post_init__ self w = (Ret tt, w') ->
  AgentResponse._validate_response_data self w = (Ret tt, w').
Proof.
  unfold AgentResponse.__post_init__. destruct (Py.is_empty _); [done|].
  destruct (AgentResponse.data self); [done|].
  unfold bind, datetime_now, gets. by destruct (_ >? _).
Qed.

End AgentMore.

(** X18.  The agent service answers every command.  For an agent with
    an identifier [invoke_agent] never raises.  A command that is none
    of the twelve known words, once lowered and stripped, is answered,
    without a call to the agent, by an error response; for a command in
    ASCII the response names the lowered and stripped command.  The
    command "all" (or "all_info", "everything"), when no part of the
    agent's information was obtained, is answered by the error response
    "Failed to invoke agent: data cannot be empty". *)
Theorem invoke_agent_always_answers (self : AgentService.t) (command : string) (w : World) :
  AgentService.agent_id self <> "" ->
  (exists response w', AgentService.invoke_agent self command w = (Ret response, w')) /\
  (str_in (Py.strip (Py.lower command)) agent_vocabulary = false ->
   exists response,
     AgentService.invoke_agent self command w = (Ret response, w) /\
     AgentResponse.is_successful response = false /\
     (Py.isascii command = true ->
      AgentResponse.data response
      = [("error_message",
          VStr ("Unknown command: " +:+ Py.strip (Py.lower command)
                  +:+ ". Available commands: time, date, weather, all"))])) /\
  (forall all_responses w1,
     str_in (Py.strip (Py.lower command)) ["all"; "all_info"; "everything"] = true ->
     AgentService.get_all_info self w = (Ret all_responses, w1) ->
     (forall key, AgentService.successful_data all_responses key = None) ->
     exists response,
       AgentService.invoke_agent self command w = (Ret response, w1) /\
       AgentResponse.is_successful response = false /\
       AgentResponse.data response
       = [("error_message", VStr "Failed to invoke agent: data cannot be empty")]).
Proof.
  intros Hid. split_and!.
  - unfold AgentService.invoke_agent, try_except.
    destruct (_ w) as [[response|e] w1]; [by eauto|].
    rewrite create_error_response_run by done. eauto.
  - intros Hunknown. unfold AgentService.invoke_agent, try_except.
    unfold agent_vocabulary, str_in in Hunknown. simpl in Hunknown.
    repeat (apply orb_false_elim in Hunknown as [? Hunknown]).
    unfold str_in. simpl.
    repeat match goal with H : String.eqb _ _ = false |- _ => rewrite H; clear H end.
    simpl. rewrite create_error_response_run by done.
    eexists. split; [reflexivity|]. split; [done|]. by intros _.
  - intros all_responses w1 Hall Hget Hnone.
    unfold AgentService.invoke_agent, try_except.
    assert (Py.strip (Py.lower command) = "all" \/ Py.strip (Py.lower command) = "all_info" \/
            Py.strip (Py.lower command) = "everything") as Hcmd.
    { unfold str_in in Hall. simpl in Hall.
      repeat (apply orb_prop in Hall as [Hall|Hall]);
        try (apply String.eqb_eq in Hall; rewrite <- Hall; tauto). done. }
    assert (forall k : AgentResponse.t -> M AgentResponse.t,
              (all_responses <- AgentService.get_all_info self ;;
               AgentResponse.create_combined_response (AgentService.agent_id self)
                 (AgentService.successful_data all_responses "time")
                 (AgentService.successful_data all_responses "date")
                 (AgentService.successful_data all_responses "weather")) w
              = (Raise (ValueError "data cannot be empty"), w1)) as Hbody.
    { intros _. unfold bind at 1. rewrite Hget. rewrite !Hnone.
      unfold AgentResponse.create_combined_response, AgentResponse.add_part,
        AgentResponse.new, AgentResponse.__post_init__, bind, datetime_now, gets. simpl.
      by rewrite (is_empty_false _ Hid). }
    specialize (Hbody (fun r => ret r)).
    destruct Hcmd as [->|[->| ->]]; simpl; rewrite Hbody;
      rewrite create_error_response_run by done; eauto.
Qed.

(** An unknown command in upper case, with blanks around it. *)
Lemma invoke_agent_always_answers_witness :
  exists response,
    AgentService.invoke_agent Example.agent "  Tell Me A JOKE  " Example.fresh
      = (Ret response, Example.fresh) /\
    AgentResponse.is_successful response = false /\
    AgentResponse.data response
    = [("error_message",
        VStr "Unknown command: tell me a joke. Available commands: time, date, weather, all")].
Proof.
  destruct (proj1 (proj2 (invoke_agent_always_answers Example.agent "  Tell Me A JOKE  "
                            Example.fresh ltac:(done))) eq_refl)
    as (response & Hrun & Hfail & Hdata).
  exists response. split_and!; [exact Hrun | exact Hfail | exact (Hdata eq_refl)].
Defined.

(** X19.  A validated response can be formatted.  For a response that
    passed the checks of [__post_init__], [get_formatted_response]
    returns a text and raises no [KeyError], whatever the type of the
    response. *)
Theorem validated_response_is_formatted (self : AgentResponse.t) (w w' : World) :
  AgentResponse.__post_init__ self w = (Ret tt, w') ->
  exists text, forall w0, get_formatted_response self w0 = (Ret text, w0).
Proof.
  intros Hpost. apply post_init_validated in Hpost.
  pose proof (validated_fields self w w' Hpost) as Hfields.
  unfold get_formatted_response.
  destruct (AgentResponse.response_type self) eqn:Et; simpl in Hfields.
  - destruct (Hfields "time") as (v1 & H1); [tauto|].
    destruct (Hfields "timezone") as (v2 & H2); [tauto|].
    eexists. intros w0. unfold bind.
    rewrite (dict_item_get _ _ _ w0 H1), (dict_item_get _ _ _ w0 H2). reflexivity.
  - destruct (Hfields "date") as (v1 & H1); [tauto|].
    destruct (Hfields "day_of_week") as (v2 & H2); [tauto|].
    eexists. intros w0. unfold bind.
    rewrite (dict_item_get _ _ _ w0 H2), (dict_item_get _ _ _ w0 H1). reflexivity.
  - destruct (Hfields "temperature") as (v1 & H1); [tauto|].
    destruct (Hfields "condition") as (v2 & H2); [tauto|].
    eexists. intros w0. unfold bind.
    rewrite (dict_item_get _ _ _ w0 H1), (dict_item_get _ _ _ w0 H2). reflexivity.
  - destruct (match dict_at (AgentResponse.data self) "weather" with
              | Some _ => _ | None => _ end) eqn:Ep; eexists; intros w0; reflexivity.
  - destruct (Hfields "error_message") as (v1 & H1); [tauto|].
    eexists. intros w0. unfold bind.
    rewrite (dict_item_get _ _ _ w0 H1). reflexivity.
Qed.

Lemma validated_response_is_formatted_witness :
  exists text, forall w0, get_formatted_response Example.weather_response w0 = (Ret text, w0).
Proof.
  apply (validated_response_is_formatted Example.weather_response Example.fresh Example.fresh).
  reflexivity.
Defined.

(** X20.  The conversation history is read through [get_session].
    [get_conversation_history] never raises; it returns the empty list,
    or the most recent messages of the record stored under the session
    id, and that only when the record is owned by the reader. *)
Theorem history_is_read_by_the_owner (self : SessionService.t) (w : World)
    (session_id user_id : string) (limit : Z) :
  exists history w',
    SessionService.get_conversation_history self session_id user_id limit w
      = (Ret history, w') /\
    (history = [] \/
     exists item,
       (table w ≫= (.!! session_id)) = Some item /\
       Session.user_id (item_data item) = user_id /\
       history = Session.get_recent_messages (item_data item) limit).
Proof.
  unfold SessionService.get_conversation_history, try_except.
  destruct (get_session_total self session_id user_id w) as (found & w1 & Hget).
  unfold bind. rewrite Hget.
  destruct found as [s|]; [|eexists _, _; split; [reflexivity | by left]].
  eexists _, _. split; [reflexivity|]. right.
  destruct (get_session_cases self session_id user_id w w1 (Some s) Hget)
    as (_ & _ & Hs).
  destruct (Hs s eq_refl) as (_ & (ttl & Hitem) & Howner & _).
  by eexists.
Qed.

Section Turns.
Implicit Types (w : World).

Lemma strip_nonempty (s : string) : Py.strip s <> "" -> s <> "".
Proof. by intros Hs ->. Qed.

(** A message made at the current time from a text that passes the
    validation. *)
Lemma message_new_run (sid content : string) (mt : MessageType) (metadata : pydict) w :
  sid <> "" -> Py.strip content <> "" -> Py.len content <= 10000 ->
  Message.new sid content mt (clock w) metadata w
  = (Ret {| Message.message_id := fst (fresh_uuid w); Message.session_id := sid;
            Message.content := content; Message.message_type := mt;
            Message.timestamp := clock w; Message.metadata := metadata |},
     snd (fresh_uuid w)).
Proof.
  intros Hsid Hcontent Hlen. unfold Message.new. unfold bind at 1. rewrite uuid4_eq.
  unfold Message.__post_init__, bind, datetime_now, gets, now, World_clock. simpl.
  rewrite (is_empty_false _ Hsid), (is_empty_false _ Hcontent).
  cbn [clock]. rewrite (gtb_false (clock w) (clock w)) by lia.
  by rewrite gtb_false by lia.
Qed.

Lemma forward_stream_run (chunks : list string) (ending : option exn) w :
  forward_stream (chunks, ending) w
  = (match ending with
     | Some e => Raise e
     | None => Ret (concat_chunks chunks)
     end,
     sending (map (chunk_fragment (clock w)) chunks) w).
Proof.
  unfold forward_stream, bind. simpl. rewrite forward_chunks_run. by destruct ending.
Qed.

End Turns.

(** X21.  A general question is answered and the answer is stored.  For
    a stored, valid, live session of the caller, a store that answers,
    and a model whose stream for the message and the last ten messages
    of the history ends normally with a text that is not blank and not
    longer than 10000 characters: [_handle_general_ai_query] yields the
    status "Thinking..." and then one streaming fragment per chunk, and
    appends to the stored history one assistant message with the whole
    text, made at the current time. *)
Theorem general_turn_is_stored (self : IntegrationService.t) (w : World)
    (items : gmap string Item) (s : Session.t) (ttl : Z)
    (user_message : string) (user_context : UserContext.t) (chunks : list string) :
  table w = Some items ->
  items !! Session.session_id s = Some {| item_data := s; item_ttl := ttl |} ->
  Session.user_id s = UserContext.user_id user_context ->
  Session.session_id s <> "" ->
  valid_session (clock w) s ->
  clock w - Session.last_activity s
    <= seconds (SessionService.session_timeout_hours (session_service self) * 3600) ->
  faults w (boto_calls w) = None ->
  faults w (S (boto_calls w)) = None ->
  faults w (S (S (boto_calls w))) = None ->
  BedrockService.generate_response (bedrock_service self) user_message
    (Session.get_recent_messages s 10) = (chunks, None) ->
  Py.strip (concat_chunks chunks) <> "" ->
  Py.len (concat_chunks chunks) <= 10000 ->
  exists w' stored message,
    _handle_general_ai_query self s user_message user_context w = (Ret tt, w') /\
    sent w' = sent w ++ status_fragment (clock w) "Thinking..."
                          :: map (chunk_fragment (clock w)) chunks /\
    (table w' ≫= (.!! Session.session_id s)) = Some stored /\
    Session.conversation_history (item_data stored)
      = trimmed (SessionService.max_conversation_history (session_service self))
          (Session.conversation_history s ++ [message]) /\
    Session.last_activity (item_data stored) = clock w /\
    Message.content message = concat_chunks chunks /\
    Message.message_type message = ASSISTANT /\
    Message.session_id message = Session.session_id s /\
    Message.timestamp message = clock w.
Proof.
  intros Ht Hl Howner Hsid Hv Hlive Hf1 Hf2 Hf3 Hstream Hcontent Hlen.
  unfold _handle_general_ai_query.
  unfold bind at 1. unfold _create_status_response, bind at 1, datetime_now, gets at 1.
  unfold ret at 1. unfold bind at 1. unfold yield, modify.
  set (w1 := {| clock := clock w; sent := sent w ++ _ |}).
  unfold bind at 1. unfold SessionService.get_conversation_history, try_except.
  unfold bind at 1. rewrite <- Howner.
  rewrite (get_session_found _ _ w1 items s ttl) by done.
  rewrite gtb_false by done.
  unfold ret at 1. rewrite Hstream.
  unfold bind at 1. rewrite forward_stream_run.
  set (w3 := sending _ _). cbv beta iota. unfold Py.truthy.
  rewrite (proj2 (negb_true_iff _) (is_empty_false _ (strip_nonempty _ Hcontent))).
  unfold bind at 1. unfold BedrockService.create_assistant_message.
  unfold bind at 1. unfold datetime_now, gets at 1.
  change (now w3) with (clock w3).
  rewrite (message_new_run _ _ _ _ w3) by done.
  unfold bind at 1.
  erewrite (add_message_to_session_run _ _ (snd (fresh_uuid w3)) items s ttl);
    [|done..].
  eexists _, _, _. split; [reflexivity|].
  split; [simpl; by rewrite <- app_assoc|].
  split; [simpl; by rewrite lookup_insert_eq|].
  simpl. by split_and!.
Qed.

(** The stored session "s1" and a model that answers "Hello". *)
Lemma general_turn_is_stored_witness :
  exists w',
    _handle_general_ai_query Example.service (Example.session [Example.message 1] 900)
      "hi there" Example.user (Example.store_with (Example.session [Example.message 1] 900) 1000)
    = (Ret tt, w') /\
    sent w' = [status_fragment 1000 "Thinking..."; chunk_fragment 1000 "Hello"].
Proof.
  destruct (general_turn_is_stored Example.service
              (Example.store_with (Example.session [Example.message 1] 900) 1000)
              {[ "s1" := {| item_data := Example.session [Example.message 1] 900;
                            item_ttl := 0 |} ]}
              (Example.session [Example.message 1] 900) 0 "hi there" Example.user ["Hello"])
    as (w' & stored & message & Hrun & Hsent & _).
  - reflexivity.
  - reflexivity.
  - reflexivity.
  - done.
  - split_and!; [done | simpl; lia | simpl; lia |].
    repeat constructor; try done; simpl; lia.
  - vm_compute. discriminate.
  - reflexivity.
  - reflexivity.
  - reflexivity.
  - reflexivity.
  - done.
  - vm_compute. discriminate.
  - exists w'. split; [exact Hrun | exact Hsent].
Defined.

Section TurnsMore.
Implicit Types (w : World).

Lemma get_conversation_history_total (self : SessionService.t) (sid uid : string)
    (limit : Z) w :
  exists h w', SessionService.get_conversation_history self sid uid limit w = (Ret h, w').
Proof. apply try_except_total. Qed.

Lemma sent_sending (fragments : list Fragment.t) w :
  sent (sending fragments w) = sent w ++ fragments.
Proof. reflexivity. Qed.

(** A write that reported success has put the record into the table. *)
Lemma update_session_stored (self : SessionService.t) (s : Session.t) w w'
    (items : gmap string Item) :
  table w = Some items ->
  SessionService.update_session self s w = (Ret true, w') ->
  exists ttl,
    table w' = Some (<[Session.session_id s := {| item_data := s; item_ttl := ttl |}]> items).
Proof.
  intros Ht. unfold SessionService.update_session, try_except.
  unfold bind at 1. unfold SessionService._store_session, bind at 1, gets. rewrite Ht.
  unfold try_except, put_item, boto_request. rewrite Ht.
  destruct (faults w (boto_calls w)); [done|]. simpl. intros [= <-]. by eexists.
Qed.

End TurnsMore.

(** X22.  How a general question ends.  Whatever the store does,
    [_handle_general_ai_query] yields the status "Thinking..." and one
    streaming fragment per chunk of the model's stream, and nothing
    else.  It raises the exception that ends the stream; it returns
    without raising when the text is empty; it raises the [ValueError]
    of the message's validation when the text is blank or longer than
    10000 characters; otherwise it returns, whether the append
    succeeded or not. *)
Theorem general_turn_outcome (self : IntegrationService.t) (w : World) (s : Session.t)
    (user_message : string) (user_context : UserContext.t)
    (chunks : list string) (ending : option exn) :
  Session.session_id s <> "" ->
  (forall history,
      BedrockService.generate_response (bedrock_service self) user_message history
      = (chunks, ending)) ->
  exists w',
    _handle_general_ai_query self s user_message user_context w
    = (match ending with
       | Some e => Raise e
       | None =>
           if Py.is_empty (concat_chunks chunks) then Ret tt
           else if Py.is_empty (Py.strip (concat_chunks chunks))
           then Raise (ValueError "content cannot be empty")
           else if Py.len (concat_chunks chunks) >? 10000
           then Raise (ValueError "content exceeds maximum length of 10000 characters")
           else Ret tt
       end, w') /\
    sent w' = sent w ++ status_fragment (clock w) "Thinking..."
                          :: map (chunk_fragment (clock w)) chunks.
Proof.
  intros Hsid Hstream.
  unfold _handle_general_ai_query.
  unfold bind at 1. unfold _create_status_response, bind at 1, datetime_now, gets at 1.
  unfold ret at 1. unfold bind at 1. unfold yield, modify.
  set (w1 := {| clock := clock w; sent := sent w ++ _ |}).
  destruct (get_conversation_history_total (session_service self) (Session.session_id s)
              (UserContext.user_id user_context) 10 w1) as (h & w2 & Hh).
  pose proof (silent_get_conversation_history _ _ _ _ _ _ _ Hh) as (Hs2 & Hc2).
  unfold bind at 1. rewrite Hh, Hstream.
  unfold bind at 1. rewrite forward_stream_run.
  set (w3 := sending _ _).
  assert (sent w3 = sent w ++ status_fragment (clock w) "Thinking..."
                              :: map (chunk_fragment (clock w)) chunks) as Hs3.
  { subst w3. rewrite sent_sending, Hs2, Hc2. subst w1. simpl. by rewrite <- app_assoc. }
  assert (clock w3 = clock w) as Hc3 by (subst w3; simpl; by rewrite Hc2).
  destruct ending as [e|]; [by exists w3|].
  unfold Py.truthy.
  destruct (Py.is_empty (concat_chunks chunks)) eqn:Ee; simpl; [by exists w3|].
  unfold bind at 1. unfold BedrockService.create_assistant_message.
  unfold bind at 1. unfold datetime_now, gets at 1.
  unfold Message.new. unfold bind at 1. rewrite uuid4_eq.
  unfold bind at 1.
  unfold Message.__post_init__, bind at 1, datetime_now, gets, now, World_clock.
  cbn [Message.session_id Message.content Message.timestamp fst snd fresh_uuid World_uuid
       clock].
  rewrite (is_empty_false _ Hsid).
  destruct (Py.is_empty (Py.strip (concat_chunks chunks))) eqn:Eb.
  { eexists. split; [reflexivity|]. by simpl. }
  cbn [clock]. rewrite (gtb_false (clock w3) (clock w3)) by lia.
  destruct (Py.len (concat_chunks chunks) >? 10000) eqn:El.
  { eexists. split; [reflexivity|]. by simpl. }
  unfold ret at 1. unfold ret at 1. unfold bind.
  match goal with
  | |- context [SessionService.add_message_to_session ?a ?b ?c ?d ?e] =>
      destruct (add_message_to_session_total a b c d e) as (ok & w5 & Hadd);
      pose proof (silent_add_message_to_session a b c d e _ _ Hadd) as (Hs5 & _);
      rewrite Hadd
  end.
  exists w5. split; [reflexivity|]. by rewrite Hs5.
Qed.

(** A model whose stream breaks after the first chunk; one that answers
    with a no-break space and an ideographic space, which is blank; one
    that answers with 10001 letters, and one with 10000. *)
Lemma general_turn_outcome_witness :
  (exists w',
     _handle_general_ai_query
       (Example.service_answering (["Hel"], Some (Exception "stream broken")))
       (Example.session [] 900) "hi there" Example.user Example.fresh
     = (Raise (Exception "stream broken"), w') /\
     sent w' = [status_fragment 1000 "Thinking..."; chunk_fragment 1000 "Hel"]) /\
  (exists w',
     _handle_general_ai_query
       (Example.service_answering
          ([Example.no_break_space; Example.ideographic_space], None))
       (Example.session [] 900) "hi there" Example.user Example.fresh
     = (Raise (ValueError "content cannot be empty"), w')) /\
  (exists w',
     _handle_general_ai_query
       (Example.service_answering ([Example.letters (Z.to_nat 10000); "a"], None))
       (Example.session [] 900) "hi there" Example.user Example.fresh
     = (Raise (ValueError "content exceeds maximum length of 10000 characters"), w')) /\
  (exists w',
     _handle_general_ai_query
       (Example.service_answering ([Example.letters (Z.to_nat 10000)], None))
       (Example.session [] 900) "hi there" Example.user Example.fresh
     = (Ret tt, w')).
Proof.
  split_and!.
  - apply (general_turn_outcome
             (Example.service_answering (["Hel"], Some (Exception "stream broken")))
             Example.fresh (Example.session [] 900) "hi there"
             Example.user ["Hel"] (Some (Exception "stream broken"))); done.
  - destruct (general_turn_outcome
                (Example.service_answering
                   ([Example.no_break_space; Example.ideographic_space], None))
                Example.fresh (Example.session [] 900) "hi there" Example.user
                [Example.no_break_space; Example.ideographic_space] None
                ltac:(done) ltac:(done)) as (w' & Hrun & _).
    exists w'. rewrite Hrun. f_equal.
  - destruct (general_turn_outcome
                (Example.service_answering ([Example.letters (Z.to_nat 10000); "a"], None))
                Example.fresh (Example.session [] 900) "hi there" Example.user
                [Example.letters (Z.to_nat 10000); "a"] None
                ltac:(done) ltac:(done)) as (w' & Hrun & _).
    exists w'. rewrite Hrun. f_equal.
  - destruct (general_turn_outcome
                (Example.service_answering ([Example.letters (Z.to_nat 10000)], None))
                Example.fresh (Example.session [] 900) "hi there" Example.user
                [Example.letters (Z.to_nat 10000)] None
                ltac:(done) ltac:(done)) as (w' & Hrun & _).
    exists w'. rewrite Hrun. f_equal.
Defined.

(** X23.  Switching the knowledge base never raises: the caller gets a
    status fragment or an error fragment.  When the lookup of the
    knowledge base leaves the state alone, a status fragment means that
    the caller's session was found under the session id and is now
    stored with the new knowledge base id. *)
Theorem switch_knowledge_base_reports (self : IntegrationService.t) (w : World)
    (get_knowledge_base : string -> UserContext.t -> M (option string))
    (session_id knowledge_base_id : string) (user_context : UserContext.t) :
  exists fragment w',
    switch_knowledge_base self get_knowledge_base session_id knowledge_base_id user_context w
      = (Ret fragment, w') /\
    (Fragment.type fragment = "error" \/
     (Fragment.type fragment = "status" /\
      ((forall w0, snd (get_knowledge_base knowledge_base_id user_context w0) = w0) ->
       exists s ttl ttl',
         (table w ≫= (.!! session_id)) = Some {| item_data := s; item_ttl := ttl |} /\
         Session.user_id s = UserContext.user_id user_context /\
         (table w' ≫= (.!! Session.session_id s))
         = Some {| item_data := Session.set_knowledge_base_id s (Some knowledge_base_id);
                   item_ttl := ttl' |}))).
Proof.
  unfold switch_knowledge_base, try_except.
  destruct (get_session_total (session_service self) session_id
              (UserContext.user_id user_context) w) as (found & w1 & Hget).
  unfold bind at 1. rewrite Hget.
  destruct found as [s|]; [|eexists _, _; split; [reflexivity | by left]].
  destruct (get_session_cases _ _ _ _ _ _ Hget) as (_ & _ & Hs).
  destruct (Hs s eq_refl) as (Ht1 & (ttl & Hitem) & Howner & _).
  unfold bind at 1.
  destruct (get_knowledge_base knowledge_base_id user_context w1) as [[kb|e] w2] eqn:Hkb;
    [|eexists _, _; split; [reflexivity | by left]].
  destruct kb as [kb_name|]; [|eexists _, _; split; [reflexivity | by left]].
  destruct (update_session_total (session_service self)
              (Session.set_knowledge_base_id s (Some knowledge_base_id)) w2)
    as (success & w3 & Hup).
  unfold bind at 1. rewrite Hup.
  destruct success; [|eexists _, _; split; [reflexivity | by left]].
  eexists _, _. split; [reflexivity|]. right. split; [done|].
  intros Hpure. specialize (Hpure w1). rewrite Hkb in Hpure. simpl in Hpure. subst w2.
  destruct (table w) as [items|] eqn:Et; [|done]. simpl in Hitem.
  destruct (update_session_stored _ _ _ _ items (eq_trans Ht1 eq_refl) Hup) as (ttl' & Ht3).
  exists s, ttl, ttl'. split_and!; [done|done|].
  simpl. rewrite Ht3. simpl. by rewrite lookup_insert_eq.
Qed.

Lemma switch_knowledge_base_reports_witness :
  exists fragment w',
    switch_knowledge_base Example.service (fun _ _ => ret (Some "Handbook")) "s1" "kb-7"
      Example.user (Example.store_with (Example.session [] 900) 1000)
    = (Ret fragment, w') /\
    Fragment.content fragment = "Switched to knowledge base: Handbook" /\
    exists ttl',
      (table w' ≫= (.!! "s1"))
      = Some {| item_data := Session.set_knowledge_base_id (Example.session [] 900)
                               (Some "kb-7");
                item_ttl := ttl' |}.
Proof.
  destruct (switch_knowledge_base_reports Example.service
              (Example.store_with (Example.session [] 900) 1000)
              (fun _ _ => ret (Some "Handbook")) "s1" "kb-7" Example.user)
    as (fragment & w' & Hrun & Hcases).
  exists fragment, w'. split; [exact Hrun|].
  assert (Fragment.content fragment = "Switched to knowledge base: Handbook") as Hcontent.
  { revert Hrun. vm_compute. by intros [= <- _]. }
  split; [exact Hcontent|].
  destruct Hcases as [Herr|(_ & Hstored)].
  - exfalso. revert Hrun Herr. vm_compute. intros [= <- _]. discriminate.
  - destruct (Hstored ltac:(done)) as (s & ttl & ttl' & Hitem & _ & Hnew).
    assert (s = Example.session [] 900) as ->.
    { revert Hitem. vm_compute. by intros [= <- _]. }
    exists ttl'. exact Hnew.
Defined.

(* ===================================================================== *)
(** * The agent metrics *)
(* ===================================================================== *)

Section Monitoring.
Context {float : Type}.
Variable mean : list float -> float.
Variable percentage : Z -> Z -> float.
Variable zero hundred : float.

Implicit Types (metrics : gmap string (@AgentMonitoring.AgentMetrics float)).

Lemma requests_to_snoc (a : string) (requests : list (Z * @AgentMonitoring.request float))
    (q : Z * @AgentMonitoring.request float) :
  requests_to a (requests ++ [q])
  = if String.eqb (request_agent q) a then requests_to a requests ++ [q]
    else requests_to a requests.
Proof.
  unfold requests_to. rewrite List.filter_app. simpl.
  destruct (String.eqb (request_agent q) a); [done | by rewrite app_nil_r].
Qed.

Lemma deque_append_last (x : float) (ts : list float) :
  AgentMonitoring.deque_append 100 x (last_n 100 ts) = last_n 100 (ts ++ [x]).
Proof.
  unfold AgentMonitoring.deque_append, last_n.
  rewrite length_drop, length_app. change (length [x]) with 1%nat.
  destruct (le_lt_dec 100 (length ts)) as [Hfull|Hroom].
  - rewrite (proj2 (Nat.leb_le _ _)) by lia.
    rewrite (drop_app_le ts) by lia.
    rewrite (drop_app_le (drop _ ts)) by (rewrite length_drop; lia).
    rewrite drop_drop. do 2 f_equal. lia.
  - rewrite (proj2 (Nat.leb_gt _ _)) by lia.
    replace (length ts - 100)%nat with 0%nat by lia.
    replace (length ts + 1 - 100)%nat with 0%nat by lia. done.
Qed.

Lemma last_n_snoc_nonempty (x : float) (ts : list float) : last_n 100 (ts ++ [x]) <> [].
Proof.
  unfold last_n. intros Hnil. apply (f_equal length) in Hnil.
  rewrite length_drop, length_app in Hnil. cbn [length] in Hnil. lia.
Qed.

Lemma record_request_tracked metrics
    (requests : list (Z * @AgentMonitoring.request float))
    (now : Z) (agent_id : string) (success : bool) (response_time : float)
    (error_message : option string) :
  tracked mean percentage metrics requests ->
  tracked mean percentage
    (AgentMonitoring.record_request mean percentage zero hundred metrics now agent_id success
       response_time error_message)
          (requests ++ [(now, (agent_id, success, response_time, error_message))]).
Proof.
  intros Htracked a. unfold AgentMonitoring.record_request.
  rewrite requests_to_snoc. simpl request_agent.
  destruct (String.eqb agent_id a) eqn:Ea.
  - apply String.eqb_eq in Ea. subst a. rewrite lookup_insert_eq.
    specialize (Htracked agent_id).
    set (mine := requests_to agent_id requests) in *.
    assert (let m := default (AgentMonitoring.new_metrics zero hundred agent_id)
                       (metrics !! agent_id) in
            AgentMonitoring.agent_id m = agent_id /\
            AgentMonitoring.total_requests m = Z.of_nat (length mine) /\
            AgentMonitoring.successful_requests m
              = Z.of_nat (length (List.filter request_success mine)) /\
            AgentMonitoring.failed_requests m
              = Z.of_nat (length (List.filter (fun q => negb (request_success q)) mine)) /\
            AgentMonitoring.response_times m = last_n 100 (map request_time mine))
      as (Hid & Htotal & Hsucc & Hfail & Htimes).
    { destruct (metrics !! agent_id) as [m|]; simpl.
      - destruct Htracked as (_ & ? & ? & ? & ? & ? & _). by split_and!.
      - fold mine in Htracked. rewrite Htracked. by split_and!. }
    set (m0 := default _ _) in *.
    unfold recorded. cbv zeta. rewrite !requests_to_snoc. simpl request_agent.
    rewrite String.eqb_refl. fold mine.
    rewrite !List.filter_app, !length_app, map_app. simpl map.
    assert (AgentMonitoring.deque_append 100 response_time (AgentMonitoring.response_times m0)
            = last_n 100 (map request_time mine ++ [response_time])) as Hdeque
      by (rewrite Htimes; apply deque_append_last).
    pose proof (last_n_snoc_nonempty response_time (map request_time mine)) as Hne.
    split; [by destruct mine|].
    destruct success; simpl; rewrite Hdeque;
      unfold AgentMonitoring.success_rate; simpl;
      (destruct (last_n 100 (map request_time mine ++ [response_time])) eqn:Elast;
       [done|]);
      (destruct (AgentMonitoring.total_requests m0 + 1 =? 0) eqn:Ez;
       [apply Z.eqb_eq in Ez; lia|]);
      split_and!; try done; lia.
  - apply String.eqb_neq in Ea. rewrite lookup_insert_ne by done.
    specialize (Htracked a). destruct (metrics !! a) as [m|]; [|done].
    unfold recorded in *. cbv zeta in *. rewrite !requests_to_snoc. simpl request_agent.
    by rewrite (proj2 (String.eqb_neq _ _) Ea).
Qed.

Lemma record_all_tracked (rest : list (Z * @AgentMonitoring.request float)) :
  forall metrics (requests : list (Z * @AgentMonitoring.request float)),
    tracked mean percentage metrics requests ->
    tracked mean percentage (AgentMonitoring.record_all mean percentage zero hundred metrics rest)
      (requests ++ rest).
Proof.
  induction rest as [|[now [[[agent_id success] response_time] error_message]] rest IH];
    intros metrics requests Htracked.
  - by rewrite app_nil_r.
  - simpl. rewrite (cons_middle _ requests rest), app_assoc.
    apply IH. by apply record_request_tracked.
Qed.

End Monitoring.

(** X24.  The counters of the agent metrics add up.  After any
    sequence of requests was recorded on fresh metrics, an agent has
    metrics exactly when a request was made to it; its total is the
    number of its requests, its successes and failures are the numbers
    of its requests with that outcome, and the total is their sum. *)
Theorem request_counters_add_up {float : Type} (mean : list float -> float)
    (percentage : Z -> Z -> float) (zero hundred : float)
    (requests : list (Z * @AgentMonitoring.request float)) (a : string) :
  match AgentMonitoring.record_all mean percentage zero hundred ∅ requests !! a with
  | Some m =>
      requests_to a requests <> [] /\
      AgentMonitoring.agent_id m = a /\
      AgentMonitoring.total_requests m = Z.of_nat (length (requests_to a requests)) /\
      AgentMonitoring.successful_requests m
        = Z.of_nat (length (List.filter request_success (requests_to a requests))) /\
      AgentMonitoring.total_requests m
        = AgentMonitoring.successful_requests m + AgentMonitoring.failed_requests m
  | None => requests_to a requests = []
  end.
Proof.
  pose proof (record_all_tracked mean percentage zero hundred requests ∅ []
                ltac:(by intros a'; rewrite lookup_empty) a) as Ha.
  simpl in Ha.
  destruct (AgentMonitoring.record_all mean percentage zero hundred ∅ requests !! a)
    as [m|]; [|done].
  destruct Ha as (Hne & Hid & Htotal & Hsucc & Hfail & _).
  split_and!; try done. rewrite Htotal, Hsucc, Hfail.
  clear. induction (requests_to a requests) as [|q l IH]; [done|].
  simpl. destruct (request_success q); simpl length; lia.
Qed.

(** X25.  The response times are a window of one hundred.  After any
    sequence of requests was recorded on fresh metrics, the response
    times kept for an agent are those of its last hundred requests, in
    their order; the average is taken over this window, and the uptime
    is the percentage of successes among all requests. *)
Theorem response_times_are_a_window {float : Type} (mean : list float -> float)
    (percentage : Z -> Z -> float) (zero hundred : float)
    (requests : list (Z * @AgentMonitoring.request float))
    (a : string) (m : @AgentMonitoring.AgentMetrics float) :
  AgentMonitoring.record_all mean percentage zero hundred ∅ requests !! a = Some m ->
  AgentMonitoring.response_times m
    = last_n 100 (map request_time (requests_to a requests)) /\
  (length (AgentMonitoring.response_times m) <= 100)%nat /\
  AgentMonitoring.average_response_time m = mean (AgentMonitoring.response_times m) /\
  AgentMonitoring.uptime_percentage m
    = percentage (AgentMonitoring.successful_requests m) (AgentMonitoring.total_requests m).
Proof.
  intros Hm.
  pose proof (record_all_tracked mean percentage zero hundred requests ∅ []
                ltac:(by intros a'; rewrite lookup_empty) a) as Ha.
  simpl in Ha. rewrite Hm in Ha.
  destruct Ha as (_ & _ & _ & _ & _ & Htimes & Havg & Hup).
  split_and!; try done. rewrite Htimes. unfold last_n. rewrite length_drop. lia.
Qed.


(** Three requests to the Birmingham agent, the second of which failed;
    response times in milliseconds. *)
Lemma response_times_are_a_window_witness :
  let requests :=
    [(1000, ("birmingham_agent", true, 120, None));
     (2000, ("birmingham_agent", false, 950, Some "timeout"));
     (3000, ("birmingham_agent", true, 80, None))] in
  exists m,
    AgentMonitoring.record_all (fun _ => 0) (fun s n => s * 100 / n) 0 100 ∅ requests
      !! "birmingham_agent" = Some m /\
    AgentMonitoring.response_times m = [120; 950; 80].
Proof.
  intros requests. eexists. split; [reflexivity|].
  refine (proj1 (response_times_are_a_window (fun _ => 0) (fun s n => s * 100 / n) 0 100
                   requests "birmingham_agent" _ _)).
  reflexivity.
Defined.

Section KnowledgeBaseTurn.
Implicit Types (w : World).

(** The end of a turn: the text of the answer is made a message at the
    current time and appended, whatever the append returns. *)
Lemma store_text_outcome (ss : SessionService.t) (sid uid content : string)
    (mt : MessageType) (metadata : pydict) w :
  sid <> "" ->
  exists w',
    (ts <- datetime_now ;;
     message <- Message.new sid content mt ts metadata ;;
     SessionService.add_message_to_session ss sid uid message ;;
     ret tt) w
    = (if Py.is_empty (Py.strip content)
       then Raise (ValueError "content cannot be empty")
       else if Py.len content >? 10000
       then Raise (ValueError "content exceeds maximum length of 10000 characters")
       else Ret tt, w') /\
    sent w' = sent w.
Proof.
  intros Hsid.
  unfold bind at 1. unfold datetime_now, gets at 1.
  unfold Message.new. unfold bind at 1. unfold bind at 1. rewrite uuid4_eq.
  unfold bind at 1.
  unfold Message.__post_init__, bind at 1, datetime_now, gets, now, World_clock.
  cbn [Message.session_id Message.content Message.timestamp fst snd fresh_uuid World_uuid
       clock].
  rewrite (is_empty_false _ Hsid).
  destruct (Py.is_empty (Py.strip content)) eqn:Eb.
  { eexists. split; [reflexivity|]. by simpl. }
  cbn [clock]. rewrite (gtb_false (clock w) (clock w)) by lia.
  destruct (Py.len content >? 10000) eqn:El.
  { eexists. split; [reflexivity|]. by simpl. }
  unfold ret at 1. unfold ret at 1. unfold bind.
  match goal with
  | |- context [SessionService.add_message_to_session ?a ?b ?c ?d ?e] =>
      destruct (add_message_to_session_total a b c d e) as (ok & w5 & Hadd);
      pose proof (silent_add_message_to_session a b c d e _ _ Hadd) as (Hs5 & _);
      rewrite Hadd
  end.
  exists w5. split; [reflexivity|]. by rewrite Hs5.
Qed.

End KnowledgeBaseTurn.

(** X26.  How a knowledge-base question ends.  For a session with a
    knowledge base, [_handle_knowledge_base_query] sends the message,
    cleaned of the indicators, to that knowledge base; it yields the
    status "Searching knowledge base..." and one streaming fragment per
    chunk, and nothing else.  It raises the exception that ends the
    stream, returns when the text is empty, raises the [ValueError] of
    the message's validation when the text is blank or longer than
    10000 characters, and returns otherwise. *)
Theorem knowledge_base_turn_outcome (self : IntegrationService.t) (w : World)
    (s : Session.t) (user_message : string) (user_context : UserContext.t)
    (kb_id : string) (chunks : list string) (ending : option exn) :
  Session.session_id s <> "" ->
  Session.knowledge_base_id s = Some kb_id ->
  kb_id <> "" ->
  KnowledgeBaseService.query_knowledge_base (knowledge_base_service self) kb_id
    (clean (knowledge_base_indicators self) user_message) user_context = (chunks, ending) ->
  exists w',
    _handle_knowledge_base_query self s user_message user_context w
    = (match ending with
       | Some e => Raise e
       | None =>
           if Py.is_empty (concat_chunks chunks) then Ret tt
           else if Py.is_empty (Py.strip (concat_chunks chunks))
           then Raise (ValueError "content cannot be empty")
           else if Py.len (concat_chunks chunks) >? 10000
           then Raise (ValueError "content exceeds maximum length of 10000 characters")
           else Ret tt
       end, w') /\
    sent w' = sent w ++ status_fragment (clock w) "Searching knowledge base..."
                          :: map (chunk_fragment (clock w)) chunks.
Proof.
  intros Hsid Hkb Hne Hstream.
  unfold _handle_knowledge_base_query. rewrite Hkb.
  destruct kb_id as [|c kb_id]; [done|].
  unfold bind at 1. unfold _create_status_response, bind at 1, datetime_now, gets at 1.
  unfold ret at 1. unfold bind at 1. unfold yield, modify.
  set (w1 := {| clock := clock w; sent := sent w ++ _ |}).
  rewrite Hstream.
  unfold bind at 1. rewrite forward_stream_run.
  set (w3 := sending _ _).
  assert (sent w3 = sent w ++ status_fragment (clock w) "Searching knowledge base..."
                              :: map (chunk_fragment (clock w)) chunks) as Hs3.
  { subst w3 w1. simpl. by rewrite <- app_assoc. }
  destruct ending as [e|]; [by exists w3|].
  unfold Py.truthy.
  destruct (Py.is_empty (concat_chunks chunks)) eqn:Ee; simpl negb; cbv iota;
    [by exists w3|].
  destruct (store_text_outcome (session_service self) (Session.session_id s)
              (UserContext.user_id user_context) (concat_chunks chunks) ASSISTANT
              [("knowledge_base_id", VStr (String c kb_id)); ("query_type", VStr "rag");
               ("original_query", VStr user_message)] w3 Hsid) as (w' & Hrun & Hs').
  exists w'. split; [|by rewrite Hs'].
  rewrite <- Hrun. reflexivity.
Qed.

(** A knowledge base that answers with its identifier and the query it
    was sent: of "kb:", a no-break space and "Refund Policy" it is sent
    "Refund Policy". *)
Lemma knowledge_base_turn_outcome_witness :
  let s := Session.set_knowledge_base_id (Example.session [] 900) (Some "kb-7") in
  exists w',
    _handle_knowledge_base_query Example.service_echoing s
      ("kb:" +:+ Example.no_break_space +:+ "Refund Policy") Example.user
      (Example.store_with s 1000) = (Ret tt, w') /\
    sent w' = [status_fragment 1000 "Searching knowledge base...";
               chunk_fragment 1000 "kb-7"; chunk_fragment 1000 ": ";
               chunk_fragment 1000 "Refund Policy"].
Proof.
  intros s.
  apply (knowledge_base_turn_outcome Example.service_echoing (Example.store_with s 1000) s
           ("kb:" +:+ Example.no_break_space +:+ "Refund Policy")
           Example.user "kb-7" ["kb-7"; ": "; "Refund Policy"] None); done.
Defined.

(** X27.  A session without a knowledge base takes the first one that
    is listed.  When none is listed, [_handle_knowledge_base_query]
    yields the single error "No knowledge bases available" of the type
    "no_knowledge_bases" and asks nothing.  Otherwise it writes the
    first listed identifier to the session, without looking at the
    result of the write, and goes on as for a session that had this
    knowledge base. *)
Theorem knowledge_base_turn_default (self : IntegrationService.t) (w : World)
    (s : Session.t) (user_message : string) (user_context : UserContext.t) :
  Session.knowledge_base_id s = None \/ Session.knowledge_base_id s = Some "" ->
  (forall w1,
     KnowledgeBaseService.list_knowledge_bases (knowledge_base_service self) user_context w
       = (Ret [], w1) ->
     _handle_knowledge_base_query self s user_message user_context w
     = (Ret tt,
        sending [error_fragment (clock w1) "No knowledge bases available"
                   "no_knowledge_bases"] w1)) /\
  (forall kb_id rest w1,
     KnowledgeBaseService.list_knowledge_bases (knowledge_base_service self) user_context w
       = (Ret (kb_id :: rest), w1) ->
     kb_id <> "" ->
     exists success w2,
       SessionService.update_session (session_service self)
         (Session.set_knowledge_base_id s (Some kb_id)) w1 = (Ret success, w2) /\
       _handle_knowledge_base_query self s user_message user_context w
       = _handle_knowledge_base_query self (Session.set_knowledge_base_id s (Some kb_id))
           user_message user_context w2).
Proof.
  intros Hnone. split.
  - intros w1 Hlist. unfold _handle_knowledge_base_query.
    destruct Hnone as [-> | ->]; unfold bind at 1; rewrite Hlist; reflexivity.
  - intros kb_id rest w1 Hlist Hne.
    destruct (update_session_total (session_service self)
                (Session.set_knowledge_base_id s (Some kb_id)) w1) as (success & w2 & Hup).
    exists success, w2. split; [done|].
    unfold _handle_knowledge_base_query at 1.
    destruct kb_id as [|c kb_id]; [done|].
    destruct Hnone as [-> | ->]; unfold bind at 1; rewrite Hlist;
      unfold bind at 1; rewrite Hup; reflexivity.
Qed.

Lemma knowledge_base_turn_default_witness :
  _handle_knowledge_base_query Example.service (Example.session [] 900) "kb: leave policy"
    Example.user Example.fresh
  = (Ret tt,
     sending [error_fragment 1000 "No knowledge bases available" "no_knowledge_bases"]
       Example.fresh).
Proof.
  apply (proj1 (knowledge_base_turn_default Example.service Example.fresh
                  (Example.session [] 900) "kb: leave policy" Example.user
                  (or_introl eq_refl)) Example.fresh).
  reflexivity.
Defined.

(** X28.  What the decorator hands to the caller of a plain function
    while the breaker is not open.  A result is passed on and the
    breaker is closed without failures.  A failure is counted; the
    exception is raised again, unless its text contains "Circuit
    breaker is OPEN": then the caller gets the error response of the
    type "circuit_breaker_open", although the breaker let the call
    through. *)
Theorem decorator_outcomes {W : Type} `{Clock W} {A : Type}
    (func : Mon W A) (self : CircuitBreaker.t) (w : W) (module_name : string) :
  CircuitBreaker.state self <> CircuitBreaker.OPEN ->
  (forall a w', func w = (Ret a, w') ->
     exists self',
       CircuitBreaker.with_circuit_breaker module_name false func (self, w)
         = (Ret (inl a), (self', w')) /\
       CircuitBreaker.state self' = CircuitBreaker.CLOSED /\
       CircuitBreaker.failure_count self' = 0) /\
  (forall e w', func w = (Raise e, w') ->
     exists self',
       CircuitBreaker.failure_count self' = CircuitBreaker.failure_count self + 1 /\
       if Py.contains "Circuit breaker is OPEN" (str_exn e)
       then exists response,
              CircuitBreaker.with_circuit_breaker module_name false func (self, w)
                = (Ret (inr response), (self', w')) /\
              Fragment.type response = "error" /\
              Fragment.error_type response = Some "circuit_breaker_open" /\
              Fragment.content response
              = Py.title (Py.last_component "." module_name)
                  +:+ " is temporarily unavailable. Please try again later."
       else CircuitBreaker.with_circuit_breaker module_name false func (self, w)
              = (Raise e, (self', w'))).
Proof.
  intros Hst. split.
  - intros a w' Hf. unfold CircuitBreaker.with_circuit_breaker, try_except.
    unfold bind at 1. rewrite call_through, Hf by done.
    eexists. split; [reflexivity|]. done.
  - intros e w' Hf.
    pose proof (call_through func self w Hst) as Hcall. rewrite Hf in Hcall.
    cbv zeta in Hcall. cbn [CircuitBreaker.failure_count CircuitBreaker.failure_threshold]
      in Hcall.
    set (self1 := if _ >=? _ then _ else _) in Hcall.
    exists self1. split; [subst self1; by destruct (_ >=? _)|].
    destruct (Py.contains _ _) eqn:Hopen.
    + unfold CircuitBreaker.with_circuit_breaker, try_except.
      unfold bind at 1. rewrite Hcall, Hopen.
      eexists. split; [reflexivity|]. done.
    + unfold CircuitBreaker.with_circuit_breaker, try_except.
      unfold bind at 1. by rewrite Hcall, Hopen.
Qed.

Lemma decorator_outcomes_witness :
  exists self' response,
    CircuitBreaker.with_circuit_breaker "backend.services.bedrock_service" false
      (raise (Exception "upstream: Circuit breaker is OPEN") : Mon World unit)
      (CircuitBreaker.bedrock_circuit_breaker, Example.fresh)
    = (Ret (inr response), (self', Example.fresh)) /\
    Fragment.content response
    = "Bedrock_Service is temporarily unavailable. Please try again later.".
Proof.
  destruct (proj2 (decorator_outcomes
                     (raise (Exception "upstream: Circuit breaker is OPEN") : Mon World unit)
                     CircuitBreaker.bedrock_circuit_breaker Example.fresh
                     "backend.services.bedrock_service" ltac:(done))
              (Exception "upstream: Circuit breaker is OPEN") Example.fresh eq_refl)
    as (self' & _ & Hcase).
  destruct Hcase as (response & Hrun & _ & _ & Hcontent).
  exists self', response. split; [exact Hrun | exact Hcontent].
Defined.
